(** * replicon-cli: a shallow embedding of [replicon.py]

    The development follows the layout of the source file: the helper
    functions on dates and durations, the configuration loader
    [Config], the session [Replicon] with its request layer, and the
    timesheet object model ([Project], [Task], [TimesheetAllocation],
    [Timesheet]).  The listing operations of the session and the
    command-line front end are not part of it.

    Python values that come out of [json.loads] or are written as dict
    and list literals are modelled by the type [Py.value]; Python
    exceptions by [Py.exn], with [SystemExit] (raised by [sys.exit]) as
    one of them.  Pure code that can raise is written in the monad
    [outcome]; code that prints, talks to the network or touches files
    in the monad [IO], which threads a [world] that records the lines
    printed, the requests sent and the files.  A method that assigns to
    the attributes of [self] returns the object after the call
    together with what the call does.

    The first part holds the definitions, the second the properties. *)

From Stdlib Require Import ZArith String Ascii List Bool Lia.
From stdpp Require Import base option list strings gmap fin_maps.

Import ListNotations.

(** ** Python values, exceptions and outcomes *)

Module Py.

(** The exceptions the modelled code can raise.  [SystemExit] is what
    [sys.exit(code)] raises; it derives from [BaseException], not from
    [Exception], so an [except Exception] clause lets it through. *)
Inductive exn : Type :=
| KeyError
| TypeError
| ValueError
| AttributeError
| OverflowError
| UnboundLocalError
| IOError
| OSError
| ConnectionError
| NoSectionError
| NoOptionError
| SystemExit (code : Z).

Definition is_Exception (e : exn) : bool :=
  match e with
  | SystemExit _ => false
  | _ => true
  end.

(** The result of running a piece of Python: it returns or it raises. *)
Inductive outcome (A : Type) : Type :=
| Return (a : A)
| Raise (e : exn).

Arguments Return {A} a.
Arguments Raise {A} e.

(** JSON-shaped Python values.  Numbers are Python integers (unbounded,
    hence [Z]); floats are outside the model.  A dict is kept as the list
    of its items; all the operations below read it as a map (first
    binding of a key), and [eqb] compares dicts without regard to the
    order of the items, as Python does. *)
#[warnings="-register-all"]
Inductive value : Type :=
| VNone
| VBool (b : bool)
| VInt (z : Z)
| VStr (s : string)
| VList (l : list value)
| VDict (d : list (string * value)).

Fixpoint assoc {A : Type} (k : string) (d : list (string * A)) : option A :=
  match d with
  | [] => None
  | (k', v) :: d' => if String.eqb k k' then Some v else assoc k d'
  end.

(** [bool(v)] *)
Definition truthy (v : value) : bool :=
  match v with
  | VNone => false
  | VBool b => b
  | VInt z => negb (z =? 0)%Z
  | VStr s => negb (String.eqb s "")
  | VList l => negb (Nat.eqb (length l) 0)
  | VDict d => negb (Nat.eqb (length d) 0)
  end.

(** [a == b].  [True == 1] and [False == 0] hold in Python. *)
Fixpoint eqb (a b : value) {struct a} : bool :=
  match a, b with
  | VNone, VNone => true
  | VBool x, VBool y => Bool.eqb x y
  | VBool x, VInt y => (Z.b2z x =? y)%Z
  | VInt x, VBool y => (x =? Z.b2z y)%Z
  | VInt x, VInt y => (x =? y)%Z
  | VStr x, VStr y => String.eqb x y
  | VList xs, VList ys =>
      (fix all2 (xs ys : list value) {struct xs} : bool :=
         match xs, ys with
         | [], [] => true
         | x :: xs', y :: ys' => eqb x y && all2 xs' ys'
         | _, _ => false
         end) xs ys
  | VDict xs, VDict ys =>
      Nat.eqb (length xs) (length ys) &&
      (fix items (xs : list (string * value)) {struct xs} : bool :=
         match xs with
         | [] => true
         | (k, v) :: xs' =>
             match assoc k ys with
             | Some w => eqb v w
             | None => false
             end && items xs'
         end) xs
  | _, _ => false
  end.

(** A dict holds each key once; [wf] says so of every dict inside a
    value.  The values [json.loads] returns and the dict literals of
    the source all satisfy it. *)
Fixpoint unique_keys {A : Type} (d : list (string * A)) : bool :=
  match d with
  | [] => true
  | (k, _) :: d' =>
      match assoc k d' with
      | Some _ => false
      | None => unique_keys d'
      end
  end.

Fixpoint wf (v : value) : bool :=
  match v with
  | VList l => forallb wf l
  | VDict d => unique_keys d && forallb (fun kv => wf (snd kv)) d
  | _ => true
  end.

(** [v[k]] for a string key [k] *)
Definition getitem (v : value) (k : string) : outcome value :=
  match v with
  | VDict d =>
      match assoc k d with
      | Some x => Return x
      | None => Raise KeyError
      end
  | _ => Raise TypeError
  end.

(** [v.get(k)]: only dicts have the method *)
Definition get (v : value) (k : string) : outcome value :=
  match v with
  | VDict d =>
      match assoc k d with
      | Some x => Return x
      | None => Return VNone
      end
  | _ => Raise AttributeError
  end.

(** [for x in v]: the items a loop over [v] visits *)
Definition iter (v : value) : outcome (list value) :=
  match v with
  | VList l => Return l
  | VDict d => Return (map (fun kv => VStr (fst kv)) d)
  | VStr s => Return (map (fun c => VStr (String c EmptyString)) (list_ascii_of_string s))
  | _ => Raise TypeError
  end.

(** *** Strings *)

(** [s.split(sep)] for a one-character separator *)
Fixpoint split (sep : ascii) (s : string) : list string :=
  match s with
  | EmptyString => [EmptyString]
  | String c rest =>
      if Ascii.eqb c sep then EmptyString :: split sep rest
      else match split sep rest with
           | [] => [String c EmptyString]
           | h :: t => String c h :: t
           end
  end.

(** [sep.join(l)] *)
Fixpoint join (sep : string) (l : list string) : string :=
  match l with
  | [] => EmptyString
  | [x] => x
  | x :: l' => String.append x (String.append sep (join sep l'))
  end.

Definition is_space (c : ascii) : bool :=
  let n := nat_of_ascii c in
  Nat.eqb n 32 || (Nat.leb 9 n && Nat.leb n 13).

Definition digit_of (c : ascii) : option Z :=
  let n := Z.of_nat (nat_of_ascii c) in
  if (48 <=? n)%Z && (n <=? 57)%Z then Some (n - 48)%Z else None.

Fixpoint digits (acc : Z) (s : list ascii) : option Z :=
  match s with
  | [] => Some acc
  | c :: r =>
      match digit_of c with
      | Some d => digits (10 * acc + d)%Z r
      | None => None
      end
  end.

Fixpoint lstrip (s : list ascii) : list ascii :=
  match s with
  | c :: r => if is_space c then lstrip r else s
  | [] => []
  end.

Definition strip (s : list ascii) : list ascii :=
  rev (lstrip (rev (lstrip s))).

(** [int(s)] for a string: optional blanks around an optionally signed,
    non-empty run of decimal digits *)
Definition int_of_string (s : string) : outcome Z :=
  let body := strip (list_ascii_of_string s) in
  let '(neg, ds) :=
    match body with
    | "-"%char :: r => (true, r)
    | "+"%char :: r => (false, r)
    | _ => (false, body)
    end in
  match ds with
  | [] => Raise ValueError
  | _ =>
      match digits 0 ds with
      | Some n => Return (if neg then (- n)%Z else n)
      | None => Raise ValueError
      end
  end.

(** [int(v)] *)
Definition int (v : value) : outcome Z :=
  match v with
  | VInt z => Return z
  | VBool b => Return (Z.b2z b)
  | VStr s => int_of_string s
  | VNone | VList _ | VDict _ => Raise TypeError
  end.

(** [v.split(':')]: strings have the method, nothing else does *)
Definition split_colon (v : value) : outcome (list string) :=
  match v with
  | VStr s => Return (split ":"%char s)
  | _ => Raise AttributeError
  end.

End Py.

Export Py.

(** ** Induction on values

    The induction principle that reaches the values inside lists and
    dicts. *)

Section value_induction.
Variable P : value -> Prop.
Hypothesis HNone : P VNone.
Hypothesis HBool : forall b, P (VBool b).
Hypothesis HInt : forall z, P (VInt z).
Hypothesis HStr : forall s, P (VStr s).
Hypothesis HList : forall l, Forall P l -> P (VList l).
Hypothesis HDict : forall d, Forall (fun kv => P (snd kv)) d -> P (VDict d).

Fixpoint value_induction (v : value) : P v :=
  match v with
  | VNone => HNone
  | VBool b => HBool b
  | VInt z => HInt z
  | VStr s => HStr s
  | VList l =>
      HList l
        ((fix go (l : list value) : Forall P l :=
            match l with
            | [] => @List.Forall_nil _ P
            | x :: l' => @List.Forall_cons _ P x l' (value_induction x) (go l')
            end) l)
  | VDict d =>
      let Q := fun kv : string * value => P (snd kv) in
      HDict d
        ((fix go (d : list (string * value)) : Forall Q d :=
            match d with
            | [] => @List.Forall_nil _ Q
            | kv :: d' =>
                @List.Forall_cons _ Q kv d' (value_induction (snd kv)) (go d')
            end) d)
  end.
End value_induction.

(** ** Sequencing *)

Class Monad (M : Type -> Type) : Type := {
  ret : forall {A : Type}, A -> M A;
  bind : forall {A B : Type}, M A -> (A -> M B) -> M B
}.

Declare Scope py_scope.
Delimit Scope py_scope with py.

Notation "x <- c ;; k" := (bind c (fun x => k))
  (at level 100, c at next level, right associativity) : py_scope.
Notation "c ;; k" := (bind c (fun _ => k))
  (at level 100, right associativity) : py_scope.

Open Scope py_scope.

#[global] Instance outcome_Monad : Monad outcome := {|
  ret A a := Return a;
  bind A B m k :=
    match m with
    | Return a => k a
    | Raise e => Raise e
    end
|}.

(** [for x in l: body], threading the loop's variables as [acc] *)
Fixpoint for_each {M : Type -> Type} `{Monad M} {A S : Type}
    (l : list A) (body : S -> A -> M S) (acc : S) : M S :=
  match l with
  | [] => ret acc
  | x :: l' => acc' <- body acc x ;; for_each l' body acc'
  end.

(** [[f(x) for x in l]] *)
Fixpoint comprehension {M : Type -> Type} `{Monad M} {A B : Type}
    (f : A -> M B) (l : list A) : M (list B) :=
  match l with
  | [] => ret []
  | x :: l' => y <- f x ;; ys <- comprehension f l' ;; ret (y :: ys)
  end.

(** ** [datetime.date] *)

Module datetime.

Record date : Type := Date { year : Z; month : Z; day : Z }.

Definition is_leap (y : Z) : bool :=
  (y mod 4 =? 0)%Z && (negb (y mod 100 =? 0)%Z || (y mod 400 =? 0)%Z).

Definition days_in_month (y m : Z) : Z :=
  if (m =? 2)%Z then (if is_leap y then 29 else 28)%Z
  else if (m =? 4)%Z || (m =? 6)%Z || (m =? 9)%Z || (m =? 11)%Z then 30%Z
  else 31%Z.

(** The dates a [datetime.date] object can hold. *)
Definition valid (d : date) : bool :=
  (1 <=? year d)%Z && (year d <=? 9999)%Z &&
  (1 <=? month d)%Z && (month d <=? 12)%Z &&
  (1 <=? day d)%Z && (day d <=? days_in_month (year d) (month d))%Z.

Definition fits_c_int (z : Z) : bool :=
  (- 2147483648 <=? z)%Z && (z <=? 2147483647)%Z.

(** [datetime.date(y, m, d)]: the constructor converts its arguments to
    C ints and then checks the ranges. *)
Definition new (y m d : Z) : outcome date :=
  if negb (fits_c_int y && fits_c_int m && fits_c_int d) then Raise OverflowError
  else if valid (Date y m d) then Return (Date y m d)
  else Raise ValueError.

End datetime.

(** ** Module-level helpers of [replicon.py] *)

Definition date_to_dict (datetime_date : datetime.date) : value :=
  VDict [ ("year", VInt (datetime.year datetime_date));
          ("month", VInt (datetime.month datetime_date));
          ("day", VInt (datetime.day datetime_date)) ].

Definition dict_to_date (dict_date : value) : outcome datetime.date :=
  y <- getitem dict_date "year" ;;
  y <- Py.int y ;;
  m <- getitem dict_date "month" ;;
  m <- Py.int m ;;
  d <- getitem dict_date "day" ;;
  d <- Py.int d ;;
  datetime.new y m d.

Definition dict_to_seconds (dict_duration : value) : outcome Z :=
  let seconds := 0%Z in
  h <- getitem dict_duration "hours" ;;
  h <- Py.int h ;;
  let seconds := (seconds + h * 60 * 60)%Z in
  m <- getitem dict_duration "minutes" ;;
  m <- Py.int m ;;
  let seconds := (seconds + m * 60)%Z in
  s <- getitem dict_duration "seconds" ;;
  s <- Py.int s ;;
  let seconds := (seconds + s)%Z in
  ret seconds.

(** [uri.split(':')[-1]] *)
Definition uri_id (uri : value) : outcome string :=
  parts <- split_colon uri ;;
  ret (List.last parts EmptyString).

(** The duration dict of the wire protocol. *)
Definition duration_dict (h m s : Z) : value :=
  VDict [ ("hours", VInt h); ("minutes", VInt m); ("seconds", VInt s) ].

(** ** The object model *)

(** [v] as a Python string, for code that runs after a [str] method
    call on [v] has returned (any other value raised there). *)
Definition str_of (v : value) : outcome string :=
  match v with
  | VStr s => Return s
  | _ => Raise AttributeError
  end.

Module Client.

Record t : Type := {
  uri : string;
  id : string;
  displayText : value;
  name : value;
  slug : value
}.

Definition __init__ (json : value) : outcome t :=
  uri_v <- getitem json "uri" ;;
  id <- uri_id uri_v ;;
  uri <- str_of uri_v ;;
  displayText <- getitem json "displayText" ;;
  name <- getitem json "name" ;;
  slug <- getitem json "slug" ;;
  ret {| uri := uri; id := id; displayText := displayText;
         name := name; slug := slug |}.

End Client.

Module Project.

Record t : Type := {
  json : value;
  uri : string;
  id : string;
  displayText : value;
  name : value;
  slug : value
}.

(** [Project(json)]: [json] is the dict that holds the project under
    the key ['project'] *)
Definition __init__ (json : value) : outcome t :=
  project <- getitem json "project" ;;
  uri_v <- getitem project "uri" ;;
  id <- uri_id uri_v ;;
  uri <- str_of uri_v ;;
  displayText <- getitem project "displayText" ;;
  name <- getitem project "name" ;;
  slug <- getitem project "slug" ;;
  ret {| json := project; uri := uri; id := id;
         displayText := displayText; name := name; slug := slug |}.

End Project.

Module Task.

Record t : Type := {
  json : value;
  uri : string;
  id : string;
  displayText : value
}.

Definition __init__ (json : value) : outcome t :=
  task <- getitem json "task" ;;
  uri_v <- getitem task "uri" ;;
  id <- uri_id uri_v ;;
  uri <- str_of uri_v ;;
  displayText <- getitem task "displayText" ;;
  ret {| json := task; uri := uri; id := id; displayText := displayText |}.

End Task.

Module CustomField.

Record t : Type := {
  uri : value;
  displayText : value;
  name : value;
  groupUri : value
}.

Definition __init__ (json : value) : outcome t :=
  uri <- getitem json "uri" ;;
  displayText <- getitem json "displayText" ;;
  name <- getitem json "name" ;;
  groupUri <- getitem json "groupUri" ;;
  ret {| uri := uri; displayText := displayText; name := name;
         groupUri := groupUri |}.

End CustomField.

Module TimesheetAllocation.

Record t : Type := {
  json : value;
  date : datetime.date;
  comments : value;
  duration_seconds : Z;
  project : option Project.t;
  task : option Task.t;
  ticket_num : value;
  rowkey : string
}.

Definition fields : list string :=
  ["date"; "project"; "task"; "customFieldValues"].

(** The loop of [same_fields_as]: [same] stays [True] until a field
    differs, and the first difference leaves the loop. *)
Fixpoint same_fields_loop (fs : list string) (self_json json : value)
    (same : bool) : outcome bool :=
  match fs with
  | [] => ret same
  | f :: fs' =>
      a <- getitem json f ;;
      b <- getitem self_json f ;;
      if negb (Py.eqb a b) then ret false
      else same_fields_loop fs' self_json json same
  end.

Definition same_fields_as (self : t) (json' : value) : outcome bool :=
  same_fields_loop fields (json self) json' true.

(** The body of the loop over [json['customFieldValues']] *)
Definition ticket_step (ticket_num field : value) : outcome value :=
  cf <- getitem field "customField" ;;
  n <- getitem cf "name" ;;
  if Py.eqb n (VStr "Ticket #") then
    txt <- getitem field "text" ;;
    if truthy txt then getitem field "text" else ret ticket_num
  else ret ticket_num.

(** [self.project.uri] *)
Definition project_uri (project : option Project.t) : outcome string :=
  match project with
  | Some p => ret (Project.uri p)
  | None => Raise AttributeError
  end.

Definition __init__ (json : value) : outcome t :=
  d <- getitem json "date" ;;
  date <- dict_to_date d ;;
  comments <- getitem json "comments" ;;
  dur <- getitem json "duration" ;;
  duration_seconds <- dict_to_seconds dur ;;
  pj <- getitem json "project" ;;
  project <- (if truthy pj then p <- Project.__init__ json ;; ret (Some p)
              else ret None) ;;
  tj <- getitem json "task" ;;
  task <- (if truthy tj then t <- Task.__init__ json ;; ret (Some t)
           else ret None) ;;
  cfs <- getitem json "customFieldValues" ;;
  cfs <- Py.iter cfs ;;
  ticket_num <- for_each cfs ticket_step (VStr "") ;;
  key <- project_uri project ;;
  let key := match task with
             | Some t => String.append key (Task.uri t)
             | None => key
             end in
  ret {| json := json; date := date; comments := comments;
         duration_seconds := duration_seconds; project := project;
         task := task; ticket_num := ticket_num; rowkey := key |}.

(** [self.duration_seconds += duration] *)
Definition add_duration (self : t) (duration : Z) : t :=
  {| json := json self; date := date self; comments := comments self;
     duration_seconds := (duration_seconds self + duration)%Z;
     project := project self; task := task self;
     ticket_num := ticket_num self; rowkey := rowkey self |}.

End TimesheetAllocation.

Module Timesheet.

Record t : Type := {
  slug : value;
  uri : value;
  start_date : datetime.date;
  end_date : datetime.date;
  timeAllocations : list TimesheetAllocation.t
}.

Definition __init__ (json : value) : outcome t :=
  slug <- getitem json "slug" ;;
  uri <- getitem json "uri" ;;
  range <- getitem json "dateRange" ;;
  s <- getitem range "startDate" ;;
  start_date <- dict_to_date s ;;
  range <- getitem json "dateRange" ;;
  e <- getitem range "endDate" ;;
  end_date <- dict_to_date e ;;
  tas <- getitem json "timeAllocations" ;;
  tas <- Py.iter tas ;;
  timeAllocations <- comprehension TimesheetAllocation.__init__ tas ;;
  ret {| slug := slug; uri := uri; start_date := start_date;
         end_date := end_date; timeAllocations := timeAllocations |}.

(** [self.timeAllocations = l] *)
Definition set_timeAllocations (self : t) (l : list TimesheetAllocation.t) : t :=
  {| slug := slug self; uri := uri self; start_date := start_date self;
     end_date := end_date self; timeAllocations := l |}.

(** *** [put_json] *)

(** A row of the request, the dict literal stored under [rows[a.rowkey]];
    [row_project] and [row_task] are the uris under its ['project'] and
    ['task'] keys, [row_cells] the list under ['cells']. *)
Record row : Type := {
  row_project : string;
  row_task : option string;
  row_cells : list value
}.

Definition row_json (r : row) : value :=
  VDict [ ("target", VNone);
          ("project", VDict [("uri", VStr (row_project r))]);
          ("task", match row_task r with
                   | Some u => VDict [("uri", VStr u)]
                   | None => VNone
                   end);
          ("billingRate", VNone);
          ("activity", VNone);
          ("customFieldValues", VList []);
          ("cells", VList (row_cells r)) ].

Definition cell_json (a : TimesheetAllocation.t) : value :=
  VDict [ ("date", date_to_dict (TimesheetAllocation.date a));
          ("duration", VDict [("seconds", VInt (TimesheetAllocation.duration_seconds a))]);
          ("comments", TimesheetAllocation.comments a);
          ("customFieldValues", VList []) ].

(** [[rows[k] for k in rows]]: the rows in the dict's iteration order,
    which Python 2 leaves unspecified. *)
Definition dict_values (rows : gmap string row) : list row :=
  snd <$> map_to_list rows.

(** One turn of the loop over [self.timeAllocations].  The state is the
    dict [rows] and the list last stored under [data["timesheet"]["rows"]],
    which the loop rebuilds at the end of every turn. *)
Definition put_json_step (st : gmap string row * list row)
    (a : TimesheetAllocation.t) : outcome (gmap string row * list row) :=
  let rows := fst st in
  let cell := cell_json a in
  let task := option_map Task.uri (TimesheetAllocation.task a) in
  let k := TimesheetAllocation.rowkey a in
  rows' <- match rows !! k with
           | Some r =>
               ret (<[k := {| row_project := row_project r;
                              row_task := row_task r;
                              row_cells := row_cells r ++ [cell] |}]> rows)
           | None =>
               u <- TimesheetAllocation.project_uri (TimesheetAllocation.project a) ;;
               ret (<[k := {| row_project := u; row_task := task;
                              row_cells := [cell] |}]> rows)
           end ;;
  ret (rows', dict_values rows').

Definition put_rows (self : t) : outcome (list row) :=
  st <- for_each (timeAllocations self) put_json_step (∅, []) ;;
  ret (snd st).

Definition put_data (self : t) (rows : list row) : value :=
  VDict [ ("timesheet",
           VDict [ ("target", VDict [ ("uri", uri self);
                                      ("user", VNone);
                                      ("date", VNone) ]);
                   ("customFields", VList []);
                   ("rows", VList (row_json <$> rows));
                   ("noticeExplicitlyAccepted", VBool false);
                   ("bankedTime", VNone) ]) ].

Definition put_json (self : t) : outcome value :=
  rows <- put_rows self ;;
  ret (put_data self rows).

(** *** [book] *)

(** The dict [ta] that [book] builds.  [fieldset] is a parameter of
    [book] that its body never reads: the record's custom field values
    are always the empty list. *)
Definition book_record (date : datetime.date) (project : option Project.t)
    (task : option Task.t) (duration : Z) (comment : value) : value :=
  let project := match project with
                 | Some p => Project.json p
                 | None => VNone
                 end in
  let task := match task with
              | Some t => Task.json t
              | None => VNone
              end in
  VDict [ ("date", date_to_dict date);
          ("comments", comment);
          ("duration", duration_dict 0 0 duration);
          ("project", project);
          ("task", task);
          ("customFieldValues", VList []) ].

(** The loop over [self.timeAllocations]: the first allocation with the
    same fields gets the duration added and ends the loop.  The result
    is the list after the loop and the flag [updated]. *)
Fixpoint book_loop (tas : list TimesheetAllocation.t) (ta : value)
    (duration : Z) : outcome (list TimesheetAllocation.t * bool) :=
  match tas with
  | [] => ret ([], false)
  | tb :: rest =>
      same <- TimesheetAllocation.same_fields_as tb ta ;;
      if (same : bool) then ret (TimesheetAllocation.add_duration tb duration :: rest, true)
      else r <- book_loop rest ta duration ;;
           ret (tb :: fst r, snd r)
  end.

(** [book] changes the timesheet in place: the result is the timesheet
    after the call together with the call's outcome.  A call that raises
    has changed nothing (the loop raises before any update, and the
    allocation is built before it is appended).  [duration] is a number
    of seconds, an integer, as [duration_seconds += duration] needs. *)
Definition book (self : t) (date : datetime.date) (project : option Project.t)
    (task : option Task.t) (duration : Z) (comment : value)
    (fieldset : option (CustomField.t * value)) : t * outcome unit :=
  let ta := book_record date project task duration comment in
  match book_loop (timeAllocations self) ta duration with
  | Raise e => (self, Raise e)
  | Return (tas, true) => (set_timeAllocations self tas, Return tt)
  | Return (tas, false) =>
      match TimesheetAllocation.__init__ ta with
      | Raise e => (self, Raise e)
      | Return a => (set_timeAllocations self (tas ++ [a]), Return tt)
      end
  end.

End Timesheet.

(** ** The world: terminal, network and files *)

(** A printed line: the text of the [print] statement with the values
    it formats, or with the exception it prints.  The formatting itself
    is not modelled. *)
Inductive line : Type :=
| Line (text : string) (args : list value)
| LineExn (text : string) (e : exn).

(** A POST handed to [requests.post]: the url, the dict sent as JSON
    and the Basic-Auth pair, if any. *)
Record request : Type := {
  req_url : string;
  req_data : value;
  req_auth : option (string * string)
}.

(** What comes back: a body that [.json()] parses, or one it rejects. *)
Inductive response : Type :=
| Response (json : option value).

Module ConfigParser.

(** The sections of an INI file, each with its options.  Option names
    are looked up as written; the defaults section and the
    interpolation of values are not modelled. *)
Definition t : Type := list (string * list (string * string)).

Definition get (cfg : t) (section key : string) : outcome string :=
  match assoc section cfg with
  | None => Raise NoSectionError
  | Some opts =>
      match assoc key opts with
      | None => Raise NoOptionError
      | Some v => Return v
      end
  end.

End ConfigParser.

(** A file: what it holds, read as INI sections, and its permission bits. *)
Record file : Type := {
  content : ConfigParser.t;
  mode : Z
}.

(** [network] answers a request given everything sent so far (the
    request itself first); [None] is a transport failure, on which
    [requests.post] raises.  [Config_instance] is the [instance]
    attribute that the [Singleton] metaclass keeps for [Config].  Paths
    are written as in the source, [~] standing for the home directory. *)
Record world : Type := {
  stdout : list line;
  sent : list request;
  network : list request -> option response;
  files : gmap string file;
  umask : Z;
  Config_instance : option ConfigParser.t
}.

Definition IO (A : Type) : Type := world -> world * outcome A.

#[global] Instance IO_Monad : Monad IO := {|
  ret A a := fun w => (w, Return a);
  bind A B m k := fun w =>
    match m w with
    | (w', Return a) => k a w'
    | (w', Raise e) => (w', Raise e)
    end
|}.

Definition lift {A : Type} (o : outcome A) : IO A := fun w => (w, o).

Definition raise {A : Type} (e : exn) : IO A := fun w => (w, Raise e).

(** [sys.exit(code)] *)
Definition sys_exit {A : Type} (code : Z) : IO A := raise (SystemExit code).

(** [try: body / except Exception, e: handler(e)] *)
Definition try_except {A : Type} (body : IO A) (handler : exn -> IO A) : IO A :=
  fun w =>
    match body w with
    | (w', Raise e) => if is_Exception e then handler e w' else (w', Raise e)
    | r => r
    end.

Definition print (l : line) : IO unit := fun w =>
  ({| stdout := stdout w ++ [l]; sent := sent w; network := network w;
      files := files w; umask := umask w;
      Config_instance := Config_instance w |}, Return tt).

Definition requests_post (url : string) (data : value)
    (auth : option (string * string)) : IO response := fun w =>
  let sent' := {| req_url := url; req_data := data; req_auth := auth |} :: sent w in
  let w' := {| stdout := stdout w; sent := sent'; network := network w;
               files := files w; umask := umask w;
               Config_instance := Config_instance w |} in
  match network w sent' with
  | Some r => (w', Return r)
  | None => (w', Raise ConnectionError)
  end.

(** [rawReply.json()] *)
Definition response_json (r : response) : outcome value :=
  match r with
  | Response (Some j) => Return j
  | Response None => Raise ValueError
  end.

Definition set_files (w : world) (fs : gmap string file) : world :=
  {| stdout := stdout w; sent := sent w; network := network w;
     files := fs; umask := umask w; Config_instance := Config_instance w |}.

(** [with open(path, 'w') as f: cfg.write(f)]: a new file gets the
    permission bits [0o666 & ~umask], an existing one keeps its own. *)
Definition open_write (path : string) (c : ConfigParser.t) : IO unit := fun w =>
  let m := match files w !! path with
           | Some f => mode f
           | None => Z.land 438 (Z.lnot (umask w))
           end in
  (set_files w (<[path := {| content := c; mode := m |}]> (files w)), Return tt).

(** [os.chmod(path, m)] *)
Definition os_chmod (path : string) (m : Z) : IO unit := fun w =>
  match files w !! path with
  | Some f => (set_files w (<[path := {| content := content f; mode := m |}]> (files w)),
               Return tt)
  | None => (w, Raise OSError)
  end.

(** [cfg.read(path)]: the sections read, or [None] when the list of
    files read is empty *)
Definition ConfigParser_read (path : string) : IO (option ConfigParser.t) := fun w =>
  (w, Return (content <$> files w !! path)).

(** ** [Config] *)

Module Config.

Record t : Type := { cfg : ConfigParser.t }.

Definition template : ConfigParser.t :=
  [ ("auth", [ ("company", "CompanyKey");
               ("username", "user@example.com");
               ("password", "replicon_password") ]) ].

Definition _create_empty_config : IO unit :=
  open_write "~/.repliconrc" template ;;
  os_chmod "~/.togglrc" 384.

Definition __init__ : IO t :=
  r <- ConfigParser_read "~/.repliconrc" ;;
  match r with
  | None => _create_empty_config ;; raise IOError
  | Some c => ret {| cfg := c |}
  end.

(** [Config()]: [Singleton.__call__] builds the instance on the first
    call and hands out the same one afterwards. *)
Definition call : IO t := fun w =>
  match Config_instance w with
  | Some c => (w, Return {| cfg := c |})
  | None =>
      match __init__ w with
      | (w', Return c) =>
          ({| stdout := stdout w'; sent := sent w'; network := network w';
              files := files w'; umask := umask w';
              Config_instance := Some (cfg c) |}, Return c)
      | r => r
      end
  end.

Definition get (self : t) (section key : string) : outcome string :=
  v <- ConfigParser.get (cfg self) section key ;;
  ret (string_of_list_ascii (Py.strip (list_ascii_of_string v))).

Definition get_auth (self : t) : outcome (string * string) :=
  company <- get self "auth" "company" ;;
  username <- get self "auth" "username" ;;
  password <- get self "auth" "password" ;;
  ret (String.append company (String.append "\" username), password).

End Config.

(** ** [Replicon]: the session and its request layer *)

Module Replicon.

Record t : Type := {
  date : datetime.date;
  debug : bool;
  companyKey : string;
  loginName : string;
  auth : string * string;
  swimlane : value;
  userURI : value;
  uri : string;
  timesheet : option Timesheet.t;
  clients : list Client.t
}.

(** [self.swimlane + url] *)
Definition full_url (swimlane : value) (url : string) : outcome string :=
  match swimlane with
  | VStr base => Return (String.append base url)
  | _ => Raise TypeError
  end.

Definition _getUrl (self : t) (url : string) (data_dict : value) : IO value :=
  try_except
    (fullUrl <- lift (full_url (swimlane self) url) ;;
     (if debug self then
        print (Line "--- POST ------------------------------" []) ;;
        print (Line "URL:" [VStr fullUrl]) ;;
        print (Line "Data:" [data_dict])
      else ret tt) ;;
     rawReply <- requests_post fullUrl data_dict (Some (auth self)) ;;
     jsonReply <- lift (response_json rawReply) ;;
     err <- lift (Py.get jsonReply "error") ;;
     if truthy err then
       print (Line "Error: {0}" [err]) ;;
       sys_exit 1
     else
       (if debug self then print (Line "Reply:" [jsonReply]) else ret tt) ;;
       lift (getitem jsonReply "d"))
    (fun e =>
       print (Line "<built-in method format of str object>" []) ;;
       print (LineExn "" e) ;;
       sys_exit 1).

Definition swimlaneFinderUrl : string :=
  "https://global.replicon.com/DiscoveryService1.svc/GetTenantEndpointDetails".

(** The loop over [users] in [__init__].  The local [loginUserURI] is
    bound only once a user matches: [None] is the unbound local.  The
    loop has no [break]. *)
Definition scan_step (loginName : string) (loginUserURI : option value)
    (user : value) : outcome (option value) :=
  n <- getitem user "loginName" ;;
  if Py.eqb n (VStr loginName) then
    u <- getitem user "uri" ;;
    ret (Some u)
  else ret loginUserURI.

Definition scan_users (users : list value) (loginName : string)
    : outcome (option value) :=
  for_each users (scan_step loginName) None.

Definition __init__ (date : datetime.date) (debug : bool) : IO t :=
  c <- Config.call ;;
  companyKey <- lift (Config.get c "auth" "company") ;;
  c <- Config.call ;;
  loginName <- lift (Config.get c "auth" "username") ;;
  c <- Config.call ;;
  auth <- lift (Config.get_auth c) ;;
  let swimlaneFinderJsonBody :=
    VDict [("tenant", VDict [("companyKey", VStr companyKey)])] in
  swimlane <-
    try_except
      (swimlaneFinder <- requests_post swimlaneFinderUrl swimlaneFinderJsonBody None ;;
       swimlaneFinder <- lift (response_json swimlaneFinder) ;;
       err <- lift (Py.get swimlaneFinder "error") ;;
       if truthy err then
         print (Line "Error: {0}" [err]) ;;
         sys_exit 1
       else
         d <- lift (getitem swimlaneFinder "d") ;;
         lift (getitem d "applicationRootUrl"))
      (fun e => print (LineExn "Error: {0}" e) ;; sys_exit 1) ;;
  let self := {| date := date; debug := debug; companyKey := companyKey;
                 loginName := loginName; auth := auth; swimlane := swimlane;
                 userURI := VStr ""; uri := ""; timesheet := None;
                 clients := [] |} in
  users <- _getUrl self "services/UserService1.svc/GetEnabledUsers" (VDict []) ;;
  users <- lift (Py.iter users) ;;
  loginUserURI <- lift (scan_users users loginName) ;;
  match loginUserURI with
  | None => raise UnboundLocalError
  | Some u =>
      if negb (truthy u) then
        print (Line "Error: unable to find current user URI for %s" [VStr loginName]) ;;
        sys_exit 1
      else
        parts <- lift (split_colon u) ;;
        ret {| date := date; debug := debug; companyKey := companyKey;
               loginName := loginName; auth := auth; swimlane := swimlane;
               userURI := u; uri := Py.join ":" (take 3 parts);
               timesheet := None; clients := [] |}
  end.

Definition putTimesheet (self : t) (timesheet_json : value) : IO unit :=
  _getUrl self "services/TimesheetService1.svc/PutStandardTimesheet2" timesheet_json ;;
  ret tt.

End Replicon.

(** ** [Timesheet.put] and [Timesheet.clear]

    Both go through the session, which the model passes as an argument
    in place of the back reference [self.replicon]. *)

Definition Timesheet_put (replicon : Replicon.t) (self : Timesheet.t) : IO unit :=
  j <- lift (Timesheet.put_json self) ;;
  Replicon.putTimesheet replicon j.

(** [clear] first empties the list, then sends the timesheet: the
    result is the timesheet after the assignment and the request that
    follows it. *)
Definition Timesheet_clear (replicon : Replicon.t) (self : Timesheet.t)
    : Timesheet.t * IO unit :=
  let self := Timesheet.set_timeAllocations self [] in
  (self, Timesheet_put replicon self).

(** ** Vocabulary of the statements *)

(** [j] has the four keys that [same_fields_as] reads. *)
Definition has_fields (j : value) : Prop :=
  forall f, In f TimesheetAllocation.fields -> exists v, getitem j f = Return v.

(** The allocation [self] and the record [j] have identical date,
    project, task and custom field values: under each of the four keys
    the two hold values that compare equal. *)
Definition identical (self : TimesheetAllocation.t) (j : value) : Prop :=
  forall f, In f TimesheetAllocation.fields ->
    exists a b, getitem j f = Return a /\
                getitem (TimesheetAllocation.json self) f = Return b /\
                Py.eqb a b = true.

(** The loop of [book] over [tas] stops at index [i], on [tb]: [tb] has
    the same fields as [ta] and no allocation before it has. *)
Definition merges_at (tas : list TimesheetAllocation.t) (ta : value)
    (i : nat) (tb : TimesheetAllocation.t) : Prop :=
  tas !! i = Some tb /\
  TimesheetAllocation.same_fields_as tb ta = Return true /\
  forall j tb', j < i -> tas !! j = Some tb' ->
    TimesheetAllocation.same_fields_as tb' ta = Return false.

(** The allocations of [tas] that carry the row key [k], in order. *)
Definition allocations_of_row (k : string) (tas : list TimesheetAllocation.t)
    : list TimesheetAllocation.t :=
  filter (fun a => TimesheetAllocation.rowkey a = k) tas.

(** The row that the allocations with key [k] make up, if there are
    any: project and task are those of the first of them, and each of
    them gives one cell. *)
Definition row_of (k : string) (tas : list TimesheetAllocation.t)
    : option Timesheet.row :=
  match allocations_of_row k tas with
  | [] => None
  | (a0 :: _) as l =>
      Some {| Timesheet.row_project :=
                match TimesheetAllocation.project a0 with
                | Some p => Project.uri p
                | None => EmptyString
                end;
              Timesheet.row_task := option_map Task.uri (TimesheetAllocation.task a0);
              Timesheet.row_cells := Timesheet.cell_json <$> l |}
  end.

Definition has_project (a : TimesheetAllocation.t) : Prop :=
  exists p, TimesheetAllocation.project a = Some p.

(** "One row per allocation": the request has as many rows as the
    timesheet has allocations, each row with a single cell. *)
Definition one_row_per_allocation (self : Timesheet.t) : Prop :=
  forall rows, Timesheet.put_rows self = Return rows ->
    length rows = length (Timesheet.timeAllocations self) /\
    Forall (fun r => length (Timesheet.row_cells r) = 1) rows.

(** The request that [_getUrl self url data] posts when the swimlane
    is the string [base]. *)
Definition api_request (self : Replicon.t) (base url : string) (data : value)
    : request :=
  {| req_url := String.append base url; req_data := data;
     req_auth := Some (Replicon.auth self) |}.

(** The lines that [_getUrl] prints before the request when the debug
    flag is set. *)
Definition debug_lines (self : Replicon.t) (base url : string) (data : value)
    : list line :=
  if Replicon.debug self then
    [ Line "--- POST ------------------------------" [];
      Line "URL:" [VStr (String.append base url)];
      Line "Data:" [data] ]
  else [].

(** "Otherwise the call returns the response's 'd' field": whenever the
    reply is JSON without a truthy ['error'] field, the call returns
    what the reply holds under ['d']. *)
Definition returns_d_unless_error (self : Replicon.t) (url : string) (data : value)
    (w : world) : Prop :=
  forall (base : string) (j : value),
    Replicon.swimlane self = VStr base ->
    network w (api_request self base url data :: sent w) = Some (Response (Some j)) ->
    (forall e, Py.get j "error" = Return e -> truthy e = false) ->
    exists d, getitem j "d" = Return d /\
              snd (Replicon._getUrl self url data w) = Return d.

(** An allocation as the program holds it: its JSON is one the
    constructor accepts.  The constructor keeps the JSON it was given
    and [book] never changes it, so this holds of every allocation of
    every timesheet the program builds. *)
Definition TimesheetAllocation_built (a : TimesheetAllocation.t) : Prop :=
  exists a0, TimesheetAllocation.__init__ (TimesheetAllocation.json a) = Return a0.

(** An object built by its constructor. *)
Definition Project_built (p : Project.t) : Prop :=
  exists j, Project.__init__ j = Return p.

Definition Task_built (t : Task.t) : Prop :=
  exists j, Task.__init__ j = Return t.

(** ** Sample data

    Concrete values of the wire protocol, used where a statement is
    instantiated: the project "P1" and the task "T1" of the tenant
    [acme], a Tuesday in January 2024, and allocations on them. *)

Module Sample.

Definition P1_json : value :=
  VDict [ ("uri", VStr "urn:replicon-tenant:acme:project:7");
          ("displayText", VStr "P1");
          ("name", VStr "P1");
          ("slug", VStr "p1") ].

Definition T1_json : value :=
  VDict [ ("uri", VStr "urn:replicon-tenant:acme:task:9");
          ("displayText", VStr "T1") ].

Definition P1 : Project.t :=
  {| Project.json := P1_json;
     Project.uri := "urn:replicon-tenant:acme:project:7";
     Project.id := "7";
     Project.displayText := VStr "P1";
     Project.name := VStr "P1";
     Project.slug := VStr "p1" |}.

Definition T1 : Task.t :=
  {| Task.json := T1_json;
     Task.uri := "urn:replicon-tenant:acme:task:9";
     Task.id := "9";
     Task.displayText := VStr "T1" |}.

Definition jan (d : Z) : datetime.date := datetime.Date 2024 1 d.

(** An allocation as the server sends it (the keys in another order
    than the client writes them). *)
Definition allocation_json (d : datetime.date) (seconds : Z) (project task : value)
    : value :=
  VDict [ ("customFieldValues", VList []);
          ("task", task);
          ("project", project);
          ("duration", duration_dict 0 0 seconds);
          ("comments", VStr "standup");
          ("date", VDict [ ("day", VInt (datetime.day d));
                           ("month", VInt (datetime.month d));
                           ("year", VInt (datetime.year d)) ]) ].

Definition timesheet_json (allocations : list value) : value :=
  VDict [ ("slug", VStr "2024-01-01");
          ("uri", VStr "urn:replicon-tenant:acme:timesheet:41");
          ("dateRange", VDict [ ("startDate", date_to_dict (jan 1));
                                ("endDate", date_to_dict (jan 7)) ]);
          ("timeAllocations", VList allocations) ].

(** The allocation that the constructor builds from
    [allocation_json d seconds P1_json T1_json]. *)
Definition allocation (d : datetime.date) (seconds : Z) : TimesheetAllocation.t :=
  {| TimesheetAllocation.json := allocation_json d seconds P1_json T1_json;
     TimesheetAllocation.date := d;
     TimesheetAllocation.comments := VStr "standup";
     TimesheetAllocation.duration_seconds := seconds;
     TimesheetAllocation.project := Some P1;
     TimesheetAllocation.task := Some T1;
     TimesheetAllocation.ticket_num := VStr "";
     TimesheetAllocation.rowkey :=
       String.append (Project.uri P1) (Task.uri T1) |}.

(** The timesheet that the constructor builds from [timesheet_json]. *)
Definition timesheet (allocations : list TimesheetAllocation.t) : Timesheet.t :=
  {| Timesheet.slug := VStr "2024-01-01";
     Timesheet.uri := VStr "urn:replicon-tenant:acme:timesheet:41";
     Timesheet.start_date := jan 1;
     Timesheet.end_date := jan 7;
     Timesheet.timeAllocations := allocations |}.

Definition empty_timesheet : Timesheet.t := timesheet [].

(** One allocation of an hour on P1/T1 on 2 January. *)
Definition one_hour : Timesheet.t := timesheet [allocation (jan 2) 3600].

(** Two allocations on P1/T1, on 2 and 3 January. *)
Definition two_days : Timesheet.t :=
  timesheet [allocation (jan 2) 3600; allocation (jan 3) 1800].

(** *** A session and its surroundings *)

Definition swimlane_url : string := "https://na1.replicon.com/acme/".

Definition session : Replicon.t :=
  {| Replicon.date := jan 2;
     Replicon.debug := false;
     Replicon.companyKey := "acme";
     Replicon.loginName := "kim";
     Replicon.auth := ("acme\kim", "secret");
     Replicon.swimlane := VStr swimlane_url;
     Replicon.userURI := VStr "urn:replicon-tenant:acme:user:3";
     Replicon.uri := "urn:replicon-tenant:acme";
     Replicon.timesheet := None;
     Replicon.clients := [] |}.

Definition config_file : file :=
  {| content := [ ("auth", [ ("company", "acme");
                             ("username", "kim");
                             ("password", "secret") ]) ];
     mode := 384 |}.

Definition user (loginName uri : string) : value :=
  VDict [ ("loginName", VStr loginName); ("uri", VStr uri) ].

Definition bob : value := user "bob" "urn:replicon-tenant:acme:user:2".
Definition kim : value := user "kim" "urn:replicon-tenant:acme:user:3".

(** A server that answers the discovery call with the swimlane and
    every other call with [{"d": payload}]. *)
Definition server (payload : value) (history : list request) : option response :=
  match history with
  | r :: _ =>
      if String.eqb (req_url r) Replicon.swimlaneFinderUrl then
        Some (Response (Some (VDict [("d", VDict [("applicationRootUrl",
                                                    VStr swimlane_url)])])))
      else Some (Response (Some (VDict [("d", payload)])))
  | [] => None
  end.

(** A server that answers every call with an API error. *)
Definition rejecting_server (history : list request) : option response :=
  Some (Response (Some (VDict [("error", VStr "invalid session")]))).

(** A server that answers every call with the empty JSON object. *)
Definition bare_server (history : list request) : option response :=
  Some (Response (Some (VDict []))).

Definition world_of (net : list request -> option response)
    (fs : gmap string file) : world :=
  {| stdout := []; sent := []; network := net; files := fs; umask := 18;
     Config_instance := None |}.

(** A machine with the configuration of kim at acme in place. *)
Definition configured (net : list request -> option response) : world :=
  world_of net {[ "~/.repliconrc" := config_file ]}.

(** A fresh home directory: no configuration file of any kind. *)
Definition fresh_home : world := world_of rejecting_server ∅.

(** A home directory that holds the file of the other tool only,
    readable by everyone. *)
Definition toggl_home : world :=
  world_of rejecting_server {[ "~/.togglrc" := {| content := []; mode := 420 |} ]}.

End Sample.

(** ** The other methods of the session

    [getClients], [getClient], [getProjects] and [getProject] assign to
    [self.timesheet] and [self.clients]: they run in [Method], which
    threads the session beside the world, so that the attributes
    assigned before an exception are kept. *)

Definition Method (A : Type) : Type :=
  Replicon.t -> world -> (Replicon.t * world) * outcome A.

#[global] Instance Method_Monad : Monad Method := {|
  ret A a := fun self w => ((self, w), Return a);
  bind A B m k := fun self w =>
    match m self w with
    | (sw, Return a) => k a (fst sw) (snd sw)
    | (sw, Raise e) => (sw, Raise e)
    end
|}.

(** A call that reads the session and leaves its attributes alone. *)
Definition reading {A : Type} (f : Replicon.t -> IO A) : Method A :=
  fun self w => ((self, fst (f self w)), snd (f self w)).

(** [self.timesheet = ts] *)
Definition set_timesheet (ts : Timesheet.t) : Method unit := fun self w =>
  (({| Replicon.date := Replicon.date self;
       Replicon.debug := Replicon.debug self;
       Replicon.companyKey := Replicon.companyKey self;
       Replicon.loginName := Replicon.loginName self;
       Replicon.auth := Replicon.auth self;
       Replicon.swimlane := Replicon.swimlane self;
       Replicon.userURI := Replicon.userURI self;
       Replicon.uri := Replicon.uri self;
       Replicon.timesheet := Some ts;
       Replicon.clients := Replicon.clients self |}, w), Return tt).

(** [self.clients = cs] *)
Definition set_clients (cs : list Client.t) : Method unit := fun self w =>
  (({| Replicon.date := Replicon.date self;
       Replicon.debug := Replicon.debug self;
       Replicon.companyKey := Replicon.companyKey self;
       Replicon.loginName := Replicon.loginName self;
       Replicon.auth := Replicon.auth self;
       Replicon.swimlane := Replicon.swimlane self;
       Replicon.userURI := Replicon.userURI self;
       Replicon.uri := Replicon.uri self;
       Replicon.timesheet := Replicon.timesheet self;
       Replicon.clients := cs |}, w), Return tt).

Module TimesheetPeriod.

Record t : Type := {
  start_date : datetime.date;
  end_date : datetime.date
}.

Definition __init__ (json : value) : outcome t :=
  range <- getitem json "dateRange" ;;
  s <- getitem range "startDate" ;;
  start_date <- dict_to_date s ;;
  range <- getitem json "dateRange" ;;
  e <- getitem range "endDate" ;;
  end_date <- dict_to_date e ;;
  ret {| start_date := start_date; end_date := end_date |}.

End TimesheetPeriod.

Module TimesheetEntryCustomFieldPositionDetails.

Record t : Type := {
  customField : CustomField.t;
  positionOutputUri : value
}.

Definition __init__ (json : value) : outcome t :=
  cf <- getitem json "customField" ;;
  customField <- CustomField.__init__ cf ;;
  positionOutputUri <- getitem json "positionOptionUri" ;;
  ret {| customField := customField; positionOutputUri := positionOutputUri |}.

End TimesheetEntryCustomFieldPositionDetails.

(** [s.startswith(prefix)] on strings *)
Fixpoint string_startswith (prefix s : string) : bool :=
  match prefix, s with
  | EmptyString, _ => true
  | String a p', String b s' => Ascii.eqb a b && string_startswith p' s'
  | String _ _, EmptyString => false
  end.

(** [v.startswith(prefix)]: strings have the method, nothing else does *)
Definition startswith (v : value) (prefix : string) : outcome bool :=
  match v with
  | VStr s => Return (string_startswith prefix s)
  | _ => Raise AttributeError
  end.

Module Session.

(** [self.timesheet.uri] *)
Definition timesheet_uri (self : Replicon.t) : outcome value :=
  match Replicon.timesheet self with
  | Some ts => Return (Timesheet.uri ts)
  | None => Raise AttributeError
  end.

Definition getTimesheetPeriods (self : Replicon.t)
    (start_date end_date : option datetime.date) : IO (list TimesheetPeriod.t) :=
  let url := "services/TimeSheetPeriodService1.svc/GetTimesheetPeriodsForUser" in
  let start_date := match start_date with
                    | Some d => d
                    | None => Replicon.date self
                    end in
  let end_date := match end_date with
                  | Some d => d
                  | None => Replicon.date self
                  end in
  let data :=
    VDict [ ("userUri", Replicon.userURI self);
            ("dateRange",
             VDict [ ("startDate", date_to_dict start_date);
                     ("endDate", date_to_dict end_date);
                     ("relativeDateRangeUri", VNone);
                     ("relativeDateRangeAsOfDate", VNone) ]) ] in
  reply <- Replicon._getUrl self url data ;;
  ps <- lift (Py.iter reply) ;;
  lift (comprehension TimesheetPeriod.__init__ ps).

Definition getTimesheet (self : Replicon.t) (a_date : option datetime.date)
    : IO Timesheet.t :=
  let a_date := match a_date with
                | Some d => d
                | None => Replicon.date self
                end in
  let url := "services/TimeSheetService1.svc/GetTimesheetForDate2" in
  let data :=
    VDict [ ("userUri", Replicon.userURI self);
            ("date", date_to_dict a_date);
            ("timesheetGetOptionUri", VNone) ] in
  timesheet <- Replicon._getUrl self url data ;;
  timesheet <- lift (getitem timesheet "timesheet") ;;
  let url := "services/TimeSheetService1.svc/GetTimesheetDetails" in
  uri <- lift (getitem timesheet "uri") ;;
  let data := VDict [ ("timesheetUri", uri) ] in
  details <- Replicon._getUrl self url data ;;
  lift (Timesheet.__init__ details).

Definition getClientsAvailableForTimesheet (self : Replicon.t)
    (timesheet : Timesheet.t) : IO (list Client.t) :=
  let url := "services/TimesheetService1.svc/GetPageOfClientsAvailableForTimeAllocationFilteredByTextSearch" in
  let data :=
    VDict [ ("page", VInt 1);
            ("pageSize", VInt 10000);
            ("timesheetUri", Timesheet.uri timesheet);
            ("textSearch", VNone) ] in
  reply <- Replicon._getUrl self url data ;;
  cs <- lift (Py.iter reply) ;;
  lift (comprehension Client.__init__ cs).

(** The [getTimesheet], then the [getClientsAvailableForTimesheet] on
    the timesheet the session now holds. *)
Definition fetch_clients : Method unit :=
  ts <- reading (fun self => ret (Replicon.timesheet self)) ;;
  match ts with
  | None =>
      ts <- reading (fun self => getTimesheet self None) ;;
      set_timesheet ts
  | Some _ => ret tt
  end ;;
  cs <- reading (fun self =>
          match Replicon.timesheet self with
          | Some ts => getClientsAvailableForTimesheet self ts
          | None => raise AttributeError
          end) ;;
  set_clients cs.

Definition getClients : Method (list Client.t) :=
  cs <- reading (fun self => ret (Replicon.clients self)) ;;
  match cs with
  | [] => fetch_clients
  | _ :: _ => ret tt
  end ;;
  reading (fun self => ret (Replicon.clients self)).

(** [search == c.id or search == c.displayText or search == c.name] *)
Definition client_matches (search : value) (c : Client.t) : bool :=
  Py.eqb search (VStr (Client.id c)) ||
  Py.eqb search (Client.displayText c) ||
  Py.eqb search (Client.name c).

(** A loop that returns the first item the test accepts, and [None]
    when it runs to its end. *)
Fixpoint first_match {A : Type} (test : A -> bool) (l : list A) : option A :=
  match l with
  | [] => None
  | x :: l' => if test x then Some x else first_match test l'
  end.

Definition getClient (search : value) : Method (option Client.t) :=
  getClients ;;
  cs <- reading (fun self => ret (Replicon.clients self)) ;;
  ret (first_match (client_matches search) cs).

Definition getProjectsAvailableForTimesheetAndClient (self : Replicon.t)
    (timesheet_uri client_uri : value) : IO (list Project.t) :=
  let url := "services/TimesheetService1.svc/GetPageOfProjectsAvailableForTimeAllocationFilteredByClientAndTextSearch" in
  let data :=
    VDict [ ("page", VInt 1);
            ("pageSize", VInt 10000);
            ("timesheetUri", timesheet_uri);
            ("clientUri", client_uri);
            ("textSearch", VNone);
            ("clientNullFilterBehaviorUri",
             VStr "urn:replicon:client-null-filter-behavior:filtered") ] in
  reply <- Replicon._getUrl self url data ;;
  ps <- lift (Py.iter reply) ;;
  lift (comprehension Project.__init__ ps).

(** The loop of [getProjects] over [self.clients]: [client_uri] becomes
    the uri of every cached client with the uri of [client] in turn. *)
Fixpoint find_client_uri (client : Client.t) (cs : list Client.t)
    (client_uri : value) : value :=
  match cs with
  | [] => client_uri
  | c :: cs' =>
      find_client_uri client cs'
        (if String.eqb (Client.uri c) (Client.uri client)
         then VStr (Client.uri c) else client_uri)
  end.

Definition getProjects (client : option Client.t) : Method (list Project.t) :=
  client_uri <-
    match client with
    | Some client =>
        getClients ;;
        cs <- reading (fun self => ret (Replicon.clients self)) ;;
        ret (find_client_uri client cs VNone)
    | None =>
        ts <- reading (fun self => getTimesheet self None) ;;
        set_timesheet ts ;;
        ret VNone
    end ;;
  reading (fun self =>
    uri <- lift (timesheet_uri self) ;;
    getProjectsAvailableForTimesheetAndClient self uri client_uri).

Definition project_matches (search : value) (p : Project.t) : bool :=
  Py.eqb search (VStr (Project.id p)) ||
  Py.eqb search (Project.displayText p) ||
  Py.eqb search (Project.name p).

Definition getProject (client : option Client.t) (search : value)
    : Method (option Project.t) :=
  projects <- getProjects client ;;
  ret (first_match (project_matches search) projects).

Definition getTasksAvailableForTimesheetAndProject (self : Replicon.t)
    (timesheet_uri : value) (project_uri : string) : IO (list Task.t) :=
  let url := "services/TimesheetService1.svc/GetPageOfTasksAvailableForTimeAllocationFilteredByProjectAndTextSearch" in
  let data :=
    VDict [ ("page", VInt 1);
            ("pageSize", VInt 10000);
            ("timesheetUri", timesheet_uri);
            ("projectUri", VStr project_uri);
            ("textSearch", VNone) ] in
  reply <- Replicon._getUrl self url data ;;
  ts <- lift (Py.iter reply) ;;
  lift (comprehension (fun t => tt' <- getitem t "task" ;; Task.__init__ tt') ts).

Definition getTasks (self : Replicon.t) (project : option Project.t)
    : IO (list Task.t) :=
  match project with
  | Some project =>
      uri <- lift (timesheet_uri self) ;;
      getTasksAvailableForTimesheetAndProject self uri (Project.uri project)
  | None => ret []
  end.

Definition task_matches (search : value) (t : Task.t) : bool :=
  Py.eqb search (VStr (Task.id t)) ||
  Py.eqb search (Task.displayText t).

Definition getTask (self : Replicon.t) (project : option Project.t)
    (search : value) : IO (option Task.t) :=
  tasks <- getTasks self project ;;
  ret (first_match (task_matches search) tasks).

Definition getStandardTimesheetEntryCustomFieldPositionDetails (self : Replicon.t)
    : IO (list TimesheetEntryCustomFieldPositionDetails.t) :=
  let url := "services/TimesheetService1.svc/GetStandardTimesheetEntryCustomFieldPositionDetails" in
  reply <- Replicon._getUrl self url (VDict []) ;;
  fs <- lift (Py.iter reply) ;;
  lift (comprehension TimesheetEntryCustomFieldPositionDetails.__init__ fs).

Definition pou : string :=
  "urn:replicon:standard-timesheet-entry-custom-field-position-option:row-".

(** One turn of the loop of [getTimesheetEntryCustomField] *)
Definition field_step (name : value) (field : option CustomField.t)
    (f : TimesheetEntryCustomFieldPositionDetails.t)
    : outcome (option CustomField.t) :=
  row <- startswith (TimesheetEntryCustomFieldPositionDetails.positionOutputUri f) pou ;;
  if (row : bool) then
    if Py.eqb (CustomField.name (TimesheetEntryCustomFieldPositionDetails.customField f)) name
    then ret (Some (TimesheetEntryCustomFieldPositionDetails.customField f))
    else ret field
  else ret field.

Definition getTimesheetEntryCustomField (self : Replicon.t) (name : value)
    : IO (option CustomField.t) :=
  fields <- getStandardTimesheetEntryCustomFieldPositionDetails self ;;
  lift (for_each fields (field_step name) None).

End Session.

(** ** Printing objects *)

(** The decimal digit [n mod 10] as a character *)
Definition digit_char (n : Z) : ascii :=
  ascii_of_nat (48 + Z.to_nat (n mod 10)).

(** ["%02d" % n] and ["%04d" % n], for the numbers a date holds *)
Definition two_digits (n : Z) : string :=
  String (digit_char (n / 10)) (String (digit_char n) EmptyString).

Definition four_digits (n : Z) : string :=
  String (digit_char (n / 1000))
    (String (digit_char (n / 100))
       (String (digit_char (n / 10)) (String (digit_char n) EmptyString))).

(** [d.isoformat()], which is also what [print d] writes *)
Definition isoformat (d : datetime.date) : string :=
  String.append (four_digits (datetime.year d))
    (String.append "-"
       (String.append (two_digits (datetime.month d))
          (String.append "-" (two_digits (datetime.day d))))).

(** [d - datetime.timedelta(1)]: the day before, which does not exist
    for the first day of year 1 *)
Definition day_before (d : datetime.date) : outcome datetime.date :=
  let y := datetime.year d in
  let m := datetime.month d in
  if (1 <? datetime.day d)%Z then Return (datetime.Date y m (datetime.day d - 1))
  else if (1 <? m)%Z then
    Return (datetime.Date y (m - 1) (datetime.days_in_month y (m - 1)))
  else if (1 <? y)%Z then Return (datetime.Date (y - 1) 12 31)
  else Raise OverflowError.

(** [Task.__repr__], as the line that [print t] writes *)
Definition Task_repr (t : Task.t) : line :=
  Line "%s. %s" [VStr (Task.id t); Task.displayText t].

(** [TimesheetAllocation.__repr__], as the line that [print a] writes *)
Definition TimesheetAllocation_repr (a : TimesheetAllocation.t) : line :=
  match TimesheetAllocation.task a with
  | Some t =>
      Line "TimesheetAllocation %s, %s, %s, %s"
        [ VStr (isoformat (TimesheetAllocation.date a));
          VInt (TimesheetAllocation.duration_seconds a);
          Task.displayText t;
          TimesheetAllocation.comments a ]
  | None =>
      Line "TimesheetAllocation %s, %s, %s"
        [ VStr (isoformat (TimesheetAllocation.date a));
          VInt (TimesheetAllocation.duration_seconds a);
          TimesheetAllocation.comments a ]
  end.

(** [d != s] for a date [d] and a string [s]: a [datetime.date] is
    equal to no string. *)
Definition date_ne_str (d : datetime.date) (s : string) : bool := true.

(** [Timesheet.list].  The local [date] is set to [''] before the loop
    and never assigned again. *)
Definition Timesheet_list (self : Timesheet.t) : IO unit :=
  let date := EmptyString in
  for_each (Timesheet.timeAllocations self)
    (fun (_ : unit) a =>
       (if date_ne_str (TimesheetAllocation.date a) date
        then print (Line "" [VStr (isoformat (TimesheetAllocation.date a))])
        else ret tt) ;;
       print (TimesheetAllocation_repr a))
    tt ;;
  print (Line "" []).

(** Whether the character [c] occurs in [s] *)
Fixpoint contains (c : ascii) (s : string) : bool :=
  match s with
  | EmptyString => false
  | String a s' => Ascii.eqb a c || contains c s'
  end.

(** ** The command-line front end *)

Module CLI.

Definition HISTORY_LENGTH : nat := 5.

(** What an [argparse] type function gives: the value, or
    [ArgumentTypeError] with its message and the text it was given. *)
Inductive parsed (A : Type) : Type :=
| Accepted (a : A)
| ArgumentTypeError (text arg : string).

Arguments Accepted {A} a.
Arguments ArgumentTypeError {A} text arg.

(** [k, v = s.split(':')] unpacks a list of exactly two items; any
    other length raises [ValueError], which the function turns into
    [ArgumentTypeError]. *)
Definition valid_key_value (s : string) : parsed (string * string) :=
  match Py.split ":"%char s with
  | [k; v] => Accepted (k, v)
  | _ => ArgumentTypeError "Not a valid 'KEY:VALUE' string '{0}'." s
  end.

Definition valid_duration (s : string) : string := s.

(** The loop over the allocations of one timesheet in [taskhistory]:
    a task is appended when no task of the history has its uri. *)
Definition history_step (history : list Task.t) (allocation : TimesheetAllocation.t)
    : list Task.t :=
  match TimesheetAllocation.task allocation with
  | Some t =>
      if existsb (String.eqb (Task.uri t)) (map Task.uri history) then history
      else history ++ [t]
  | None => history
  end.

(** The [while] loop of [taskhistory], run for at most [fuel] turns:
    [None] says that the loop has not ended by then. *)
Fixpoint history_loop (fuel : nat) (replicon : Replicon.t) (day : datetime.date)
    (history : list Task.t) : IO (option (list Task.t)) :=
  if Nat.ltb (length history) HISTORY_LENGTH then
    match fuel with
    | O => ret None
    | S fuel' =>
        timesheet <- Session.getTimesheet replicon (Some day) ;;
        let history :=
          fold_left history_step (Timesheet.timeAllocations timesheet) history in
        day <- lift (day_before (Timesheet.start_date timesheet)) ;;
        history_loop fuel' replicon day history
    end
  else ret (Some history).

(** [taskhistory(args)], with [args.date] as [date]; the result says
    whether the command came to its end within [fuel] turns of its
    loop. *)
Definition taskhistory (fuel : nat) (replicon : Replicon.t) (date : datetime.date)
    : IO bool :=
  print (Line "Most recent %d tasks:" [VInt (Z.of_nat HISTORY_LENGTH)]) ;;
  history <- history_loop fuel replicon date [] ;;
  match history with
  | Some history =>
      for_each (take HISTORY_LENGTH history)
        (fun (_ : unit) t => print (Task_repr t)) tt ;;
      ret true
  | None => ret false
  end.

(** [timesheet(args)] *)
Definition timesheet (replicon : Replicon.t) (date : datetime.date) : IO unit :=
  timesheet <- Session.getTimesheet replicon (Some date) ;;
  Timesheet_list timesheet.

(** [clear(args)] *)
Definition clear (replicon : Replicon.t) (date : datetime.date) : IO unit :=
  timesheet <- Session.getTimesheet replicon (Some date) ;;
  snd (Timesheet_clear replicon timesheet).

End CLI.

(** ** A sample tenant

    A server that knows the session's calls by their urls, and what it
    answers to each: the clients C1 and C2, the project P1 and the task
    T1 of the other sample data, and two custom fields. *)

Module Fixture.

Definition timesheet_uri : value := VStr "urn:replicon-tenant:acme:timesheet:41".

Definition C1_json : value :=
  VDict [ ("uri", VStr "urn:replicon-tenant:acme:client:1");
          ("displayText", VStr "C1");
          ("name", VStr "Client One");
          ("slug", VStr "c1") ].

Definition C2_json : value :=
  VDict [ ("uri", VStr "urn:replicon-tenant:acme:client:2");
          ("displayText", VStr "C2");
          ("name", VStr "1");
          ("slug", VStr "c2") ].

Definition C1 : Client.t :=
  {| Client.uri := "urn:replicon-tenant:acme:client:1";
     Client.id := "1";
     Client.displayText := VStr "C1";
     Client.name := VStr "Client One";
     Client.slug := VStr "c1" |}.

Definition C2 : Client.t :=
  {| Client.uri := "urn:replicon-tenant:acme:client:2";
     Client.id := "2";
     Client.displayText := VStr "C2";
     Client.name := VStr "1";
     Client.slug := VStr "c2" |}.

(** A client of another tenant, which the server never lists. *)
Definition stranger : Client.t :=
  {| Client.uri := "urn:replicon-tenant:other:client:9";
     Client.id := "9";
     Client.displayText := VStr "C9";
     Client.name := VStr "Client Nine";
     Client.slug := VStr "c9" |}.

Definition field_json (uri name position : string) : value :=
  VDict [ ("customField",
           VDict [ ("uri", VStr uri);
                   ("displayText", VStr name);
                   ("name", VStr name);
                   ("groupUri", VStr "urn:replicon:custom-field-group:timesheet") ]);
          ("positionOptionUri", VStr position) ].

Definition field (uri name : string) : CustomField.t :=
  {| CustomField.uri := VStr uri;
     CustomField.displayText := VStr name;
     CustomField.name := VStr name;
     CustomField.groupUri := VStr "urn:replicon:custom-field-group:timesheet" |}.

Definition fields_json : value :=
  VList [ field_json "urn:replicon-tenant:acme:custom-field:1" "Ticket #"
            "urn:replicon:standard-timesheet-entry-custom-field-position-option:row-1";
          field_json "urn:replicon-tenant:acme:custom-field:2" "Ticket #"
            "urn:replicon:standard-timesheet-entry-custom-field-position-option:cell-1";
          field_json "urn:replicon-tenant:acme:custom-field:3" "Ticket #"
            "urn:replicon:standard-timesheet-entry-custom-field-position-option:row-2";
          field_json "urn:replicon-tenant:acme:custom-field:4" "Cost centre"
            "urn:replicon:standard-timesheet-entry-custom-field-position-option:row-3" ].

(** The payload for a call, by the path of its url. *)
Definition payload (clients allocations : list value) (path : string) : value :=
  if String.eqb path "services/UserService1.svc/GetEnabledUsers" then
    VList [Sample.bob; Sample.kim]
  else if String.eqb path "services/TimeSheetService1.svc/GetTimesheetForDate2" then
    VDict [ ("timesheet", VDict [ ("uri", timesheet_uri) ]) ]
  else if String.eqb path "services/TimeSheetService1.svc/GetTimesheetDetails" then
    Sample.timesheet_json allocations
  else if String.eqb path
            "services/TimesheetService1.svc/GetPageOfClientsAvailableForTimeAllocationFilteredByTextSearch" then
    VList clients
  else if String.eqb path
            "services/TimesheetService1.svc/GetPageOfProjectsAvailableForTimeAllocationFilteredByClientAndTextSearch" then
    VList [VDict [("project", Sample.P1_json)]]
  else if String.eqb path
            "services/TimesheetService1.svc/GetPageOfTasksAvailableForTimeAllocationFilteredByProjectAndTextSearch" then
    VList [VDict [("task", VDict [("task", Sample.T1_json)])]]
  else if String.eqb path
            "services/TimesheetService1.svc/GetStandardTimesheetEntryCustomFieldPositionDetails" then
    fields_json
  else VNone.

(** [s] without the swimlane in front, when it starts with it *)
Fixpoint strip_prefix (prefix s : string) : string :=
  match prefix, s with
  | String a p', String b s' => if Ascii.eqb a b then strip_prefix p' s' else s
  | _, _ => s
  end.

Definition server (clients allocations : list value) (history : list request)
    : option response :=
  match history with
  | r :: _ =>
      if String.eqb (req_url r) Replicon.swimlaneFinderUrl then
        Some (Response (Some (VDict [("d", VDict [("applicationRootUrl",
                                                    VStr Sample.swimlane_url)])])))
      else
        Some (Response (Some
          (VDict [("d", payload clients allocations
                          (strip_prefix Sample.swimlane_url (req_url r)))])))
  | [] => None
  end.

(** A machine that is configured for kim at acme and talks to the
    sample tenant, whose timesheet holds the given allocations. *)
Definition tenant (clients allocations : list value) : world :=
  Sample.configured (server clients allocations).

Definition office : world :=
  tenant [C1_json; C2_json]
        [ Sample.allocation_json (Sample.jan 2) 3600 Sample.P1_json Sample.T1_json;
          Sample.allocation_json (Sample.jan 3) 1800 Sample.P1_json Sample.T1_json ].

(** A week with six tasks booked, the first of them twice. *)
Definition task_json (n : string) : value :=
  VDict [ ("uri", VStr (String.append "urn:replicon-tenant:acme:task:" n));
          ("displayText", VStr (String.append "T" n)) ].

Definition busy : world :=
  tenant [C1_json; C2_json]
    (map (fun n => Sample.allocation_json (Sample.jan 2) 3600 Sample.P1_json (task_json n))
         ["1"; "2"; "1"; "3"; "4"; "5"; "6"]).

End Fixture.

(** ** [book] for any duration

    [Timesheet.book] above takes the duration as a number of seconds.
    The method itself puts no condition on the object it is given, and
    the [book] subcommand hands it the text of the command line, which
    [valid_duration] returns as it is.  [Timesheet_book] is the method
    with the duration as a Python value. *)

(** [tb.duration_seconds += duration], the left operand being an int:
    an int or a bool is added; for any other right operand the addition
    raises [TypeError] and the attribute stays as it was. *)
Definition iadd_duration (tb : TimesheetAllocation.t) (duration : value)
    : outcome TimesheetAllocation.t :=
  match duration with
  | VInt z => Return (TimesheetAllocation.add_duration tb z)
  | VBool b => Return (TimesheetAllocation.add_duration tb (Z.b2z b))
  | VNone | VStr _ | VList _ | VDict _ => Raise TypeError
  end.

(** The dict [ta] of [book], with the duration as it was given *)
Definition book_record_of (date : datetime.date) (project : option Project.t)
    (task : option Task.t) (duration : value) (comment : value) : value :=
  let project := match project with
                 | Some p => Project.json p
                 | None => VNone
                 end in
  let task := match task with
              | Some t => Task.json t
              | None => VNone
              end in
  VDict [ ("date", date_to_dict date);
          ("comments", comment);
          ("duration", VDict [ ("hours", VInt 0); ("minutes", VInt 0);
                               ("seconds", duration) ]);
          ("project", project);
          ("task", task);
          ("customFieldValues", VList []) ].

(** The loop of [book] over [self.timeAllocations] *)
Fixpoint book_loop_of (tas : list TimesheetAllocation.t) (ta : value)
    (duration : value) : outcome (list TimesheetAllocation.t * bool) :=
  match tas with
  | [] => ret ([], false)
  | tb :: rest =>
      same <- TimesheetAllocation.same_fields_as tb ta ;;
      if (same : bool) then
        tb' <- iadd_duration tb duration ;;
        ret (tb' :: rest, true)
      else r <- book_loop_of rest ta duration ;;
           ret (tb :: fst r, snd r)
  end.

(** [Timesheet.book]: the timesheet after the call, and the outcome of
    the call.  A call that raises has changed nothing. *)
Definition Timesheet_book (self : Timesheet.t) (date : datetime.date)
    (project : option Project.t) (task : option Task.t) (duration : value)
    (comment : value) (fieldset : option (CustomField.t * value))
    : Timesheet.t * outcome unit :=
  let ta := book_record_of date project task duration comment in
  match book_loop_of (Timesheet.timeAllocations self) ta duration with
  | Raise e => (self, Raise e)
  | Return (tas, true) => (Timesheet.set_timeAllocations self tas, Return tt)
  | Return (tas, false) =>
      match TimesheetAllocation.__init__ ta with
      | Raise e => (self, Raise e)
      | Return a => (Timesheet.set_timeAllocations self (tas ++ [a]), Return tt)
      end
  end.

(** ** Vocabulary of the further statements *)

(** The two requests of [getTimesheet] *)
Definition lookup_request (self : Replicon.t) (base : string) (d : datetime.date)
    : request :=
  api_request self base "services/TimeSheetService1.svc/GetTimesheetForDate2"
    (VDict [ ("userUri", Replicon.userURI self);
             ("date", date_to_dict d);
             ("timesheetGetOptionUri", VNone) ]).

Definition details_request (self : Replicon.t) (base : string) (uri : value)
    : request :=
  api_request self base "services/TimeSheetService1.svc/GetTimesheetDetails"
    (VDict [ ("timesheetUri", uri) ]).

(** The request of [getClientsAvailableForTimesheet] *)
Definition clients_request (self : Replicon.t) (base : string) (timesheet_uri : value)
    : request :=
  api_request self base
    "services/TimesheetService1.svc/GetPageOfClientsAvailableForTimeAllocationFilteredByTextSearch"
    (VDict [ ("page", VInt 1);
             ("pageSize", VInt 10000);
             ("timesheetUri", timesheet_uri);
             ("textSearch", VNone) ]).

(** The request of [getProjectsAvailableForTimesheetAndClient] *)
Definition projects_request (self : Replicon.t) (base : string)
    (timesheet_uri client_uri : value) : request :=
  api_request self base
    "services/TimesheetService1.svc/GetPageOfProjectsAvailableForTimeAllocationFilteredByClientAndTextSearch"
    (VDict [ ("page", VInt 1);
             ("pageSize", VInt 10000);
             ("timesheetUri", timesheet_uri);
             ("clientUri", client_uri);
             ("textSearch", VNone);
             ("clientNullFilterBehaviorUri",
              VStr "urn:replicon:client-null-filter-behavior:filtered") ]).

(** The two requests of [Replicon.__init__] *)
Definition discovery_request (companyKey : string) : request :=
  {| req_url := Replicon.swimlaneFinderUrl;
     req_data := VDict [("tenant", VDict [("companyKey", VStr companyKey)])];
     req_auth := None |}.

Definition users_request (auth : string * string) (base : string) : request :=
  {| req_url := String.append base "services/UserService1.svc/GetEnabledUsers";
     req_data := VDict [];
     req_auth := Some auth |}.

(** The custom field of [f] is positioned on the rows of a timesheet
    and has the name [name]: the test of [getTimesheetEntryCustomField]. *)
Definition row_field (name : value) (f : TimesheetEntryCustomFieldPositionDetails.t)
    : Prop :=
  startswith (TimesheetEntryCustomFieldPositionDetails.positionOutputUri f) Session.pou
    = Return true /\
  Py.eqb (CustomField.name (TimesheetEntryCustomFieldPositionDetails.customField f)) name
    = true.

(** The custom field value [field] is a ticket number with the text
    [txt]: its custom field is named ['Ticket #'] and its text is
    truthy, the test of the loop in [TimesheetAllocation.__init__]. *)
Definition holds_ticket (field txt : value) : Prop :=
  exists cf n,
    getitem field "customField" = Return cf /\
    getitem cf "name" = Return n /\
    Py.eqb n (VStr "Ticket #") = true /\
    getitem field "text" = Return txt /\
    truthy txt = true.

(** A booking: the arguments of one call of [Timesheet.book] *)
Record booking : Type := {
  booking_date : datetime.date;
  booking_project : option Project.t;
  booking_task : option Task.t;
  booking_duration : Z;
  booking_comment : value;
  booking_fieldset : option (CustomField.t * value)
}.

(** The timesheet after the bookings [bs] in turn; a call that raises
    leaves the timesheet as it was. *)
Definition book_all (self : Timesheet.t) (bs : list booking) : Timesheet.t :=
  fold_left
    (fun s b =>
       fst (Timesheet.book s (booking_date b) (booking_project b) (booking_task b)
              (booking_duration b) (booking_comment b) (booking_fieldset b)))
    bs self.

(** The configuration that [Config()] hands out in the world [w]: the
    one the process has kept from an earlier call or, when it has kept
    none, what [~/.repliconrc] holds. *)
Definition configuration_of (w : world) (c : ConfigParser.t) : Prop :=
  match Config_instance w with
  | Some c0 => c = c0
  | None => exists f, files w !! "~/.repliconrc" = Some f /\ content f = c
  end.

(** [a_date], or [self.date] when the caller gives none *)
Definition date_or_default (self : Replicon.t) (a_date : option datetime.date)
    : datetime.date :=
  match a_date with
  | Some d => d
  | None => Replicon.date self
  end.

(** * Properties *)

(** ** Sequencing in [outcome] *)

Lemma bind_Return {A B : Type} (m : outcome A) (k : A -> outcome B) (b : B) :
  bind m k = Return b -> exists a, m = Return a /\ k a = Return b.
Proof. destruct m as [a|e]; cbn; [eauto | discriminate]. Qed.

(** Split a hypothesis [x <- m ;; ... = Return b] into its steps. *)
Ltac inv_bind H :=
  repeat match type of H with
  | bind ?m ?k = Return ?b =>
      let a := fresh "x" in
      let E := fresh "E" in
      apply bind_Return in H as (a & E & H)
  end.

(** Run one step of a sequence whose result [H] gives. *)
Ltac step H := rewrite H; cbn [bind ret outcome_Monad str_of].

(** ** Dates and durations *)

(** C7: for every calendar date D, [dict_to_date (date_to_dict D)]
    returns D. *)
Theorem date_roundtrip (D : datetime.date) :
  datetime.valid D = true ->
  dict_to_date (date_to_dict D) = Return D.
Proof.
  intros HD. destruct D as [y m d].
  unfold dict_to_date, date_to_dict; cbn.
  unfold datetime.new. rewrite HD.
  unfold datetime.valid in HD; cbn in HD.
  assert (Hd : (d <=? datetime.days_in_month y m)%Z = true) by
    (repeat (apply andb_prop in HD as [HD ?]); assumption).
  assert (Hdm : (datetime.days_in_month y m <= 31)%Z).
  { unfold datetime.days_in_month.
    repeat match goal with |- context [if ?b then _ else _] => destruct b end; lia. }
  assert (Hfit : datetime.fits_c_int y && datetime.fits_c_int m && datetime.fits_c_int d = true).
  { unfold datetime.fits_c_int.
    repeat (apply andb_prop in HD as [HD ?]).
    repeat (apply andb_true_intro; split); lia. }
  rewrite Hfit. reflexivity.
Qed.

Lemma date_roundtrip_witness :
  datetime.valid (Sample.jan 2) = true /\
  dict_to_date (date_to_dict (Sample.jan 2)) = Return (Sample.jan 2).
Proof.
  split; [reflexivity | apply (date_roundtrip (Sample.jan 2)); reflexivity].
Defined.

(** A date that [dict_to_date] returns is a calendar date. *)
Lemma dict_to_date_valid (j : value) (D : datetime.date) :
  dict_to_date j = Return D -> datetime.valid D = true.
Proof.
  unfold dict_to_date. intros H. inv_bind H.
  unfold datetime.new in H.
  destruct (negb _); [discriminate|].
  destruct (datetime.valid _) eqn:Hv; [|discriminate].
  now injection H as <-.
Qed.

Lemma dict_to_seconds_ints (d : list (string * value)) (h m s : Z) :
  assoc "hours" d = Some (VInt h) ->
  assoc "minutes" d = Some (VInt m) ->
  assoc "seconds" d = Some (VInt s) ->
  dict_to_seconds (VDict d) = Return (h * 3600 + m * 60 + s)%Z.
Proof.
  intros Hh Hm Hs. unfold dict_to_seconds, getitem.
  rewrite Hh, Hm, Hs. cbn. f_equal. lia.
Qed.

(** C8: for all non-negative h, m, s, [dict_to_seconds] of the duration
    dict with hours h, minutes m and seconds s returns
    h*3600 + m*60 + s. *)
Theorem dict_to_seconds_total (h m s : Z) :
  (0 <= h)%Z -> (0 <= m)%Z -> (0 <= s)%Z ->
  dict_to_seconds (duration_dict h m s) = Return (h * 3600 + m * 60 + s)%Z.
Proof.
  intros _ _ _. unfold duration_dict.
  apply dict_to_seconds_ints; reflexivity.
Qed.

Lemma dict_to_seconds_total_witness :
  dict_to_seconds (duration_dict 1 30 15) = Return 5415%Z.
Proof. apply (dict_to_seconds_total 1 30 15); lia. Defined.

(** ** Constructors of the object model *)

(** The sample objects are what the constructors build from the
    sample JSON. *)
Lemma Sample_P1_built :
  Project.__init__ (VDict [("project", Sample.P1_json)]) = Return Sample.P1.
Proof. reflexivity. Qed.

Lemma Sample_T1_built :
  Task.__init__ (VDict [("task", Sample.T1_json)]) = Return Sample.T1.
Proof. reflexivity. Qed.

Lemma Sample_two_days_built :
  Timesheet.__init__
    (Sample.timesheet_json
       [ Sample.allocation_json (Sample.jan 2) 3600 Sample.P1_json Sample.T1_json;
         Sample.allocation_json (Sample.jan 3) 1800 Sample.P1_json Sample.T1_json ])
  = Return Sample.two_days.
Proof. reflexivity. Qed.

Lemma Sample_one_hour_built :
  Timesheet.__init__
    (Sample.timesheet_json
       [Sample.allocation_json (Sample.jan 2) 3600 Sample.P1_json Sample.T1_json])
  = Return Sample.one_hour.
Proof. reflexivity. Qed.

Lemma Project_init_inv (j : value) (p : Project.t) :
  Project.__init__ j = Return p ->
  getitem j "project" = Return (Project.json p) /\
  getitem (Project.json p) "uri" = Return (VStr (Project.uri p)) /\
  uri_id (VStr (Project.uri p)) = Return (Project.id p) /\
  getitem (Project.json p) "displayText" = Return (Project.displayText p) /\
  getitem (Project.json p) "name" = Return (Project.name p) /\
  getitem (Project.json p) "slug" = Return (Project.slug p).
Proof.
  unfold Project.__init__. intros H. inv_bind H.
  destruct x0; try discriminate. cbn in E2. injection E2 as <-.
  cbn in H. injection H as <-. cbn. auto 10.
Qed.

Lemma Task_init_inv (j : value) (t : Task.t) :
  Task.__init__ j = Return t ->
  getitem j "task" = Return (Task.json t) /\
  getitem (Task.json t) "uri" = Return (VStr (Task.uri t)) /\
  uri_id (VStr (Task.uri t)) = Return (Task.id t) /\
  getitem (Task.json t) "displayText" = Return (Task.displayText t).
Proof.
  unfold Task.__init__. intros H. inv_bind H.
  destruct x0; try discriminate. cbn in E2. injection E2 as <-.
  cbn in H. injection H as <-. cbn. auto 10.
Qed.

(** Building an object again from the dict it keeps gives the same
    object: constructors read nothing but the dict. *)
Lemma Project_init_again (j j' : value) (p : Project.t) :
  Project.__init__ j = Return p ->
  getitem j' "project" = Return (Project.json p) ->
  Project.__init__ j' = Return p.
Proof.
  intros H Hj'. apply Project_init_inv in H as (_ & Hu & Hi & Hd & Hn & Hs).
  unfold Project.__init__.
  step Hj'. step Hu. step Hi. step Hd. step Hn. step Hs.
  now destruct p.
Qed.

Lemma Task_init_again (j j' : value) (t : Task.t) :
  Task.__init__ j = Return t ->
  getitem j' "task" = Return (Task.json t) ->
  Task.__init__ j' = Return t.
Proof.
  intros H Hj'. apply Task_init_inv in H as (_ & Hu & Hi & Hd).
  unfold Task.__init__.
  step Hj'. step Hu. step Hi. step Hd.
  now destruct t.
Qed.

Lemma getitem_truthy (v : value) (k : string) (x : value) :
  getitem v k = Return x -> truthy v = true.
Proof.
  destruct v; try discriminate. destruct d; [discriminate | reflexivity].
Qed.

(** What a constructed allocation holds.  In particular it has a
    project, and its row key is the project's uri followed by the
    task's uri when it has a task. *)
Lemma TimesheetAllocation_init_inv (j : value) (a : TimesheetAllocation.t) :
  TimesheetAllocation.__init__ j = Return a ->
  TimesheetAllocation.json a = j /\
  (exists d, getitem j "date" = Return d /\
             dict_to_date d = Return (TimesheetAllocation.date a)) /\
  getitem j "comments" = Return (TimesheetAllocation.comments a) /\
  (exists d, getitem j "duration" = Return d /\
             dict_to_seconds d = Return (TimesheetAllocation.duration_seconds a)) /\
  (exists p, TimesheetAllocation.project a = Some p /\
             Project.__init__ j = Return p /\
             TimesheetAllocation.rowkey a =
               match TimesheetAllocation.task a with
               | Some t => String.append (Project.uri p) (Task.uri t)
               | None => Project.uri p
               end) /\
  (exists tj, getitem j "task" = Return tj /\
              match TimesheetAllocation.task a with
              | Some t => truthy tj = true /\ Task.__init__ j = Return t
              | None => truthy tj = false
              end) /\
  (exists c, getitem j "customFieldValues" = Return c).
Proof.
  unfold TimesheetAllocation.__init__. intros H. inv_bind H.
  cbn in H. injection H as <-. cbn.
  destruct x5 as [p|]; [|discriminate]. cbn in E11. injection E11 as <-.
  destruct (truthy x4) eqn:Ht4; [|discriminate].
  apply bind_Return in E5 as (p' & Hp & E5). cbn in E5. injection E5 as ->.
  repeat split; eauto.
  exists x6. split; [assumption|].
  destruct (truthy x6) eqn:Ht6.
  - apply bind_Return in E7 as (t' & Ht & E7). cbn in E7. injection E7 as <-. auto.
  - cbn in E7. now injection E7 as <-.
Qed.

(** An allocation whose project is null (or any falsy value) cannot be
    constructed. *)
Lemma TimesheetAllocation_init_needs_project (j pj : value) :
  getitem j "project" = Return pj ->
  truthy pj = false ->
  forall a, TimesheetAllocation.__init__ j <> Return a.
Proof.
  intros Hpj Hf a H.
  apply TimesheetAllocation_init_inv in H as (_ & _ & _ & _ & (p & _ & Hp & _) & _).
  apply Project_init_inv in Hp as (Hp & Hu & _).
  rewrite Hpj in Hp. injection Hp as ->.
  apply getitem_truthy in Hu. congruence.
Qed.

(** C9 (the code fails the claim): the allocation JSON of 2 January
    with a null project and a null task.  The constructor leaves
    [self.project] at [None] and then reads [self.project.uri]: it
    raises [AttributeError] instead of building an allocation without
    a project.  No JSON whose project is null, or falsy in any other
    way, gives an allocation. *)
Theorem allocation_with_null_project_raises :
  TimesheetAllocation.__init__
    (Sample.allocation_json (Sample.jan 2) 3600 VNone VNone)
  = Raise AttributeError /\
  forall (j pj : value) (a : TimesheetAllocation.t),
    getitem j "project" = Return pj ->
    truthy pj = false ->
    TimesheetAllocation.__init__ j <> Return a.
Proof.
  split; [reflexivity|].
  intros j pj a Hpj Hf. now apply (TimesheetAllocation_init_needs_project j pj).
Qed.

(** ** [same_fields_as] *)

Lemma same_fields_loop_true (fs : list string) (sj j : value) (same : bool) :
  TimesheetAllocation.same_fields_loop fs sj j same = Return true <->
  same = true /\
  forall f, In f fs ->
    exists a b, getitem j f = Return a /\ getitem sj f = Return b /\ Py.eqb a b = true.
Proof.
  induction fs as [|f fs IH]; cbn [TimesheetAllocation.same_fields_loop].
  - split.
    + intros [= ->]. split; [reflexivity | intros f []].
    + now intros [-> _].
  - split.
    + intros H. apply bind_Return in H as (a & Ha & H).
      apply bind_Return in H as (b & Hb & H).
      destruct (Py.eqb a b) eqn:Hab; cbn in H; [|discriminate].
      apply IH in H as [-> H]. split; [reflexivity|].
      intros f' [<- | Hin]; eauto.
    + intros [-> H].
      destruct (H f (or_introl eq_refl)) as (a & b & Ha & Hb & Hab).
      step Ha. step Hb. rewrite Hab. cbn.
      apply IH. split; [reflexivity|]. intros f' Hin. apply H. now right.
Qed.

Lemma same_fields_loop_returns (fs : list string) (sj j : value) (same : bool) :
  (forall f, In f fs -> exists v, getitem j f = Return v) ->
  (forall f, In f fs -> exists v, getitem sj f = Return v) ->
  exists b, TimesheetAllocation.same_fields_loop fs sj j same = Return b.
Proof.
  induction fs as [|f fs IH]; cbn [TimesheetAllocation.same_fields_loop]; intros Hj Hs.
  - eauto.
  - destruct (Hj f (or_introl eq_refl)) as (a & Ha).
    destruct (Hs f (or_introl eq_refl)) as (b & Hb).
    step Ha. step Hb.
    destruct (negb (Py.eqb a b)); [eauto|].
    apply IH; intros f' Hin; [apply Hj | apply Hs]; now right.
Qed.

(** [same_fields_as] answers [True] exactly on identical fields. *)
Lemma same_fields_as_identical (self : TimesheetAllocation.t) (j : value) :
  TimesheetAllocation.same_fields_as self j = Return true <-> identical self j.
Proof.
  unfold TimesheetAllocation.same_fields_as, identical.
  rewrite same_fields_loop_true. tauto.
Qed.

(** On records that have the four keys it answers, and the answer is
    [False] exactly when the fields are not identical. *)
Lemma same_fields_as_not_identical (self : TimesheetAllocation.t) (j : value) :
  has_fields (TimesheetAllocation.json self) -> has_fields j ->
  (TimesheetAllocation.same_fields_as self j = Return false <-> ~ identical self j).
Proof.
  intros Hs Hj.
  destruct (same_fields_loop_returns TimesheetAllocation.fields
              (TimesheetAllocation.json self) j true Hj Hs) as (b & Hb).
  fold (TimesheetAllocation.same_fields_as self j) in Hb.
  rewrite <- same_fields_as_identical, Hb.
  destruct b; split; intros H; congruence.
Qed.

Lemma book_record_has_fields (date : datetime.date) (project : option Project.t)
    (task : option Task.t) (duration : Z) (comment : value) :
  has_fields (Timesheet.book_record date project task duration comment).
Proof.
  intros f Hf. cbn in Hf.
  destruct Hf as [<- | [<- | [<- | [<- | []]]]]; cbn; eauto.
Qed.

Lemma TimesheetAllocation_init_has_fields (j : value) (a : TimesheetAllocation.t) :
  TimesheetAllocation.__init__ j = Return a ->
  has_fields (TimesheetAllocation.json a).
Proof.
  intros H.
  apply TimesheetAllocation_init_inv in H
    as (-> & (d & Hd & _) & _ & _ & (p & _ & Hp & _) & (tj & Ht & _) & (c & Hc)).
  apply Project_init_inv in Hp as (Hp & _).
  intros f Hf. cbn in Hf.
  destruct Hf as [<- | [<- | [<- | [<- | []]]]]; eauto.
Qed.

(** ** The loop of [book] *)

Lemma book_loop_merges (tas : list TimesheetAllocation.t) (ta : value)
    (duration : Z) (i : nat) (tb : TimesheetAllocation.t) :
  merges_at tas ta i tb ->
  Timesheet.book_loop tas ta duration
  = Return (<[i := TimesheetAllocation.add_duration tb duration]> tas, true).
Proof.
  revert i. induction tas as [|t tas IH]; intros i (Hi & Htb & Hbefore).
  - discriminate.
  - cbn [Timesheet.book_loop]. destruct i as [|i].
    + cbn in Hi. injection Hi as ->. step Htb. reflexivity.
    + assert (Ht : TimesheetAllocation.same_fields_as t ta = Return false)
        by (apply (Hbefore 0); [lia | reflexivity]).
      step Ht. cbn in Hi.
      rewrite (IH i); [reflexivity|].
      split; [assumption|]. split; [assumption|].
      intros j tb' Hj Hl. apply (Hbefore (S j)); [lia | assumption].
Qed.

Lemma book_loop_no_match (tas : list TimesheetAllocation.t) (ta : value)
    (duration : Z) :
  (forall tb, In tb tas -> TimesheetAllocation.same_fields_as tb ta = Return false) ->
  Timesheet.book_loop tas ta duration = Return (tas, false).
Proof.
  induction tas as [|t tas IH]; intros H; cbn [Timesheet.book_loop].
  - reflexivity.
  - rewrite (H t (or_introl eq_refl)). cbn [bind ret outcome_Monad].
    rewrite IH; [reflexivity|]. intros tb Hin. apply H. now right.
Qed.

(** What the loop returns: either it stopped on a first match, or no
    allocation matched and the list is as before. *)
Lemma book_loop_inv (tas tas' : list TimesheetAllocation.t) (ta : value)
    (duration : Z) (updated : bool) :
  Timesheet.book_loop tas ta duration = Return (tas', updated) ->
  (updated = true /\
   exists i tb, merges_at tas ta i tb /\
                tas' = <[i := TimesheetAllocation.add_duration tb duration]> tas) \/
  (updated = false /\ tas' = tas /\
   forall tb, In tb tas -> TimesheetAllocation.same_fields_as tb ta = Return false).
Proof.
  revert tas' updated. induction tas as [|t tas IH]; intros tas' updated H;
    cbn [Timesheet.book_loop] in H.
  - injection H as <- <-. right. split; [reflexivity|]. split; [reflexivity|]. intros tb [].
  - apply bind_Return in H as (same & Hs & H). destruct same.
    + injection H as <- <-. left. split; [reflexivity|].
      exists 0, t. split; [|reflexivity].
      split; [reflexivity|]. split; [assumption|]. intros j tb' Hj. lia.
    + apply bind_Return in H as ([r u] & Hr & H). cbn in H. injection H as <- <-.
      destruct (IH _ _ Hr) as [(-> & i & tb & (Hi & Htb & Hbefore) & ->) | (-> & -> & Hno)].
      * left. split; [reflexivity|]. exists (S i), tb. split; [|reflexivity].
        split; [assumption|]. split; [assumption|].
        intros [|j] tb' Hj Hl; [now injection Hl as <- |].
        apply (Hbefore j); [lia | assumption].
      * right. split; [reflexivity|]. split; [reflexivity|].
        intros tb [<- | Hin]; auto.
Qed.

(** Among allocations that have the four keys, the first identical one
    is where the loop stops. *)
Lemma first_identical (tas : list TimesheetAllocation.t) (ta : value) :
  Forall (fun a => has_fields (TimesheetAllocation.json a)) tas ->
  has_fields ta ->
  (exists tb, In tb tas /\ identical tb ta) ->
  exists i tb, merges_at tas ta i tb.
Proof.
  intros Hall Hta. induction Hall as [|t tas Ht Hall IH]; intros (tb & Hin & Hid).
  - destruct Hin.
  - destruct (same_fields_loop_returns TimesheetAllocation.fields
                (TimesheetAllocation.json t) ta true Hta Ht) as ([|] & Hb);
      fold (TimesheetAllocation.same_fields_as t ta) in Hb.
    + exists 0, t. split; [reflexivity|]. split; [assumption|]. intros j tb' Hj. lia.
    + destruct IH as (i & tb0 & Hi & Htb0 & Hbefore).
      { destruct Hin as [<- | Hin]; [|eauto].
        apply same_fields_as_identical in Hid. congruence. }
      exists (S i), tb0. split; [assumption|]. split; [assumption|].
      intros [|j] tb' Hj Hl; [now injection Hl as <- |].
      apply (Hbefore j); [lia | assumption].
Qed.

(** ** Equality of values *)

Lemma eqb_dict (xs ys : list (string * value)) :
  Py.eqb (VDict xs) (VDict ys) =
  Nat.eqb (length xs) (length ys) &&
  forallb (fun kv => match assoc (fst kv) ys with
                     | Some w => Py.eqb (snd kv) w
                     | None => false
                     end) xs.
Proof.
  cbn [Py.eqb]. f_equal.
  induction xs as [|[k v] xs IH]; [reflexivity|].
  cbn [forallb fst snd]. now rewrite <- IH.
Qed.

Lemma eqb_list_cons (x y : value) (xs ys : list value) :
  Py.eqb (VList (x :: xs)) (VList (y :: ys)) = Py.eqb x y && Py.eqb (VList xs) (VList ys).
Proof. reflexivity. Qed.

Lemma assoc_unique {A : Type} (d : list (string * A)) (k : string) (v : A) :
  unique_keys d = true -> In (k, v) d -> assoc k d = Some v.
Proof.
  induction d as [|[k' v'] d IH]; [intros _ []|].
  cbn [unique_keys assoc]. destruct (assoc k' d) eqn:Hk'; [discriminate|].
  intros Hu [[= -> ->] | Hin].
  - now rewrite String.eqb_refl.
  - destruct (String.eqb k k') eqn:Hkk; [|auto].
    apply String.eqb_eq in Hkk as ->. rewrite (IH Hu Hin) in Hk'. discriminate.
Qed.

Lemma eqb_refl (v : value) : wf v = true -> Py.eqb v v = true.
Proof.
  induction v as [| b | z | s | l IH | d IH] using value_induction; intros Hwf.
  - reflexivity.
  - apply Bool.eqb_reflx.
  - apply Z.eqb_refl.
  - apply String.eqb_refl.
  - cbn [wf] in Hwf. induction IH as [|x l Hx _ IHl]; [reflexivity|].
    cbn [forallb] in Hwf. apply andb_prop in Hwf as [Hwx Hwl].
    rewrite eqb_list_cons, (Hx Hwx), (IHl Hwl). reflexivity.
  - cbn [wf] in Hwf. apply andb_prop in Hwf as [Hu Hwf].
    rewrite eqb_dict, Nat.eqb_refl. cbn [andb].
    apply forallb_forall. intros [k v] Hin.
    cbn [fst snd]. rewrite (assoc_unique d k v Hu Hin).
    rewrite List.Forall_forall in IH. apply (IH (k, v) Hin).
    rewrite forallb_forall in Hwf. apply (Hwf (k, v) Hin).
Qed.

(** ** Booking *)

(** The record that [book] builds for a request with a project is one
    the constructor accepts; the allocation it gives has the date, the
    comment, the duration, the project and the task of the request. *)
Lemma TimesheetAllocation_init_book_record (date : datetime.date) (p : Project.t)
    (task : option Task.t) (duration : Z) (comment : value) :
  datetime.valid date = true ->
  Project_built p ->
  (forall t, task = Some t -> Task_built t) ->
  TimesheetAllocation.__init__
    (Timesheet.book_record date (Some p) task duration comment)
  = Return
      {| TimesheetAllocation.json :=
           Timesheet.book_record date (Some p) task duration comment;
         TimesheetAllocation.date := date;
         TimesheetAllocation.comments := comment;
         TimesheetAllocation.duration_seconds := duration;
         TimesheetAllocation.project := Some p;
         TimesheetAllocation.task := task;
         TimesheetAllocation.ticket_num := VStr "";
         TimesheetAllocation.rowkey :=
           match task with
           | Some t => String.append (Project.uri p) (Task.uri t)
           | None => Project.uri p
           end |}.
Proof.
  intros Hd (jp & Hp) Ht.
  set (ta := Timesheet.book_record date (Some p) task duration comment).
  assert (Hproj : getitem ta "project" = Return (Project.json p)) by reflexivity.
  assert (Htask : getitem ta "task"
                  = Return match task with Some t => Task.json t | None => VNone end)
    by reflexivity.
  assert (Hsec : dict_to_seconds (duration_dict 0 0 duration) = Return duration).
  { unfold duration_dict. erewrite dict_to_seconds_ints by reflexivity. reflexivity. }
  unfold TimesheetAllocation.__init__.
  replace (getitem ta "date") with (Return (A := value) (date_to_dict date)) by reflexivity.
  cbn [bind ret outcome_Monad]. step (date_roundtrip date Hd).
  replace (getitem ta "comments") with (Return (A := value) comment) by reflexivity.
  replace (getitem ta "duration") with (Return (A := value) (duration_dict 0 0 duration))
    by reflexivity.
  cbn [bind ret outcome_Monad]. step Hsec. step Hproj.
  assert (Htp : truthy (Project.json p) = true).
  { apply Project_init_inv in Hp as (_ & Hu & _). eapply getitem_truthy, Hu. }
  rewrite Htp. step (Project_init_again jp ta p Hp Hproj). step Htask.
  replace (getitem ta "customFieldValues") with (Return (A := value) (VList []))
    by reflexivity.
  destruct task as [t|].
  - destruct (Ht t eq_refl) as (jt & Hjt).
    assert (Htt : truthy (Task.json t) = true).
    { apply Task_init_inv in Hjt as (_ & Hu & _). eapply getitem_truthy, Hu. }
    rewrite Htt. step (Task_init_again jt ta t Hjt Htask). reflexivity.
  - reflexivity.
Qed.

(** Without a project the record is one the constructor rejects. *)
Lemma TimesheetAllocation_init_book_record_None (date : datetime.date)
    (task : option Task.t) (duration : Z) (comment : value)
    (a : TimesheetAllocation.t) :
  TimesheetAllocation.__init__
    (Timesheet.book_record date None task duration comment) <> Return a.
Proof.
  apply (TimesheetAllocation_init_needs_project _ VNone); reflexivity.
Qed.

(** The merge rule of [book], for a timesheet whose allocations carry
    the four compared keys (every allocation the constructor built
    does).  If some allocation is identical to the record in date,
    project, task and custom field values, the first such allocation
    gets the duration added in place and the list keeps its length;
    if none is, the allocation built from the record is appended, or,
    when the constructor rejects the record, nothing changes and the
    call raises. *)
Lemma book_merge_or_append (self : Timesheet.t) (date : datetime.date)
    (project : option Project.t) (task : option Task.t) (duration : Z)
    (comment : value) (fieldset : option (CustomField.t * value)) :
  Forall (fun a => has_fields (TimesheetAllocation.json a))
         (Timesheet.timeAllocations self) ->
  let tas := Timesheet.timeAllocations self in
  let ta := Timesheet.book_record date project task duration comment in
  let r := Timesheet.book self date project task duration comment fieldset in
  ((exists tb, In tb tas /\ identical tb ta) ->
   exists i tb,
     tas !! i = Some tb /\ identical tb ta /\
     (forall j tb', j < i -> tas !! j = Some tb' -> ~ identical tb' ta) /\
     r = (Timesheet.set_timeAllocations self
            (<[i := TimesheetAllocation.add_duration tb duration]> tas),
          Return tt) /\
     length (Timesheet.timeAllocations (fst r)) = length tas) /\
  ((forall tb, In tb tas -> ~ identical tb ta) ->
   match TimesheetAllocation.__init__ ta with
   | Return a =>
       r = (Timesheet.set_timeAllocations self (tas ++ [a]), Return tt) /\
       length (Timesheet.timeAllocations (fst r)) = S (length tas)
   | Raise e => r = (self, Raise e)
   end).
Proof.
  intros Hall tas ta r.
  assert (Hta : has_fields ta) by apply book_record_has_fields.
  split.
  - intros Hex.
    destruct (first_identical tas ta Hall Hta Hex) as (i & tb & Hm).
    pose proof (book_loop_merges tas ta duration i tb Hm) as Hloop.
    destruct Hm as (Hi & Htb & Hbefore).
    exists i, tb. split; [assumption|].
    split; [now apply same_fields_as_identical|].
    split.
    + intros j tb' Hj Hl.
      apply same_fields_as_not_identical; [|assumption|eauto].
      rewrite List.Forall_forall in Hall. apply Hall.
      apply list_elem_of_In. eapply list_elem_of_lookup_2, Hl.
    + subst r. unfold Timesheet.book. fold tas ta. rewrite Hloop.
      split; [reflexivity|]. cbn. apply length_insert.
  - intros Hno.
    assert (Hloop : Timesheet.book_loop tas ta duration = Return (tas, false)).
    { apply book_loop_no_match. intros tb Hin.
      apply same_fields_as_not_identical; [|assumption|auto].
      rewrite List.Forall_forall in Hall. now apply Hall. }
    subst r. unfold Timesheet.book. fold tas ta. rewrite Hloop.
    destruct (TimesheetAllocation.__init__ ta) as [a|e]; [|reflexivity].
    split; [reflexivity|]. cbn. rewrite length_app. cbn. lia.
Qed.

(** Whether some allocation is identical to a record can be told. *)
Lemma identical_exists_or_not (tas : list TimesheetAllocation.t) (ta : value) :
  Forall (fun a => has_fields (TimesheetAllocation.json a)) tas ->
  has_fields ta ->
  (exists tb, In tb tas /\ identical tb ta) \/
  (forall tb, In tb tas -> ~ identical tb ta).
Proof.
  intros Hall Hta. induction Hall as [|t tas Ht Hall IH].
  - right. intros tb [].
  - destruct (same_fields_loop_returns TimesheetAllocation.fields
                (TimesheetAllocation.json t) ta true Hta Ht) as ([|] & Hb);
      fold (TimesheetAllocation.same_fields_as t ta) in Hb.
    + left. exists t. split; [now left | now apply same_fields_as_identical].
    + destruct IH as [(tb & Hin & Hid) | Hno].
      * left. exists tb. split; [now right | assumption].
      * right. intros tb [<- | Hin]; [|auto].
        now apply same_fields_as_not_identical.
Qed.

(** For a request whose record the constructor accepts, [book] leaves
    the number of allocations as it was if and only if some allocation
    is identical to the record; otherwise there is exactly one more. *)
Lemma book_merges_iff_identical (self : Timesheet.t) (date : datetime.date)
    (project : option Project.t) (task : option Task.t) (duration : Z)
    (comment : value) (fieldset : option (CustomField.t * value))
    (a : TimesheetAllocation.t) :
  Forall (fun a => has_fields (TimesheetAllocation.json a))
         (Timesheet.timeAllocations self) ->
  let tas := Timesheet.timeAllocations self in
  let ta := Timesheet.book_record date project task duration comment in
  let r := Timesheet.book self date project task duration comment fieldset in
  TimesheetAllocation.__init__ ta = Return a ->
  snd r = Return tt /\
  (length (Timesheet.timeAllocations (fst r)) = length tas <->
   exists tb, In tb tas /\ identical tb ta) /\
  (length (Timesheet.timeAllocations (fst r)) = S (length tas) <->
   forall tb, In tb tas -> ~ identical tb ta).
Proof.
  intros Hall tas ta r Ha.
  destruct (book_merge_or_append self date project task duration comment fieldset Hall)
    as [Hmerge Happend].
  fold tas ta r in Hmerge, Happend. rewrite Ha in Happend.
  destruct (identical_exists_or_not tas ta Hall (book_record_has_fields _ _ _ _ _))
    as [Hex | Hno].
  - destruct (Hmerge Hex) as (i & tb & _ & _ & _ & Hr & Hlen).
    split; [now rewrite Hr|]. split; split; intros H; try assumption.
    + lia.
    + destruct Hex as (tb' & Hin & Hid). now destruct (H tb' Hin).
  - destruct (Happend Hno) as (Hr & Hlen).
    split; [now rewrite Hr|]. split; split; intros H; try assumption.
    + lia.
    + destruct H as (tb' & Hin & Hid). now destruct (Hno tb' Hin).
Qed.

Lemma comprehension_Forall {A B : Type} (f : A -> outcome B) (Q : B -> Prop)
    (l : list A) (ys : list B) :
  (forall x y, f x = Return y -> Q y) ->
  comprehension f l = Return ys -> Forall Q ys.
Proof.
  intros Hf. revert ys.
  induction l as [|v l IH]; intros ys H; cbn [comprehension] in H.
  - injection H as <-. constructor.
  - apply bind_Return in H as (a & Ha & H).
    apply bind_Return in H as (ys' & Hys' & H).
    cbn in H. injection H as <-.
    constructor; [eapply Hf, Ha | now apply IH].
Qed.

(** ** What holds of every allocation the program builds *)

(** A property that the constructor establishes holds of every
    allocation of a constructed timesheet. *)
Lemma Timesheet_init_all (Q : TimesheetAllocation.t -> Prop) (j : value)
    (ts : Timesheet.t) :
  (forall j' a, TimesheetAllocation.__init__ j' = Return a -> Q a) ->
  Timesheet.__init__ j = Return ts ->
  Forall Q (Timesheet.timeAllocations ts).
Proof.
  intros HQ. unfold Timesheet.__init__. intros H. inv_bind H.
  cbn in H. injection H as <-. cbn.
  match goal with
  | E : comprehension _ _ = Return _ |- _ =>
      apply (comprehension_Forall _ _ _ _ HQ E)
  end.
Qed.

(** If, besides, adding a duration keeps the property, then [book]
    keeps it on every allocation. *)
Lemma book_preserves (Q : TimesheetAllocation.t -> Prop) (self : Timesheet.t)
    (date : datetime.date) (project : option Project.t) (task : option Task.t)
    (duration : Z) (comment : value) (fieldset : option (CustomField.t * value)) :
  (forall j' a, TimesheetAllocation.__init__ j' = Return a -> Q a) ->
  (forall a d, Q a -> Q (TimesheetAllocation.add_duration a d)) ->
  Forall Q (Timesheet.timeAllocations self) ->
  Forall Q (Timesheet.timeAllocations
              (fst (Timesheet.book self date project task duration comment fieldset))).
Proof.
  intros Hinit Hadd Hall. unfold Timesheet.book.
  destruct (Timesheet.book_loop _ _ _) as [[tas' u]|e] eqn:Hloop; [|assumption].
  assert (Htas' : Forall Q tas').
  { apply book_loop_inv in Hloop
      as [(_ & i & tb & (Hi & _) & ->) | (_ & -> & _)]; [|assumption].
    apply Forall_insert; [assumption|]. apply Hadd.
    rewrite List.Forall_forall in Hall. apply Hall.
    apply list_elem_of_In. eapply list_elem_of_lookup_2, Hi. }
  destruct u; [assumption|].
  destruct (TimesheetAllocation.__init__ _) as [a|e] eqn:Ha; [|assumption].
  cbn. apply Forall_app. split; [assumption|].
  apply Forall_singleton. eapply Hinit, Ha.
Qed.

Lemma TimesheetAllocation_init_built (j : value) (a : TimesheetAllocation.t) :
  TimesheetAllocation.__init__ j = Return a -> TimesheetAllocation_built a.
Proof.
  intros H. exists a.
  now rewrite (proj1 (TimesheetAllocation_init_inv j a H)).
Qed.

Lemma TimesheetAllocation_built_has_fields (a : TimesheetAllocation.t) :
  TimesheetAllocation_built a -> has_fields (TimesheetAllocation.json a).
Proof.
  intros (a0 & H).
  pose proof (proj1 (TimesheetAllocation_init_inv _ _ H)) as Hj.
  apply TimesheetAllocation_init_has_fields in H. now rewrite Hj in H.
Qed.

Lemma TimesheetAllocation_init_has_project (j : value) (a : TimesheetAllocation.t) :
  TimesheetAllocation.__init__ j = Return a -> has_project a.
Proof.
  intros H. apply TimesheetAllocation_init_inv in H
    as (_ & _ & _ & _ & (p & Hp & _) & _).
  now exists p.
Qed.

(** Every allocation of a timesheet that the constructor built and
    [book] then changed is built, carries the four compared keys and
    has a project: the hypotheses of the statements below on the
    allocations of a timesheet hold of every timesheet of the program. *)
Lemma Timesheet_init_built (j : value) (ts : Timesheet.t) :
  Timesheet.__init__ j = Return ts ->
  Forall TimesheetAllocation_built (Timesheet.timeAllocations ts) /\
  Forall (fun a => has_fields (TimesheetAllocation.json a))
         (Timesheet.timeAllocations ts) /\
  Forall has_project (Timesheet.timeAllocations ts).
Proof.
  intros H. repeat split; apply (Timesheet_init_all _ j ts); auto.
  - apply TimesheetAllocation_init_built.
  - apply TimesheetAllocation_init_has_fields.
  - apply TimesheetAllocation_init_has_project.
Qed.

Lemma book_keeps_built (self : Timesheet.t) (date : datetime.date)
    (project : option Project.t) (task : option Task.t) (duration : Z)
    (comment : value) (fieldset : option (CustomField.t * value)) :
  let self' := fst (Timesheet.book self date project task duration comment fieldset) in
  (Forall TimesheetAllocation_built (Timesheet.timeAllocations self) ->
   Forall TimesheetAllocation_built (Timesheet.timeAllocations self')) /\
  (Forall (fun a => has_fields (TimesheetAllocation.json a))
          (Timesheet.timeAllocations self) ->
   Forall (fun a => has_fields (TimesheetAllocation.json a))
          (Timesheet.timeAllocations self')) /\
  (Forall has_project (Timesheet.timeAllocations self) ->
   Forall has_project (Timesheet.timeAllocations self')).
Proof.
  intros self'. repeat split; apply book_preserves; auto.
  - apply TimesheetAllocation_init_built.
  - apply TimesheetAllocation_init_has_fields.
  - apply TimesheetAllocation_init_has_project.
Qed.

(** Whether an allocation is identical to the record of a request does
    not depend on the duration and the comment of the request. *)
Lemma identical_book_record (tb : TimesheetAllocation.t) (date : datetime.date)
    (project : option Project.t) (task : option Task.t)
    (d d' : Z) (c c' : value) :
  identical tb (Timesheet.book_record date project task d c) ->
  identical tb (Timesheet.book_record date project task d' c').
Proof.
  intros H f Hf. destruct (H f Hf) as (a & b & Ha & Hb & Hab).
  exists a, b. split; [|auto].
  cbn in Hf. destruct Hf as [<- | [<- | [<- | [<- | []]]]]; exact Ha.
Qed.

(** Booking twice on the same date, project and task: when no earlier
    allocation is identical to the request, the two bookings leave
    exactly one new allocation, whose duration is the sum of the two. *)
Lemma book_twice (self : Timesheet.t) (date : datetime.date) (p : Project.t)
    (task : option Task.t) (d1 d2 : Z) (c1 c2 : value)
    (f1 f2 : option (CustomField.t * value)) :
  Forall (fun a => has_fields (TimesheetAllocation.json a))
         (Timesheet.timeAllocations self) ->
  (forall tb, In tb (Timesheet.timeAllocations self) ->
     ~ identical tb (Timesheet.book_record date (Some p) task d1 c1)) ->
  datetime.valid date = true ->
  Project_built p -> wf (Project.json p) = true ->
  (forall t, task = Some t -> Task_built t /\ wf (Task.json t) = true) ->
  let s1 := fst (Timesheet.book self date (Some p) task d1 c1 f1) in
  let s2 := fst (Timesheet.book s1 date (Some p) task d2 c2 f2) in
  exists a,
    Timesheet.timeAllocations s2 = Timesheet.timeAllocations self ++ [a] /\
    TimesheetAllocation.duration_seconds a = (d1 + d2)%Z /\
    TimesheetAllocation.date a = date /\
    TimesheetAllocation.project a = Some p /\
    TimesheetAllocation.task a = task.
Proof.
  intros Hall Hno Hd Hp Hwp Ht s1 s2.
  set (tas := Timesheet.timeAllocations self) in *.
  set (ta1 := Timesheet.book_record date (Some p) task d1 c1) in *.
  set (ta2 := Timesheet.book_record date (Some p) task d2 c2).
  pose proof (TimesheetAllocation_init_book_record date p task d1 c1 Hd Hp
                (fun t E => proj1 (Ht t E))) as Ha1.
  fold ta1 in Ha1. set (a1 := TimesheetAllocation.Build_t _ _ _ _ _ _ _ _) in Ha1.
  destruct (book_merge_or_append self date (Some p) task d1 c1 f1 Hall) as [_ Happ].
  specialize (Happ Hno). fold ta1 tas in Happ. rewrite Ha1 in Happ.
  destruct Happ as [Hr1 _].
  assert (Hs1 : Timesheet.timeAllocations s1 = tas ++ [a1]) by (subst s1; now rewrite Hr1).
  assert (Hm : merges_at (tas ++ [a1]) ta2 (length tas) a1).
  { split; [apply list_lookup_middle; reflexivity|]. split.
    - apply same_fields_as_identical. intros f Hf.
      assert (Hwt : wf match task with Some t => Task.json t | None => VNone end = true)
        by (destruct task as [t|]; [apply (Ht t eq_refl) | reflexivity]).
      cbn in Hf. destruct Hf as [<- | [<- | [<- | [<- | []]]]];
        (eexists; eexists; split; [reflexivity|]; split; [reflexivity|];
         apply eqb_refl; solve [assumption | reflexivity]).
    - intros j tb' Hj Hl. rewrite lookup_app_l in Hl by assumption.
      assert (Hin : In tb' tas)
        by (apply list_elem_of_In; eapply list_elem_of_lookup_2, Hl).
      apply same_fields_as_not_identical.
      + rewrite List.Forall_forall in Hall. now apply Hall.
      + apply book_record_has_fields.
      + intros Hid. apply (Hno tb' Hin).
        revert Hid. apply identical_book_record. }
  pose proof (book_loop_merges _ _ d2 _ _ Hm) as Hloop.
  exists (TimesheetAllocation.add_duration a1 d2).
  assert (Hs2 : Timesheet.timeAllocations s2
                = tas ++ [TimesheetAllocation.add_duration a1 d2]).
  { subst s2. unfold Timesheet.book. fold ta2. rewrite Hs1, Hloop. cbn.
    rewrite insert_app_r_alt by lia. now rewrite Nat.sub_diag. }
  rewrite Hs2. repeat split; reflexivity.
Qed.

(** The scenario of the specification: on an empty timesheet, 3600
    seconds and then 1800 seconds booked to P1/T1 on 2024-01-02 leave
    exactly one allocation, of 5400 seconds. *)
Lemma book_3600_then_1800 :
  let s1 := fst (Timesheet.book Sample.empty_timesheet (Sample.jan 2)
                   (Some Sample.P1) (Some Sample.T1) 3600 VNone None) in
  let s2 := fst (Timesheet.book s1 (Sample.jan 2)
                   (Some Sample.P1) (Some Sample.T1) 1800 VNone None) in
  map TimesheetAllocation.duration_seconds (Timesheet.timeAllocations s2) = [5400%Z].
Proof. reflexivity. Qed.

(** A request without a project never goes through, on any timesheet
    the program builds: no allocation can match it, because every
    allocation has a project, and the constructor rejects its record. *)
Lemma book_without_project_never_returns (self : Timesheet.t)
    (date : datetime.date) (task : option Task.t) (duration : Z)
    (comment : value) (fieldset : option (CustomField.t * value)) :
  Forall TimesheetAllocation_built (Timesheet.timeAllocations self) ->
  exists e,
    Timesheet.book self date None task duration comment fieldset = (self, Raise e).
Proof.
  intros Hall. unfold Timesheet.book.
  destruct (Timesheet.book_loop _ _ _) as [[tas' [|]]|e] eqn:Hloop; [| |eauto].
  - exfalso.
    apply book_loop_inv in Hloop as [(_ & i & tb & (Hi & Htb & _) & _) | (H & _)];
      [|discriminate].
    apply same_fields_as_identical in Htb.
    destruct (Htb "project") as (a & b & Ha & Hb & Hab); [cbn; auto|].
    cbn in Ha. injection Ha as <-.
    rewrite List.Forall_forall in Hall.
    destruct (Hall tb) as (a0 & Ha0);
      [apply list_elem_of_In; eapply list_elem_of_lookup_2, Hi|].
    apply (TimesheetAllocation_init_needs_project _ b) in Ha0; [assumption|assumption|].
    now destruct b.
  - destruct (TimesheetAllocation.__init__ _) as [a|e] eqn:Ha; [|eauto].
    now apply TimesheetAllocation_init_book_record_None in Ha.
Qed.

(** C1 (the code fails the claim): a request without a project on the
    empty timesheet.  No allocation matches, so the claim has [book]
    append one; the constructor raises [AttributeError] on the record
    (it reads [self.project.uri] with [self.project] at [None]), and
    the timesheet stays empty.  On every timesheet the program builds
    such a request ends in an exception and changes nothing. *)
Theorem book_without_project_raises :
  Timesheet.book Sample.empty_timesheet (Sample.jan 2) None None 3600 VNone None
  = (Sample.empty_timesheet, Raise AttributeError) /\
  forall (self : Timesheet.t) (date : datetime.date) (task : option Task.t)
         (duration : Z) (comment : value)
         (fieldset : option (CustomField.t * value)),
    Forall TimesheetAllocation_built (Timesheet.timeAllocations self) ->
    exists e,
      Timesheet.book self date None task duration comment fieldset = (self, Raise e).
Proof.
  split; [reflexivity|].
  intros self date task duration comment fieldset.
  apply book_without_project_never_returns.
Qed.

(** C10: [book] never changes the slug, the uri, the start date and the
    end date of the timesheet; and when its loop stops on the
    allocation [tb] at index [i] (the merge case) the call returns, the
    list keeps its length, the allocation at [i] is [tb] with
    [duration] added to its [duration_seconds] and every other field
    as before (the comment of the request is not stored), and every
    other index holds what it held. *)
Theorem book_frame (self : Timesheet.t) (date : datetime.date)
    (project : option Project.t) (task : option Task.t) (duration : Z)
    (comment : value) (fieldset : option (CustomField.t * value)) :
  let ta := Timesheet.book_record date project task duration comment in
  let r := Timesheet.book self date project task duration comment fieldset in
  (Timesheet.slug (fst r) = Timesheet.slug self /\
   Timesheet.uri (fst r) = Timesheet.uri self /\
   Timesheet.start_date (fst r) = Timesheet.start_date self /\
   Timesheet.end_date (fst r) = Timesheet.end_date self) /\
  (forall i tb, merges_at (Timesheet.timeAllocations self) ta i tb ->
     snd r = Return tt /\
     length (Timesheet.timeAllocations (fst r))
       = length (Timesheet.timeAllocations self) /\
     (exists tb',
        Timesheet.timeAllocations (fst r) !! i = Some tb' /\
        TimesheetAllocation.duration_seconds tb'
          = (TimesheetAllocation.duration_seconds tb + duration)%Z /\
        TimesheetAllocation.json tb' = TimesheetAllocation.json tb /\
        TimesheetAllocation.date tb' = TimesheetAllocation.date tb /\
        TimesheetAllocation.comments tb' = TimesheetAllocation.comments tb /\
        TimesheetAllocation.project tb' = TimesheetAllocation.project tb /\
        TimesheetAllocation.task tb' = TimesheetAllocation.task tb /\
        TimesheetAllocation.ticket_num tb' = TimesheetAllocation.ticket_num tb /\
        TimesheetAllocation.rowkey tb' = TimesheetAllocation.rowkey tb) /\
     (forall j, j <> i ->
        Timesheet.timeAllocations (fst r) !! j
          = Timesheet.timeAllocations self !! j)).
Proof.
  intros ta r. split.
  - subst r. unfold Timesheet.book. fold ta.
    destruct (Timesheet.book_loop _ _ _) as [[tas' [|]]|e]; [repeat split | | repeat split].
    destruct (TimesheetAllocation.__init__ ta); repeat split.
  - intros i tb Hm.
    pose proof (book_loop_merges _ _ duration _ _ Hm) as Hloop.
    destruct Hm as (Hi & _).
    subst r. unfold Timesheet.book. fold ta. rewrite Hloop. cbn.
    split; [reflexivity|]. split; [apply length_insert|]. split.
    + exists (TimesheetAllocation.add_duration tb duration).
      split; [|repeat split].
      apply list_lookup_insert_eq. eapply lookup_lt_Some, Hi.
    + intros j Hj. now apply list_lookup_insert_ne.
Qed.

Lemma book_frame_witness :
  merges_at (Timesheet.timeAllocations Sample.one_hour)
    (Timesheet.book_record (Sample.jan 2) (Some Sample.P1) (Some Sample.T1)
       1800 (VStr "review"))
    0 (Sample.allocation (Sample.jan 2) 3600) /\
  Timesheet.timeAllocations
    (fst (Timesheet.book Sample.one_hour (Sample.jan 2) (Some Sample.P1)
            (Some Sample.T1) 1800 (VStr "review") None)) !! 1
  = Timesheet.timeAllocations Sample.one_hour !! 1.
Proof.
  assert (Hm : merges_at (Timesheet.timeAllocations Sample.one_hour)
                 (Timesheet.book_record (Sample.jan 2) (Some Sample.P1)
                    (Some Sample.T1) 1800 (VStr "review"))
                 0 (Sample.allocation (Sample.jan 2) 3600)).
  { split; [reflexivity|]. split; [reflexivity|]. intros j tb' Hj. lia. }
  split; [exact Hm|].
  apply (proj2 (book_frame Sample.one_hour (Sample.jan 2) (Some Sample.P1)
                  (Some Sample.T1) 1800 (VStr "review") None) 0 _ Hm).
  discriminate.
Defined.

(** ** The request of [put] *)

Lemma for_each_snoc {A S : Type} (l : list A) (x : A)
    (body : S -> A -> outcome S) (acc : S) :
  for_each (l ++ [x]) body acc = (acc' <- for_each l body acc ;; body acc' x).
Proof.
  revert acc. induction l as [|y l IH]; intros acc; cbn [for_each app].
  - cbn. now destruct (body acc x).
  - cbn. destruct (body acc y) as [acc'|e]; [apply IH | reflexivity].
Qed.

Lemma allocations_of_row_snoc (k : string) (l : list TimesheetAllocation.t)
    (a : TimesheetAllocation.t) :
  allocations_of_row k (l ++ [a]) =
  allocations_of_row k l ++
    (if decide (TimesheetAllocation.rowkey a = k) then [a] else []).
Proof.
  unfold allocations_of_row. rewrite filter_app. reflexivity.
Qed.

Lemma allocations_of_row_nil (k : string) (tas : list TimesheetAllocation.t) :
  allocations_of_row k tas = [] <->
  forall a, a ∈ tas -> TimesheetAllocation.rowkey a <> k.
Proof.
  unfold allocations_of_row. split.
  - intros H a Ha Hk.
    assert (Hin : a ∈ filter (fun a => TimesheetAllocation.rowkey a = k) tas)
      by (apply list_elem_of_filter; auto).
    rewrite H in Hin. inversion Hin.
  - intros H. induction tas as [|a tas IH]; [reflexivity|].
    rewrite filter_cons. destruct (decide _) as [Hk|Hk].
    + exfalso. apply (H a); [left | assumption].
    + apply IH. intros b Hb. apply H. now right.
Qed.

(** The dict [rows] after the loop: under each key, the row of the
    allocations that carry the key. *)
Lemma put_json_loop (tas : list TimesheetAllocation.t) :
  Forall has_project tas ->
  exists m : gmap string Timesheet.row,
    for_each tas Timesheet.put_json_step (∅, []) = Return (m, Timesheet.dict_values m) /\
    forall k, m !! k = row_of k tas.
Proof.
  induction tas as [|a l IH] using rev_ind; intros Hall.
  - exists ∅. split; [reflexivity|]. intros k. apply lookup_empty.
  - apply Forall_app in Hall as [Hl Ha].
    apply Forall_singleton in Ha as [p Hp].
    destruct (IH Hl) as (m & Hloop & Hm).
    rewrite for_each_snoc, Hloop. cbn [bind ret outcome_Monad].
    unfold Timesheet.put_json_step. cbn [fst].
    set (k0 := TimesheetAllocation.rowkey a).
    destruct (m !! k0) as [r|] eqn:Hk0; cbn [bind ret outcome_Monad].
    + eexists. split; [reflexivity|].
      intros k. unfold row_of. rewrite allocations_of_row_snoc. fold k0.
      destruct (decide (k0 = k)) as [<-|Hne].
      * rewrite lookup_insert_eq. rewrite Hm in Hk0. unfold row_of in Hk0.
        destruct (allocations_of_row k0 l) as [|a0 l0]; [discriminate|].
        injection Hk0 as <-. cbn. now rewrite fmap_app.
      * rewrite lookup_insert_ne by assumption. rewrite Hm, app_nil_r. reflexivity.
    + rewrite Hp. cbn [TimesheetAllocation.project_uri bind ret outcome_Monad].
      eexists. split; [reflexivity|].
      intros k. unfold row_of. rewrite allocations_of_row_snoc. fold k0.
      destruct (decide (k0 = k)) as [<-|Hne].
      * rewrite lookup_insert_eq. rewrite Hm in Hk0. unfold row_of in Hk0.
        destruct (allocations_of_row k0 l) as [|a0 l0]; [|discriminate].
        cbn. now rewrite Hp.
      * rewrite lookup_insert_ne by assumption. rewrite Hm, app_nil_r. reflexivity.
Qed.

Lemma row_of_is_Some (k : string) (tas : list TimesheetAllocation.t) :
  is_Some (row_of k tas) <-> k ∈ TimesheetAllocation.rowkey <$> tas.
Proof.
  unfold row_of. rewrite list_elem_of_fmap.
  destruct (allocations_of_row k tas) as [|a0 l0] eqn:E.
  - split; [intros [r Hr]; discriminate|].
    intros (a & -> & Ha). exfalso.
    now apply (proj1 (allocations_of_row_nil _ _) E a Ha).
  - split; [|eauto]. intros _.
    assert (Hin : a0 ∈ allocations_of_row k tas) by (rewrite E; left).
    apply list_elem_of_filter in Hin as [Hk Hin]. eauto.
Qed.

(** C2, as the code has it: the request of [put] has one row for each
    distinct row key of the timesheet.  The allocations that share a
    row key are combined into the row of that key, one cell each, in
    the order of the allocations. *)
Theorem put_json_one_row_per_key (self : Timesheet.t) :
  Forall has_project (Timesheet.timeAllocations self) ->
  let tas := Timesheet.timeAllocations self in
  exists rows,
    Timesheet.put_rows self = Return rows /\
    Timesheet.put_json self = Return (Timesheet.put_data self rows) /\
    length rows = size (list_to_set (TimesheetAllocation.rowkey <$> tas) : gset string) /\
    (forall r, r ∈ rows <-> exists k, row_of k tas = Some r) /\
    (forall a, a ∈ tas ->
       exists r, r ∈ rows /\
         Timesheet.row_cells r
           = Timesheet.cell_json <$> allocations_of_row (TimesheetAllocation.rowkey a) tas /\
         Timesheet.cell_json a ∈ Timesheet.row_cells r).
Proof.
  intros Hall tas.
  destruct (put_json_loop tas Hall) as (m & Hloop & Hm).
  assert (Hrows : Timesheet.put_rows self = Return (Timesheet.dict_values m))
    by (unfold Timesheet.put_rows; fold tas; now rewrite Hloop).
  assert (Helem : forall r, r ∈ Timesheet.dict_values m <-> exists k, row_of k tas = Some r).
  { intros r. unfold Timesheet.dict_values. rewrite list_elem_of_fmap. split.
    - intros ([k r'] & -> & Hin). apply elem_of_map_to_list in Hin.
      exists k. now rewrite <- Hm.
    - intros (k & Hk). exists (k, r). split; [reflexivity|].
      apply elem_of_map_to_list. now rewrite Hm. }
  exists (Timesheet.dict_values m).
  split; [assumption|]. split; [unfold Timesheet.put_json; now rewrite Hrows|].
  split; [|split; [assumption|]].
  - unfold Timesheet.dict_values.
    rewrite length_fmap, length_map_to_list, <- (size_dom (D := gset string)).
    f_equal. apply set_eq. intros k.
    rewrite elem_of_dom, Hm, row_of_is_Some, elem_of_list_to_set. reflexivity.
  - intros a Ha.
    assert (Hk : is_Some (row_of (TimesheetAllocation.rowkey a) tas))
      by (apply row_of_is_Some, list_elem_of_fmap; eauto).
    destruct Hk as [r Hr]. exists r.
    split; [apply Helem; eauto|].
    unfold row_of in Hr.
    destruct (allocations_of_row _ tas) as [|a0 l0] eqn:E; [discriminate|].
    injection Hr as <-. cbn [Timesheet.row_cells].
    split; [reflexivity|].
    change (Timesheet.cell_json a ∈ Timesheet.cell_json <$> (a0 :: l0)).
    rewrite <- E. apply list_elem_of_fmap. exists a. split; [reflexivity|].
    apply list_elem_of_filter. auto.
Qed.

Lemma put_json_one_row_per_key_witness :
  exists rows,
    Timesheet.put_rows Sample.two_days = Return rows /\
    length rows
    = size (list_to_set (TimesheetAllocation.rowkey
                           <$> Timesheet.timeAllocations Sample.two_days) : gset string).
Proof.
  destruct (put_json_one_row_per_key Sample.two_days) as (rows & Hrows & _ & Hlen & _).
  - repeat constructor; eexists; reflexivity.
  - exists rows. split; assumption.
Defined.

(** C2, as the claim has it, fails: the two allocations of the sample
    timesheet, on 2 and 3 January, share the row key of P1/T1, and the
    request has a single row that holds both cells. *)
Lemma put_json_combines_rows :
  (exists r,
     Timesheet.put_rows Sample.two_days = Return [r] /\
     length (Timesheet.row_cells r) = 2 /\
     length (Timesheet.timeAllocations Sample.two_days) = 2) /\
  ~ one_row_per_allocation Sample.two_days.
Proof.
  assert (H : exists r,
     Timesheet.put_rows Sample.two_days = Return [r] /\
     length (Timesheet.row_cells r) = 2 /\
     length (Timesheet.timeAllocations Sample.two_days) = 2).
  { eexists. split; [vm_compute; reflexivity|]. split; reflexivity. }
  split; [exact H|].
  destruct H as (r & Hr & _ & _). intros Hclaim.
  destruct (Hclaim [r] Hr) as [Hlen _]. discriminate Hlen.
Qed.

(** ** The request layer *)

Ltac io_unfold :=
  unfold Replicon._getUrl, try_except, sys_exit, raise, lift, print, requests_post;
  cbn [bind ret IO_Monad outcome_Monad stdout sent network files umask
       Config_instance fst snd].

Ltac io_simpl :=
  cbn [bind ret IO_Monad outcome_Monad stdout sent network files umask
       Config_instance fst snd is_Exception response_json Py.get getitem].

(** A sequence stops where its first part raises. *)
Lemma IO_bind_Raise {A B : Type} (m : IO A) (k : A -> IO B) (w : world) (e : exn) :
  snd (m w) = Raise e -> bind m k w = (fst (m w), Raise e).
Proof.
  cbn [bind IO_Monad]. destruct (m w) as [w' [a|e']]; cbn; [discriminate|].
  now intros [= ->].
Qed.

(** [_getUrl] returns or exits with status 1; it never raises an
    exception to its caller. *)
Lemma getUrl_returns_or_exits (self : Replicon.t) (url : string) (data : value)
    (w : world) :
  (exists d, snd (Replicon._getUrl self url data w) = Return d) \/
  snd (Replicon._getUrl self url data w) = Raise (SystemExit 1).
Proof.
  io_unfold. unfold Replicon.full_url.
  destruct (Replicon.swimlane self) as [| | |base| |]; io_simpl; auto.
  destruct (Replicon.debug self); io_simpl.
  all: match goal with
       | |- context [network ?w0 ?l] => destruct (network w0 l) as [[[j|]]|]
       end; io_simpl; auto.
  all: destruct j as [| | | | |d]; io_simpl; auto.
  all: destruct (assoc "error" d) as [e|]; io_simpl.
  all: try (destruct (truthy e); io_simpl; auto).
  all: destruct (assoc "d" d); io_simpl; eauto.
Qed.

(** What [_getUrl] does with a reply that parses as JSON and answers
    [.get('error')]. *)
Lemma getUrl_reply (self : Replicon.t) (url : string) (data : value) (w : world)
    (base : string) (j e : value) :
  Replicon.swimlane self = VStr base ->
  network w (api_request self base url data :: sent w) = Some (Response (Some j)) ->
  Py.get j "error" = Return e ->
  sent (fst (Replicon._getUrl self url data w))
    = api_request self base url data :: sent w /\
  if truthy e then
    snd (Replicon._getUrl self url data w) = Raise (SystemExit 1) /\
    stdout (fst (Replicon._getUrl self url data w))
      = stdout w ++ debug_lines self base url data ++ [Line "Error: {0}" [e]]
  else
    forall d, getitem j "d" = Return d ->
      snd (Replicon._getUrl self url data w) = Return d.
Proof.
  intros Hs Hn He. io_unfold. unfold Replicon.full_url, debug_lines.
  rewrite Hs. io_simpl. unfold api_request in Hn.
  destruct (Replicon.debug self); io_simpl; rewrite Hn; io_simpl.
  all: rewrite He; io_simpl.
  all: destruct (truthy e); io_simpl.
  all: try (destruct (getitem j "d") as [d|ex]; [|destruct (is_Exception ex)]).
  all: io_simpl; split; [reflexivity|].
  all: try (intros d' [=]; congruence).
  all: split; [reflexivity|]; now rewrite <- ?app_assoc.
Qed.

(** A call of [_getUrl] that returns: the swimlane is a string, the
    request was sent and answered with JSON whose ['error'] is absent or
    falsy, and the result is what the reply holds under ['d'].  Nothing
    but the list of requests and the output has changed. *)
Lemma getUrl_Return (self : Replicon.t) (url : string) (data : value)
    (w w' : world) (d : value) :
  Replicon._getUrl self url data w = (w', Return d) ->
  exists base j e,
    Replicon.swimlane self = VStr base /\
    network w (api_request self base url data :: sent w) = Some (Response (Some j)) /\
    Py.get j "error" = Return e /\ truthy e = false /\
    getitem j "d" = Return d /\
    sent w' = api_request self base url data :: sent w /\
    network w' = network w /\ files w' = files w /\ umask w' = umask w /\
    Config_instance w' = Config_instance w /\
    (Replicon.debug self = false -> stdout w' = stdout w).
Proof.
  io_unfold. unfold Replicon.full_url, api_request.
  destruct (Replicon.swimlane self) as [| | |base| |]; io_simpl; try discriminate.
  destruct (Replicon.debug self); io_simpl.
  all: match goal with
       | |- context [network ?w0 ?l] => destruct (network w0 l) as [[[j|]]|] eqn:Hn
       end; io_simpl; try discriminate.
  all: destruct j as [| | | | |dd]; io_simpl; try discriminate.
  all: destruct (assoc "error" dd) as [e|] eqn:He; io_simpl.
  all: try (destruct (truthy e) eqn:Ht; io_simpl; try discriminate).
  all: destruct (assoc "d" dd) eqn:Hd; io_simpl; try discriminate.
  all: intros [= <- <-]; cbn [stdout sent network files umask Config_instance].
  all: eexists base, (VDict dd), _; io_simpl; rewrite ?He, ?Hd.
  all: repeat split; try reflexivity; try eassumption; try discriminate.
Qed.

(** A call of [_getUrl] that the server answers without an error, with
    a reply that has a ['d']. *)
Lemma getUrl_ok (self : Replicon.t) (url : string) (data : value) (w : world)
    (base : string) (j e d : value) :
  Replicon.swimlane self = VStr base ->
  network w (api_request self base url data :: sent w) = Some (Response (Some j)) ->
  Py.get j "error" = Return e -> truthy e = false ->
  getitem j "d" = Return d ->
  exists w1,
    Replicon._getUrl self url data w = (w1, Return d) /\
    sent w1 = api_request self base url data :: sent w /\
    network w1 = network w.
Proof.
  intros Hs Hn He Ht Hd. io_unfold. unfold Replicon.full_url.
  rewrite Hs. io_simpl. unfold api_request in Hn.
  destruct (Replicon.debug self); io_simpl; rewrite Hn; io_simpl.
  all: rewrite He; io_simpl; rewrite Ht; io_simpl; rewrite Hd.
  all: eexists; repeat split.
Qed.

(** A reply without a truthy ['error'] and without a ['d']: the
    [KeyError] of [jsonReply['d']] is caught by the handler, which
    prints its two lines and exits. *)
Lemma getUrl_without_d (self : Replicon.t) (url : string) (data : value) (w : world)
    (base : string) (j e : value) (ex : exn) :
  Replicon.swimlane self = VStr base ->
  network w (api_request self base url data :: sent w) = Some (Response (Some j)) ->
  Py.get j "error" = Return e -> truthy e = false ->
  getitem j "d" = Raise ex ->
  snd (Replicon._getUrl self url data w) = Raise (SystemExit 1) /\
  stdout (fst (Replicon._getUrl self url data w))
  = stdout w ++ debug_lines self base url data
    ++ (if Replicon.debug self then [Line "Reply:" [j]] else [])
    ++ [Line "<built-in method format of str object>" []; LineExn "" ex].
Proof.
  intros Hs Hn He Ht Hd. io_unfold. unfold Replicon.full_url, debug_lines.
  rewrite Hs. io_simpl. unfold api_request in Hn.
  destruct j as [| | | | |dd]; try discriminate.
  assert (Hex : ex = KeyError).
  { cbn in Hd. destruct (assoc "d" dd); [discriminate | now injection Hd]. }
  subst ex.
  destruct (Replicon.debug self); io_simpl; rewrite Hn; io_simpl.
  all: cbn [Py.get] in He; rewrite He; io_simpl; rewrite Ht; io_simpl.
  all: cbn [getitem] in Hd; destruct (assoc "d" dd); [discriminate|]; io_simpl.
  all: split; [reflexivity|]; now rewrite <- ?app_assoc.
Qed.

(** C3, as the code has it: every call of the request layer returns or
    exits with status 1, never raising an exception to its caller.
    When the reply is JSON with a truthy ['error'] field, the call
    prints the error and ends in [SystemExit 1] after this one request,
    and nothing that follows the call in the program runs.  The call
    returns exactly when the reply is a JSON object whose ['error'] is
    absent or falsy and that has a ['d'] field, and it returns that
    field; a reply without a truthy ['error'] and without a ['d'] ends
    in [SystemExit 1] too, after the two lines of the handler. *)
Theorem getUrl_fail_fast (self : Replicon.t) (url : string) (data : value)
    (w : world) :
  let r := Replicon._getUrl self url data w in
  ((exists d, snd r = Return d) \/ snd r = Raise (SystemExit 1)) /\
  (forall d,
     snd r = Return d <->
     exists (base : string) (j e : value),
       Replicon.swimlane self = VStr base /\
       network w (api_request self base url data :: sent w)
         = Some (Response (Some j)) /\
       Py.get j "error" = Return e /\ truthy e = false /\
       getitem j "d" = Return d) /\
  forall (base : string) (j e : value),
    Replicon.swimlane self = VStr base ->
    network w (api_request self base url data :: sent w)
      = Some (Response (Some j)) ->
    Py.get j "error" = Return e ->
    sent (fst r) = api_request self base url data :: sent w /\
    if truthy e then
      snd r = Raise (SystemExit 1) /\
      stdout (fst r)
        = stdout w ++ debug_lines self base url data ++ [Line "Error: {0}" [e]] /\
      forall (B : Type) (k : value -> IO B),
        (x <- Replicon._getUrl self url data ;; k x) w = (fst r, Raise (SystemExit 1))
    else
      match getitem j "d" with
      | Return d => snd r = Return d
      | Raise ex =>
          snd r = Raise (SystemExit 1) /\
          stdout (fst r)
          = stdout w ++ debug_lines self base url data
            ++ (if Replicon.debug self then [Line "Reply:" [j]] else [])
            ++ [Line "<built-in method format of str object>" []; LineExn "" ex]
      end.
Proof.
  intros r. split; [apply getUrl_returns_or_exits|]. split.
  - intros d. split.
    + intros Hr. subst r.
      destruct (Replicon._getUrl self url data w) as [w' o] eqn:E.
      cbn [snd] in Hr. subst o.
      apply getUrl_Return in E as (base & j & e & Hs & Hn & He & Ht & Hd & _).
      exists base, j, e. auto.
    + intros (base & j & e & Hs & Hn & He & Ht & Hd).
      destruct (getUrl_ok self url data w base j e d Hs Hn He Ht Hd) as (w1 & Hcall & _).
      subst r. now rewrite Hcall.
  - intros base j e Hs Hn He.
    destruct (getUrl_reply self url data w base j e Hs Hn He) as [Hsent H].
    split; [exact Hsent|].
    destruct (truthy e) eqn:Ht.
    + destruct H as [Hr Hout]. split; [exact Hr|]. split; [exact Hout|].
      intros B k. now apply IO_bind_Raise.
    + destruct (getitem j "d") as [d|ex] eqn:Hd; [now apply H|].
      exact (getUrl_without_d self url data w base j e ex Hs Hn He Ht Hd).
Qed.

(** The scenario of the specification: the reply
    [{"error": "invalid session"}] ends the program; of two calls in
    a row, only the first is sent. *)
Lemma getUrl_fail_fast_witness :
  snd (Replicon._getUrl Sample.session "services/UserService1.svc/GetEnabledUsers"
         (VDict []) (Sample.configured Sample.rejecting_server))
  = Raise (SystemExit 1) /\
  length (sent (fst
    ((_ <- Replicon._getUrl Sample.session "services/UserService1.svc/GetEnabledUsers"
            (VDict []) ;;
      Replicon._getUrl Sample.session "services/UserService1.svc/GetEnabledUsers"
            (VDict []))
       (Sample.configured Sample.rejecting_server)))) = 1.
Proof.
  destruct (proj2 (proj2 (getUrl_fail_fast Sample.session
                            "services/UserService1.svc/GetEnabledUsers" (VDict [])
                            (Sample.configured Sample.rejecting_server)))
              Sample.swimlane_url
              (VDict [("error", VStr "invalid session")])
              (VStr "invalid session") eq_refl eq_refl eq_refl)
    as [Hsent (Hr & _ & Hk)].
  split; [exact Hr|].
  rewrite Hk. cbn [fst]. rewrite Hsent. reflexivity.
Defined.

(** C3 (the claim as worded fails): the reply [{}] has no ['error'] at
    all, and the call does not return: there is no ['d'] to return,
    the handler prints its two lines and the call ends in
    [SystemExit 1]. *)
Lemma getUrl_exits_without_d :
  (let r := Replicon._getUrl Sample.session "services/UserService1.svc/GetEnabledUsers"
              (VDict []) (Sample.configured Sample.bare_server) in
   snd r = Raise (SystemExit 1) /\
   stdout (fst r) = [ Line "<built-in method format of str object>" [];
                      LineExn "" KeyError ]) /\
  ~ returns_d_unless_error Sample.session "services/UserService1.svc/GetEnabledUsers"
      (VDict []) (Sample.configured Sample.bare_server).
Proof.
  split; [split; vm_compute; reflexivity|].
  intros Hclaim.
  destruct (Hclaim Sample.swimlane_url (VDict []) eq_refl eq_refl) as (d & Hd & _).
  - intros e [= <-]. reflexivity.
  - discriminate Hd.
Qed.

(** ** Session construction *)

(** The scan leaves [loginUserURI] as it was when no user matches: from
    the start of [__init__], unbound. *)
Lemma scan_no_match (users : list value) (loginName : string)
    (acc : option value) :
  (forall user, In user users ->
     exists n, getitem user "loginName" = Return n /\
               Py.eqb n (VStr loginName) = false) ->
  for_each users (Replicon.scan_step loginName) acc = Return acc.
Proof.
  induction users as [|user users IH]; intros H; cbn [for_each].
  - reflexivity.
  - destruct (H user (or_introl eq_refl)) as (n & Hn & Hne).
    unfold Replicon.scan_step at 1. step Hn. rewrite Hne.
    cbn [bind ret outcome_Monad]. apply IH. intros u Hu. apply H. now right.
Qed.

Lemma scan_users_unbound (users : list value) (loginName : string) :
  (forall user, In user users ->
     exists n, getitem user "loginName" = Return n /\
               Py.eqb n (VStr loginName) = false) ->
  Replicon.scan_users users loginName = Return None.
Proof. apply scan_no_match. Qed.

(** With entries that all carry a login name, a matching entry with a
    uri binds [loginUserURI]; the scan has no [break], so the last
    match wins. *)
Lemma scan_users_last_match (before after : list value) (user u : value)
    (loginName : string) :
  (forall x, In x before ->
     exists n, getitem x "loginName" = Return n /\
               (Py.eqb n (VStr loginName) = true -> exists v, getitem x "uri" = Return v)) ->
  (exists n, getitem user "loginName" = Return n /\
             Py.eqb n (VStr loginName) = true) ->
  getitem user "uri" = Return u ->
  (forall x, In x after ->
     exists n, getitem x "loginName" = Return n /\
               Py.eqb n (VStr loginName) = false) ->
  Replicon.scan_users (before ++ user :: after) loginName = Return (Some u).
Proof.
  intros Hb (n & Hn & Heq) Hu Ha. unfold Replicon.scan_users.
  generalize (@None value) as acc.
  induction before as [|x before IH]; intros acc; cbn [for_each app].
  - unfold Replicon.scan_step at 1. step Hn. rewrite Heq. step Hu.
    now apply scan_no_match.
  - destruct (Hb x (or_introl eq_refl)) as (m & Hm & Hx).
    unfold Replicon.scan_step at 1. step Hm.
    destruct (Py.eqb m (VStr loginName)).
    + destruct (Hx eq_refl) as (v & Hv). step Hv.
      apply IH. intros y Hy. apply Hb. now right.
    + cbn [bind ret outcome_Monad]. apply IH. intros y Hy. apply Hb. now right.
Qed.

(** The scenario of the specification: [GetEnabledUsers] returns a user
    with the configured login name, and the session records the uri of
    that user. *)
Lemma session_with_matching_user :
  snd (Replicon.__init__ (Sample.jan 2) false
         (Sample.configured (Sample.server (VList [Sample.bob; Sample.kim]))))
  = Return Sample.session.
Proof. vm_compute. reflexivity. Qed.

(** A matching user whose uri is empty takes the branch that prints
    the message and exits. *)
Lemma session_with_empty_uri :
  let r := Replicon.__init__ (Sample.jan 2) false
             (Sample.configured (Sample.server (VList [Sample.user "kim" ""]))) in
  snd r = Raise (SystemExit 1) /\
  stdout (fst r)
  = [Line "Error: unable to find current user URI for %s" [VStr "kim"]].
Proof. vm_compute. split; reflexivity. Qed.

(** C4 (the code fails the claim): [GetEnabledUsers] returns the one
    user bob and the configured login name is kim.  The scan binds
    [loginUserURI] for no entry, and the test [if not loginUserURI]
    that follows reads the unbound local: the construction raises
    [UnboundLocalError], prints nothing, and does not reach the
    message and the [sys.exit(1)] written for this case. *)
Theorem session_without_matching_user_raises :
  (let r := Replicon.__init__ (Sample.jan 2) false
              (Sample.configured (Sample.server (VList [Sample.bob]))) in
   snd r = Raise UnboundLocalError /\
   stdout (fst r) = [] /\
   length (sent (fst r)) = 2) /\
  forall (users : list value) (loginName : string),
    (forall user, In user users ->
       exists n, getitem user "loginName" = Return n /\
                 Py.eqb n (VStr loginName) = false) ->
    Replicon.scan_users users loginName = Return None.
Proof.
  split; [vm_compute; repeat split; reflexivity|].
  intros users loginName. apply scan_users_unbound.
Qed.

(** ** The configuration loader *)

(** Without [~/.repliconrc] the loader writes the template there with
    the permission bits the umask leaves, and then changes the bits of
    [~/.togglrc]: the new file keeps its bits, and the loader ends in
    the "missing" [IOError] only when [~/.togglrc] exists; without it
    the [chmod] raises [OSError] first. *)
Lemma Config_init_missing (w : world) :
  files w !! "~/.repliconrc" = None ->
  let r := Config.__init__ w in
  files (fst r) !! "~/.repliconrc"
    = Some {| content := Config.template;
              mode := Z.land 438 (Z.lnot (umask w)) |} /\
  match files w !! "~/.togglrc" with
  | Some f =>
      snd r = Raise IOError /\
      files (fst r) !! "~/.togglrc" = Some {| content := content f; mode := 384 |}
  | None => snd r = Raise OSError
  end.
Proof.
  intros Hrc.
  unfold Config.__init__, ConfigParser_read, Config._create_empty_config,
    open_write, os_chmod, raise, set_files.
  cbn [bind ret IO_Monad outcome_Monad files umask fst snd].
  rewrite !Hrc. cbn [fmap option_fmap option_map files umask fst snd].
  rewrite lookup_insert_ne by discriminate.
  destruct (files w !! "~/.togglrc") as [f|]; cbn [files fst snd].
  - rewrite ?lookup_insert_ne by discriminate.
    rewrite !lookup_insert_eq, Hrc. auto.
  - rewrite lookup_insert_eq, Hrc. auto.
Qed.

(** C5 (the code fails the claim): in a fresh home directory, under the
    usual umask 022, the loader writes the template to [~/.repliconrc]
    and leaves it with the bits 0644, readable by everyone; the
    [chmod] is given [~/.togglrc], which does not exist, so the loader
    ends in [OSError] and not in the "configuration missing" error.
    Where [~/.togglrc] exists it is that file that gets the bits 0600. *)
Theorem missing_config_keeps_open_permissions :
  (snd (Config.__init__ Sample.fresh_home) = Raise OSError /\
   files (fst (Config.__init__ Sample.fresh_home)) !! "~/.repliconrc"
     = Some {| content := Config.template; mode := 420 |}) /\
  (snd (Config.__init__ Sample.toggl_home) = Raise IOError /\
   files (fst (Config.__init__ Sample.toggl_home)) !! "~/.repliconrc"
     = Some {| content := Config.template; mode := 420 |} /\
   files (fst (Config.__init__ Sample.toggl_home)) !! "~/.togglrc"
     = Some {| content := []; mode := 384 |}) /\
  forall w : world,
    files w !! "~/.repliconrc" = None ->
    mode <$> files (fst (Config.__init__ w)) !! "~/.repliconrc"
      = Some (Z.land 438 (Z.lnot (umask w))) /\
    (files w !! "~/.togglrc" = None -> snd (Config.__init__ w) = Raise OSError).
Proof.
  split; [vm_compute; repeat split; reflexivity|].
  split; [vm_compute; repeat split; reflexivity|].
  intros w Hrc. destruct (Config_init_missing w Hrc) as [Hfile Hend].
  split; [now rewrite Hfile|].
  intros Ht. now rewrite Ht in Hend.
Qed.

(** ** Clearing *)

(** With a swimlane that is a string, [_getUrl] sends its request
    whatever the reply turns out to be. *)
Lemma getUrl_sent (self : Replicon.t) (url : string) (data : value) (w : world)
    (base : string) :
  Replicon.swimlane self = VStr base ->
  sent (fst (Replicon._getUrl self url data w))
    = api_request self base url data :: sent w.
Proof.
  intros Hs. io_unfold. unfold Replicon.full_url. rewrite Hs. io_simpl.
  destruct (Replicon.debug self); io_simpl.
  all: match goal with
       | |- context [network ?w0 ?l] => destruct (network w0 l) as [[[j|]]|]
       end; io_simpl; auto.
  all: destruct j as [| | | | |d]; io_simpl; auto.
  all: destruct (assoc "error" d) as [e|]; io_simpl.
  all: try (destruct (truthy e); io_simpl; auto).
  all: destruct (assoc "d" d); io_simpl; eauto.
Qed.

(** C6: [clear] leaves the timesheet without allocations.  A second
    [clear] leaves the same timesheet and runs the same request, the
    PUT of a timesheet with no rows, which [put] sends to the server. *)
Theorem clear_idempotent (replicon : Replicon.t) (self : Timesheet.t) :
  let c1 := Timesheet_clear replicon self in
  let c2 := Timesheet_clear replicon (fst c1) in
  Timesheet.timeAllocations (fst c1) = [] /\
  fst c2 = fst c1 /\
  snd c2 = snd c1 /\
  Timesheet.put_json (fst c1) = Return (Timesheet.put_data (fst c1) []) /\
  forall (w : world) (base : string),
    Replicon.swimlane replicon = VStr base ->
    sent (fst (snd c1 w))
    = api_request replicon base
        "services/TimesheetService1.svc/PutStandardTimesheet2"
        (Timesheet.put_data (fst c1) []) :: sent w.
Proof.
  intros c1 c2. repeat split.
  intros w base Hs. subst c1. cbn [Timesheet_clear fst snd].
  unfold Timesheet_put, Replicon.putTimesheet, lift.
  cbn [bind ret IO_Monad outcome_Monad Timesheet.put_json Timesheet.put_rows
       Timesheet.set_timeAllocations Timesheet.timeAllocations for_each snd].
  rewrite <- (getUrl_sent replicon _ _ w base Hs).
  destruct (Replicon._getUrl _ _ _ w) as [w' [d|e]]; reflexivity.
Qed.

Lemma clear_idempotent_witness :
  Timesheet.timeAllocations (fst (Timesheet_clear Sample.session Sample.two_days)) = [] /\
  map req_data
    (sent (fst (snd (Timesheet_clear Sample.session Sample.two_days)
                  (Sample.configured (Sample.server VNone)))))
  = [Timesheet.put_data Sample.empty_timesheet []].
Proof.
  destruct (clear_idempotent Sample.session Sample.two_days)
    as (Hempty & _ & _ & _ & Hsent).
  split; [exact Hempty|].
  rewrite (Hsent (Sample.configured (Sample.server VNone)) Sample.swimlane_url eq_refl).
  reflexivity.
Defined.

(** * Further properties *)

(** ** Splitting at colons *)

Lemma split_nonempty (sep : ascii) (s : string) : Py.split sep s <> [].
Proof.
  destruct s as [|c s]; cbn [Py.split]; [discriminate|].
  destruct (Ascii.eqb c sep); [discriminate|].
  destruct (Py.split sep s); discriminate.
Qed.

Lemma split_without_sep (sep : ascii) (s : string) :
  contains sep s = false -> Py.split sep s = [s].
Proof.
  induction s as [|c s IH]; cbn [Py.split contains]; [reflexivity|].
  intros H. apply orb_false_elim in H as [Hc Hs].
  rewrite Hc, (IH Hs). reflexivity.
Qed.

Lemma split_app (sep : ascii) (a b : string) :
  Py.split sep (String.append a (String sep b)) = Py.split sep a ++ Py.split sep b.
Proof.
  induction a as [|c a IH]; simpl.
  - now rewrite Ascii.eqb_refl.
  - rewrite IH. destruct (Ascii.eqb c sep); [reflexivity|].
    pose proof (split_nonempty sep a) as Hne.
    destruct (Py.split sep a); [contradiction | reflexivity].
Qed.

Lemma split_segments (sep : ascii) (s : string) :
  Forall (fun x => contains sep x = false) (Py.split sep s).
Proof.
  induction s as [|c s IH]; cbn [Py.split].
  - repeat constructor.
  - destruct (Ascii.eqb c sep) eqn:Hc; [constructor; [reflexivity | assumption]|].
    destruct (Py.split sep s) as [|h t];
      [repeat constructor; cbn [contains]; now rewrite Hc|].
    inversion IH as [|? ? Hh Ht]; subst.
    constructor; [cbn [contains]; now rewrite Hc, Hh | assumption].
Qed.

Lemma join_split (sep : ascii) (s : string) :
  Py.join (String sep EmptyString) (Py.split sep s) = s.
Proof.
  induction s as [|c s IH]; cbn [Py.split]; [reflexivity|].
  destruct (Ascii.eqb c sep) eqn:Hc.
  - apply Ascii.eqb_eq in Hc as ->.
    pose proof (split_nonempty sep s) as Hne.
    destruct (Py.split sep s) as [|h t]; [contradiction|].
    simpl in *. now rewrite IH.
  - destruct (Py.split sep s) as [|h t] eqn:E.
    + now destruct (split_nonempty sep s).
    + rewrite <- IH. destruct t; reflexivity.
Qed.

Lemma append_assoc' (a b c : string) :
  String.append (String.append a b) c = String.append a (String.append b c).
Proof.
  induction a as [|x a IH]; [reflexivity|].
  change (String x (String.append (String.append a b) c)
          = String x (String.append a (String.append b c))).
  now rewrite IH.
Qed.

Lemma join_snoc (sep : string) (l : list string) (x : string) :
  l <> [] ->
  Py.join sep (l ++ [x]) = String.append (Py.join sep l) (String.append sep x).
Proof.
  induction l as [|a l IH]; [contradiction|]. intros _.
  destruct l as [|b l].
  - reflexivity.
  - change (Py.join sep ((a :: b :: l) ++ [x]))
      with (String.append a (String.append sep (Py.join sep ((b :: l) ++ [x])))).
    rewrite IH by discriminate.
    change (Py.join sep (a :: b :: l))
      with (String.append a (String.append sep (Py.join sep (b :: l)))).
    now rewrite !append_assoc'.
Qed.

(** X1. [uri_id] gives the text after the last colon of a uri, and the
    whole text when it has no colon: it returns [i] exactly when [i]
    has no colon and the uri is the string [i] or some [p ++ ":" ++ i];
    only strings have an id. *)
Theorem uri_id_last_segment (v : value) (i : string) :
  uri_id v = Return i <->
  exists s, v = VStr s /\ contains ":" i = false /\
            (s = i \/ exists p, s = String.append p (String ":" i)).
Proof.
  split.
  - destruct v as [| | |s| |]; try discriminate.
    cbn [uri_id split_colon bind ret outcome_Monad]. intros [= <-].
    exists s. split; [reflexivity|].
    pose proof (split_segments ":" s) as Hseg.
    pose proof (join_split ":" s) as Hjoin.
    destruct (List.exists_last (split_nonempty ":" s)) as (l & x & E).
    rewrite E in *. rewrite List.last_last.
    apply Forall_app in Hseg as [_ Hx]. inversion Hx as [|? ? Hc _].
    split; [exact Hc|].
    destruct l as [|a l]; [left; now rewrite <- Hjoin|].
    right. rewrite join_snoc in Hjoin by discriminate.
    eexists. symmetry. exact Hjoin.
  - intros (s & -> & Hi & [-> | [p ->]]);
      cbn [uri_id split_colon bind ret outcome_Monad].
    + now rewrite (split_without_sep _ _ Hi).
    + rewrite split_app, (split_without_sep _ _ Hi). now rewrite List.last_last.
Qed.

(** X2. [valid_key_value] accepts exactly the texts with one colon, and
    gives the text before it and the text after it; every other text,
    with no colon or with two or more, is an [ArgumentTypeError] that
    quotes the text. *)
Theorem valid_key_value_one_colon (s : string) :
  (forall k v, CLI.valid_key_value s = CLI.Accepted (k, v) <->
               s = String.append k (String ":" v) /\
               contains ":" k = false /\ contains ":" v = false) /\
  ((forall kv, CLI.valid_key_value s <> CLI.Accepted kv) ->
   CLI.valid_key_value s =
     CLI.ArgumentTypeError "Not a valid 'KEY:VALUE' string '{0}'." s).
Proof.
  split.
  - intros k v. unfold CLI.valid_key_value. split.
    + pose proof (split_segments ":" s) as Hseg.
      pose proof (join_split ":" s) as Hjoin.
      destruct (Py.split ":" s) as [|a [|b [|c l]]]; try discriminate.
      intros [= -> ->].
      inversion Hseg as [|? ? Hk Hv']. inversion Hv' as [|? ? Hv _].
      repeat split; try assumption. now rewrite <- Hjoin.
    + intros (-> & Hk & Hv).
      now rewrite split_app, (split_without_sep _ _ Hk), (split_without_sep _ _ Hv).
  - unfold CLI.valid_key_value.
    destruct (Py.split ":" s) as [|a [|b [|c l]]]; try reflexivity.
    intros H. now destruct (H (a, b)).
Qed.

(** ** Sequences of calls *)

Lemma IO_bind_Return {A B : Type} (m : IO A) (k : A -> IO B) (w w' : world) (b : B) :
  bind m k w = (w', Return b) ->
  exists a w1, m w = (w1, Return a) /\ k a w1 = (w', Return b).
Proof.
  cbn [bind IO_Monad]. destruct (m w) as [w1 [a|e]]; [eauto | discriminate].
Qed.

Lemma lift_Return {A : Type} (o : outcome A) (w w' : world) (a : A) :
  lift o w = (w', Return a) -> w' = w /\ o = Return a.
Proof. unfold lift. now intros [= -> ->]. Qed.

(** Split a hypothesis [(x <- m ;; ...) w = (w', Return b)] into its steps. *)
Ltac inv_io H :=
  repeat match type of H with
  | bind ?m ?k ?w = (?w', Return ?b) =>
      let a := fresh "x" in
      let w1 := fresh "w" in
      let E := fresh "E" in
      apply IO_bind_Return in H as (a & w1 & E & H)
  end.


(** ** Fetching the timesheet *)

Lemma getTimesheet_Return (self : Replicon.t) (a_date : option datetime.date)
    (w w' : world) (ts : Timesheet.t) :
  Session.getTimesheet self a_date w = (w', Return ts) ->
  exists base j1 d1 t1 uri j2 d2,
    Replicon.swimlane self = VStr base /\
    let req1 := lookup_request self base (date_or_default self a_date) in
    let req2 := details_request self base uri in
    network w (req1 :: sent w) = Some (Response (Some j1)) /\
    getitem j1 "d" = Return d1 /\
    getitem d1 "timesheet" = Return t1 /\
    getitem t1 "uri" = Return uri /\
    network w (req2 :: req1 :: sent w) = Some (Response (Some j2)) /\
    getitem j2 "d" = Return d2 /\
    Timesheet.__init__ d2 = Return ts /\
    sent w' = req2 :: req1 :: sent w /\
    network w' = network w /\ files w' = files w /\ umask w' = umask w /\
    Config_instance w' = Config_instance w /\
    (Replicon.debug self = false -> stdout w' = stdout w).
Proof.
  unfold Session.getTimesheet. intros H. inv_io H.
  apply getUrl_Return in E
    as (base & j1 & e1 & Hs & Hn1 & _ & _ & Hd1 & Hsent1 & Hnet1 & Hf1 & Hu1 & Hc1 & Ho1).
  apply lift_Return in E0 as [-> Ht1].
  apply lift_Return in E1 as [-> Huri].
  apply getUrl_Return in E2
    as (base' & j2 & e2 & Hs' & Hn2 & _ & _ & Hd2 & Hsent2 & Hnet2 & Hf2 & Hu2 & Hc2 & Ho2).
  apply lift_Return in H as [-> Hts].
  rewrite Hs in Hs'. injection Hs' as <-.
  rewrite Hnet1, Hsent1 in Hn2.
  exists base, j1, x, x0, x1, j2, x2.
  unfold lookup_request, details_request, date_or_default.
  repeat split; try assumption; try congruence.
  intros Hdbg. rewrite (Ho2 Hdbg). auto.
Qed.

(** X3. A [getTimesheet] that returns has sent exactly two requests:
    the lookup of the timesheet for the date asked for (the date of the
    session when none is given) under the session's user uri, and then
    the request for the details of the timesheet whose uri the reply to
    the lookup names.  The timesheet returned is built from the reply
    to the second request. *)
Theorem getTimesheet_fetches_named_uri (self : Replicon.t)
    (a_date : option datetime.date) (w : world) (ts : Timesheet.t) :
  let r := Session.getTimesheet self a_date w in
  snd r = Return ts ->
  exists base j1 uri j2,
    Replicon.swimlane self = VStr base /\
    let req1 := lookup_request self base (date_or_default self a_date) in
    let req2 := details_request self base uri in
    sent (fst r) = req2 :: req1 :: sent w /\
    network w (req1 :: sent w) = Some (Response (Some j1)) /\
    (d <- getitem j1 "d" ;; t <- getitem d "timesheet" ;; getitem t "uri") = Return uri /\
    network w (req2 :: req1 :: sent w) = Some (Response (Some j2)) /\
    (d <- getitem j2 "d" ;; Timesheet.__init__ d) = Return ts.
Proof.
  intros r Hr. subst r.
  destruct (Session.getTimesheet self a_date w) as [w' o] eqn:E.
  cbn [snd fst] in *. subst o.
  apply getTimesheet_Return in E
    as (base & j1 & d1 & t1 & uri & j2 & d2 & Hs & Hn1 & Hd1 & Ht1 & Huri & Hn2 & Hd2
        & Hts & Hsent & _).
  exists base, j1, uri, j2. cbn zeta.
  repeat split; try assumption.
  - step Hd1. step Ht1. exact Huri.
  - step Hd2. exact Hts.
Qed.

Lemma getTimesheet_fetches_named_uri_witness :
  exists ts,
    snd (Session.getTimesheet Sample.session None Fixture.office) = Return ts /\
    map req_data (sent (fst (Session.getTimesheet Sample.session None Fixture.office)))
    = [ VDict [ ("timesheetUri", Fixture.timesheet_uri) ];
        VDict [ ("userUri", VStr "urn:replicon-tenant:acme:user:3");
                ("date", date_to_dict (Sample.jan 2));
                ("timesheetGetOptionUri", VNone) ] ].
Proof.
  eexists. split; [vm_compute; reflexivity|].
  destruct (getTimesheet_fetches_named_uri Sample.session None Fixture.office _ eq_refl)
    as (base & j1 & uri & j2 & Hs & Hsent & Hn1 & Huri & _).
  rewrite Hsent. injection Hs as <-.
  vm_compute in Hn1. injection Hn1 as <-.
  vm_compute in Huri. injection Huri as <-.
  reflexivity.
Defined.


(** X4. A reply to the lookup that names no timesheet is no API error:
    when it has no ['error'] and what it holds under ['d'] has no
    ['timesheet'] with a ['uri'], [getTimesheet] raises [KeyError] or
    [TypeError] to its caller after this one request, where an API
    error ends the program. *)
Theorem getTimesheet_lookup_names_no_timesheet (self : Replicon.t)
    (a_date : option datetime.date) (w : world) (base : string) (j e d : value)
    (ex : exn) :
  Replicon.swimlane self = VStr base ->
  let req := lookup_request self base (date_or_default self a_date) in
  network w (req :: sent w) = Some (Response (Some j)) ->
  Py.get j "error" = Return e -> truthy e = false ->
  getitem j "d" = Return d ->
  (t <- getitem d "timesheet" ;; getitem t "uri") = Raise ex ->
  let r := Session.getTimesheet self a_date w in
  snd r = Raise ex /\ (ex = KeyError \/ ex = TypeError) /\
  sent (fst r) = req :: sent w.
Proof.
  intros Hs req Hn He Ht Hd Hex r.
  destruct (getUrl_ok self _ _ w base j e d Hs Hn He Ht Hd) as (w1 & Hcall & Hsent & _).
  assert (Hkind : ex = KeyError \/ ex = TypeError).
  { revert Hex. unfold getitem.
    destruct d as [| | | | |dd]; cbn; try (intros [= <-]; auto).
    destruct (assoc "timesheet" dd) as [t|]; cbn; [|intros [= <-]; auto].
    destruct t as [| | | | |tt]; cbn; try (intros [= <-]; auto).
    destruct (assoc "uri" tt); [discriminate | intros [= <-]; auto]. }
  assert (Hrun : r = (w1, Raise ex)).
  { subst r req. unfold Session.getTimesheet, lookup_request in *.
    cbn [bind IO_Monad]. fold (date_or_default self a_date). rewrite Hcall.
    unfold lift at 1.
    destruct (getitem d "timesheet") as [t|ex'] eqn:Et; cbn [bind outcome_Monad] in Hex.
    - unfold lift at 1. now rewrite Hex.
    - now injection Hex as ->. }
  rewrite Hrun. cbn [fst snd]. auto.
Qed.

Lemma getTimesheet_lookup_names_no_timesheet_witness :
  let r := Session.getTimesheet Sample.session None
             (Sample.configured (Sample.server VNone)) in
  snd r = Raise TypeError /\ length (sent (fst r)) = 1.
Proof.
  destruct (getTimesheet_lookup_names_no_timesheet Sample.session None
              (Sample.configured (Sample.server VNone)) Sample.swimlane_url
              (VDict [("d", VNone)]) VNone VNone TypeError
              eq_refl eq_refl eq_refl eq_refl eq_refl eq_refl)
    as (Hr & _ & Hsent).
  split; [exact Hr|]. cbv zeta. rewrite Hsent. reflexivity.
Defined.

(** ** The cached clients *)

Lemma Method_bind_Return {A B : Type} (m : Method A) (k : A -> Method B)
    (self self' : Replicon.t) (w w' : world) (b : B) :
  bind m k self w = ((self', w'), Return b) ->
  exists a self1 w1,
    m self w = ((self1, w1), Return a) /\ k a self1 w1 = ((self', w'), Return b).
Proof.
  cbn [bind Method_Monad]. destruct (m self w) as [[self1 w1] [a|e]]; [|discriminate].
  cbn [fst snd]. eauto.
Qed.

Lemma reading_Return {A : Type} (f : Replicon.t -> IO A)
    (self self' : Replicon.t) (w w' : world) (a : A) :
  reading f self w = ((self', w'), Return a) ->
  self' = self /\ f self w = (w', Return a).
Proof.
  unfold reading. destruct (f self w) as [w1 o]. cbn [fst snd].
  now intros [= -> -> ->].
Qed.

(** What follows a call without input or output runs, and ends, in the
    world the call left. *)
Lemma lift_world {A : Type} (o : outcome A) (w : world) : fst (lift o w) = w.
Proof. reflexivity. Qed.

Lemma lift_bind_world {A B : Type} (o : outcome A) (k : A -> IO B) (w : world) :
  (forall a w1, fst (k a w1) = w1) -> fst ((x <- lift o ;; k x) w) = w.
Proof.
  intros Hk. cbn [bind IO_Monad]. unfold lift at 1.
  destruct o as [a|e]; [apply Hk | reflexivity].
Qed.

Lemma getUrl_bind_world {A : Type} (self : Replicon.t) (url : string) (data : value)
    (k : value -> IO A) (w : world) :
  (forall d w1, fst (k d w1) = w1) ->
  fst ((reply <- Replicon._getUrl self url data ;; k reply) w)
  = fst (Replicon._getUrl self url data w).
Proof.
  intros Hk. cbn [bind IO_Monad].
  destruct (Replicon._getUrl self url data w) as [w1 [d|e]]; [apply Hk | reflexivity].
Qed.

(** The request for the clients of a timesheet *)
Lemma getClientsAvailableForTimesheet_sent (self : Replicon.t) (ts : Timesheet.t)
    (w : world) (base : string) :
  Replicon.swimlane self = VStr base ->
  sent (fst (Session.getClientsAvailableForTimesheet self ts w))
  = clients_request self base (Timesheet.uri ts) :: sent w.
Proof.
  intros Hs. unfold Session.getClientsAvailableForTimesheet, clients_request.
  rewrite getUrl_bind_world.
  - now apply getUrl_sent.
  - intros d w1. apply lift_bind_world. intros a w2. apply lift_world.
Qed.

Lemma getClients_cached (self : Replicon.t) (w : world) (c : Client.t)
    (cs : list Client.t) :
  Replicon.clients self = c :: cs ->
  Session.getClients self w = ((self, w), Return (c :: cs)).
Proof.
  intros Hc. unfold Session.getClients, reading.
  cbn [bind ret Method_Monad IO_Monad fst snd]. rewrite Hc.
  cbn [bind ret Method_Monad IO_Monad fst snd]. now rewrite Hc.
Qed.

(** What a [getClients] that returns leaves in the session. *)
Lemma getClients_Return (self self' : Replicon.t) (w w' : world)
    (cs : list Client.t) :
  Session.getClients self w = ((self', w'), Return cs) ->
  Replicon.clients self' = cs /\
  Replicon.swimlane self' = Replicon.swimlane self /\
  Replicon.userURI self' = Replicon.userURI self /\
  Replicon.auth self' = Replicon.auth self /\
  Replicon.debug self' = Replicon.debug self /\
  Replicon.date self' = Replicon.date self /\
  network w' = network w /\
  (Replicon.clients self <> [] -> self' = self /\ w' = w) /\
  (Replicon.clients self = [] ->
   exists base ts, Replicon.swimlane self = VStr base /\
                   Replicon.timesheet self' = Some ts /\
                   (forall ts0, Replicon.timesheet self = Some ts0 -> ts = ts0)).
Proof.
  destruct (Replicon.clients self) as [|c cs0] eqn:Hc.
  - unfold Session.getClients. intros H.
    apply Method_bind_Return in H as (cs1 & s1 & w1 & E1 & H).
    apply reading_Return in E1 as [-> E1]. injection E1 as <- <-. rewrite Hc in H.
    apply Method_bind_Return in H as ([] & s2 & w2 & E2 & H).
    apply reading_Return in H as [-> H]. injection H as <- <-.
    unfold Session.fetch_clients in E2.
    apply Method_bind_Return in E2 as (ots & s3 & w3 & E3 & E2).
    apply reading_Return in E3 as [-> E3]. injection E3 as <- <-.
    apply Method_bind_Return in E2 as ([] & s4 & w4 & E4 & E2).
    apply Method_bind_Return in E2 as (cs2 & s5 & w5 & E5 & E2).
    apply reading_Return in E5 as [-> E5].
    unfold set_clients in E2. injection E2 as <- <-. cbn.
    destruct (Replicon.timesheet s4) as [ts|] eqn:Hts; [|discriminate].
    unfold Session.getClientsAvailableForTimesheet in E5. inv_io E5.
    apply getUrl_Return in E as (base & _ & _ & Hs & _ & _ & _ & _ & _ & Hnet & _).
    apply lift_Return in E0 as [-> _]. apply lift_Return in E5 as [-> _].
    destruct (Replicon.timesheet self) as [ts0|] eqn:Hts0.
    + injection E4 as <- <-. rewrite Hts0 in Hts. injection Hts as <-.
      do 7 (split; [first [reflexivity | assumption | congruence]|]).
      split; [intros Hne; now destruct Hne|].
      intros _. exists base, ts0. split; [assumption|]. split; [reflexivity|].
      now intros ? [= <-].
    + apply Method_bind_Return in E4 as (ts1 & s6 & w6 & E6 & E4).
      apply reading_Return in E6 as [-> E6].
      apply getTimesheet_Return in E6
        as (_ & _ & _ & _ & _ & _ & _ & _ & _ & _ & _ & _ & _ & _ & _ & _ & Hnet' & _).
      unfold set_timesheet in E4. injection E4 as <- <-. cbn in *.
      injection Hts as <-.
      do 7 (split; [first [reflexivity | assumption | congruence]|]).
      split; [intros Hne; now destruct Hne|].
      intros _. exists base, ts1. split; [assumption|]. split; [reflexivity|].
      discriminate.
  - intros H. rewrite (getClients_cached self w c cs0 Hc) in H.
    injection H as <- <- <-.
    do 7 (split; [first [reflexivity | assumption | congruence]|]).
    split; [intros _; split; reflexivity | discriminate].
Qed.

(** With a timesheet and no clients in the session, [getClients] goes
    to the server for the clients, whatever becomes of the call. *)
Lemma getClients_refetch (self : Replicon.t) (ts : Timesheet.t) (w : world) :
  Replicon.clients self = [] -> Replicon.timesheet self = Some ts ->
  snd (fst (Session.getClients self w))
  = fst (Session.getClientsAvailableForTimesheet self ts w).
Proof.
  intros Hc Hts. unfold Session.getClients, Session.fetch_clients, reading.
  cbn [bind ret Method_Monad IO_Monad fst snd]. rewrite Hc.
  cbn [bind ret Method_Monad IO_Monad fst snd]. rewrite Hts.
  cbn [bind ret Method_Monad IO_Monad fst snd]. rewrite Hts.
  destruct (Session.getClientsAvailableForTimesheet self ts w) as [w1 [cs|e]];
    reflexivity.
Qed.

(** X5. [getClients] keeps a list of clients that is not empty: once it
    has returned one, every later call returns the same list without a
    request, without output and without a change to the session.  An
    empty list is not kept: after a call that returned no clients, every
    later call asks the server again for the clients of the timesheet
    that the session holds. *)
Theorem getClients_keeps_nonempty_list (self : Replicon.t) (w : world)
    (cs : list Client.t) :
  let r := Session.getClients self w in
  snd r = Return cs ->
  let self' := fst (fst r) in
  Replicon.clients self' = cs /\
  (cs <> [] -> forall w2, Session.getClients self' w2 = ((self', w2), Return cs)) /\
  (cs = [] ->
   exists base ts,
     Replicon.swimlane self' = VStr base /\ Replicon.timesheet self' = Some ts /\
     forall w2, sent (snd (fst (Session.getClients self' w2)))
                = clients_request self' base (Timesheet.uri ts) :: sent w2).
Proof.
  intros r Hr self'. subst self' r.
  destruct (Session.getClients self w) as [[self' w'] o] eqn:E.
  cbn [fst snd] in *. subst o.
  destruct (getClients_Return _ _ _ _ _ E)
    as (Hcs & Hsw & _ & _ & _ & _ & _ & Hkept & Hnew).
  split; [assumption|]. split.
  - intros Hne w2. destruct cs as [|c cs]; [contradiction|].
    now apply getClients_cached.
  - intros ->.
    destruct (Replicon.clients self) as [|c cs0] eqn:Hc.
    + destruct (Hnew eq_refl) as (base & ts & Hs & Hts & _).
      exists base, ts. rewrite Hsw. repeat split; try assumption.
      intros w2. rewrite (getClients_refetch self' ts w2 Hcs Hts).
      apply getClientsAvailableForTimesheet_sent. now rewrite Hsw.
    + destruct Hkept as [-> _]; [discriminate|]. congruence.
Qed.

Lemma getClients_keeps_nonempty_list_witness :
  let r := Session.getClients Sample.session Fixture.office in
  snd r = Return [Fixture.C1; Fixture.C2] /\
  Session.getClients (fst (fst r)) (snd (fst r)) = (fst r, Return [Fixture.C1; Fixture.C2]).
Proof.
  intros r.
  assert (H : snd r = Return [Fixture.C1; Fixture.C2]) by (vm_compute; reflexivity).
  split; [exact H|].
  destruct (getClients_keeps_nonempty_list Sample.session Fixture.office _ H)
    as (_ & Hkeep & _).
  transitivity ((fst (fst r), snd (fst r)), Return [Fixture.C1; Fixture.C2]).
  - apply Hkeep. discriminate.
  - generalize (fst r). intros []. reflexivity.
Defined.

(** ** Looking up clients, projects and tasks by name *)

(** A loop that returns at the first item its test accepts. *)
Lemma first_match_Some {A : Type} (test : A -> bool) (l : list A) (x : A) :
  Session.first_match test l = Some x <->
  exists before after,
    l = before ++ x :: after /\ test x = true /\
    Forall (fun y => test y = false) before.
Proof.
  split.
  - induction l as [|y l IH]; cbn [Session.first_match]; [discriminate|].
    destruct (test y) eqn:Hy.
    + intros [= ->]. exists [], l. repeat split; [assumption | constructor].
    + intros H. destruct (IH H) as (before & after & -> & Hx & Hb).
      exists (y :: before), after. repeat split; [assumption|].
      now constructor.
  - intros (before & after & -> & Hx & Hb).
    induction Hb as [|y before Hy _ IH]; cbn [Session.first_match app].
    + now rewrite Hx.
    + now rewrite Hy.
Qed.

Lemma first_match_None {A : Type} (test : A -> bool) (l : list A) :
  Session.first_match test l = None <-> Forall (fun y => test y = false) l.
Proof.
  induction l as [|y l IH]; cbn [Session.first_match].
  - split; [constructor | reflexivity].
  - destruct (test y) eqn:Hy.
    + split; [discriminate|]. intros H. inversion H; congruence.
    + rewrite IH. split; [now constructor | intros H; now inversion H].
Qed.

(** X6. [getClient] returns the first of the session's clients whose
    id, display text or name is equal to the search value, also when a
    later client matches it too, and [None] when no client matches; the
    clients it looks through are those that [getClients] left in the
    session. *)
Theorem getClient_first_match (search : value) (self : Replicon.t) (w : world)
    (found : option Client.t) :
  let r := Session.getClient search self w in
  snd r = Return found ->
  let cs := Replicon.clients (fst (fst r)) in
  snd (Session.getClients self w) = Return cs /\
  match found with
  | Some c =>
      exists before after,
        cs = before ++ c :: after /\
        (Py.eqb search (VStr (Client.id c)) = true \/
         Py.eqb search (Client.displayText c) = true \/
         Py.eqb search (Client.name c) = true) /\
        Forall (fun b => Py.eqb search (VStr (Client.id b)) = false /\
                         Py.eqb search (Client.displayText b) = false /\
                         Py.eqb search (Client.name b) = false) before
  | None =>
      Forall (fun b => Py.eqb search (VStr (Client.id b)) = false /\
                       Py.eqb search (Client.displayText b) = false /\
                       Py.eqb search (Client.name b) = false) cs
  end.
Proof.
  intros r Hr cs. subst cs r.
  destruct (Session.getClient search self w) as [[self' w'] o] eqn:E.
  cbn [fst snd] in *. subst o.
  unfold Session.getClient in E.
  apply Method_bind_Return in E as (cs0 & s1 & w1 & E1 & E).
  apply Method_bind_Return in E as (cs1 & s2 & w2 & E2 & E).
  apply reading_Return in E2 as [-> E2]. injection E2 as <- <-.
  injection E as <- <- <-.
  pose proof (getClients_Return _ _ _ _ _ E1) as (Hcs & _).
  rewrite E1. cbn [snd]. split; [now rewrite Hcs|].
  assert (Hno : forall l,
    Forall (fun y => Session.client_matches search y = false) l ->
    Forall (fun b => Py.eqb search (VStr (Client.id b)) = false /\
                     Py.eqb search (Client.displayText b) = false /\
                     Py.eqb search (Client.name b) = false) l).
  { intros l Hl. eapply Forall_impl; [exact Hl|]. intros b Hb. unfold Session.client_matches in Hb.
    apply orb_false_elim in Hb as [Hb ?]. apply orb_false_elim in Hb as [? ?]. auto. }
  destruct (Session.first_match _ _) as [c|] eqn:Hm.
  - apply first_match_Some in Hm as (before & after & Hl & Hc & Hb).
    exists before, after. split; [assumption|]. split; [|now apply Hno].
    unfold Session.client_matches in Hc.
    apply orb_prop in Hc as [Hc|Hc]; [apply orb_prop in Hc as [Hc|Hc]|]; auto.
  - apply Hno. now apply first_match_None.
Qed.

Lemma getClient_first_match_witness :
  let r := Session.getClient (VStr "1") Sample.session Fixture.office in
  snd r = Return (Some Fixture.C1) /\
  snd (Session.getClients Sample.session Fixture.office)
  = Return (Replicon.clients (fst (fst r))) /\
  Py.eqb (VStr "1") (Client.name Fixture.C2) = true.
Proof.
  intros r.
  assert (H : snd r = Return (Some Fixture.C1)) by (vm_compute; reflexivity).
  destruct (getClient_first_match (VStr "1") Sample.session Fixture.office _ H)
    as (Hcs & _).
  split; [exact H|]. split; [exact Hcs | reflexivity].
Defined.

Lemma find_client_uri_spec (client : Client.t) (cs : list Client.t) (acc : value) :
  Session.find_client_uri client cs acc
  = if existsb (fun c => String.eqb (Client.uri c) (Client.uri client)) cs
    then VStr (Client.uri client) else acc.
Proof.
  revert acc. induction cs as [|c cs IH]; intros acc;
    cbn [Session.find_client_uri existsb]; [reflexivity|].
  rewrite IH. destruct (String.eqb (Client.uri c) (Client.uri client)) eqn:Hc;
    cbn [orb]; [|reflexivity].
  apply String.eqb_eq in Hc. rewrite Hc. now destruct (existsb _ cs).
Qed.

Lemma getProjectsAvailableForTimesheetAndClient_sent (self : Replicon.t)
    (timesheet_uri client_uri : value) (w : world) (base : string) :
  Replicon.swimlane self = VStr base ->
  sent (fst (Session.getProjectsAvailableForTimesheetAndClient self
               timesheet_uri client_uri w))
  = projects_request self base timesheet_uri client_uri :: sent w.
Proof.
  intros Hs. unfold Session.getProjectsAvailableForTimesheetAndClient, projects_request.
  rewrite getUrl_bind_world.
  - now apply getUrl_sent.
  - intros d w1. apply lift_bind_world. intros a w2. apply lift_world.
Qed.

(** X7. [getProjects] for a client asks for the projects of the client
    only when the uri of the client is the uri of one of the session's
    clients.  For any other client the request has a null [clientUri],
    as for a call without a client: the server is asked for the
    projects that have no client. *)
Theorem getProjects_names_listed_client_only (client : Client.t)
    (self self1 : Replicon.t) (w w1 : world) (cs : list Client.t)
    (base : string) (ts : Timesheet.t) :
  Session.getClients self w = ((self1, w1), Return cs) ->
  Replicon.swimlane self1 = VStr base ->
  Replicon.timesheet self1 = Some ts ->
  let r := Session.getProjects (Some client) self w in
  let client_uri :=
    if existsb (fun c => String.eqb (Client.uri c) (Client.uri client)) cs
    then VStr (Client.uri client) else VNone in
  fst (fst r) = self1 /\
  sent (snd (fst r))
  = projects_request self1 base (Timesheet.uri ts) client_uri :: sent w1.
Proof.
  intros E Hs Hts r client_uri.
  pose proof (getClients_Return _ _ _ _ _ E) as (Hcs & _).
  assert (Hr : fst r = (self1, fst (Session.getProjectsAvailableForTimesheetAndClient
                                      self1 (Timesheet.uri ts) client_uri w1))).
  { subst r client_uri. unfold Session.getProjects.
    cbn [bind ret Method_Monad]. rewrite E. cbn [fst snd].
    unfold reading at 1. cbn [bind ret IO_Monad fst snd]. rewrite Hcs.
    rewrite find_client_uri_spec.
    unfold reading, Session.timesheet_uri. rewrite Hts.
    cbn [bind ret IO_Monad fst snd lift]. reflexivity. }
  rewrite Hr. cbn [fst snd]. split; [reflexivity|].
  now apply getProjectsAvailableForTimesheetAndClient_sent.
Qed.

Lemma getProjects_names_listed_client_only_witness :
  req_data <$> head (sent (snd (fst
    (Session.getProjects (Some Fixture.stranger) Sample.session Fixture.office))))
  = Some (VDict [ ("page", VInt 1);
                  ("pageSize", VInt 10000);
                  ("timesheetUri", Fixture.timesheet_uri);
                  ("clientUri", VNone);
                  ("textSearch", VNone);
                  ("clientNullFilterBehaviorUri",
                   VStr "urn:replicon:client-null-filter-behavior:filtered") ]).
Proof.
  destruct (Session.getClients Sample.session Fixture.office) as [[self1 w1] o] eqn:E.
  assert (Ho : o = Return [Fixture.C1; Fixture.C2])
    by (apply (f_equal snd) in E; vm_compute in E; now symmetry).
  subst o.
  assert (Hts : exists ts, Replicon.timesheet self1 = Some ts /\
                           Timesheet.uri ts = Fixture.timesheet_uri).
  { apply (f_equal (fun x => Replicon.timesheet (fst (fst x)))) in E.
    cbn [fst] in E. rewrite <- E. vm_compute. eauto. }
  destruct Hts as (ts & Hts & Huri).
  assert (Hs : Replicon.swimlane self1 = VStr Sample.swimlane_url).
  { apply (f_equal (fun x => Replicon.swimlane (fst (fst x)))) in E.
    cbn [fst] in E. rewrite <- E. reflexivity. }
  destruct (getProjects_names_listed_client_only Fixture.stranger _ _ _ _ _ _ _ E Hs Hts)
    as [_ Hsent].
  rewrite Hsent. cbn [head fmap option_fmap option_map]. now rewrite Huri.
Defined.

(** ** The session after its construction *)

Lemma Config_call_Return (w w' : world) (c : Config.t) :
  Config.call w = (w', Return c) ->
  sent w' = sent w /\ network w' = network w /\ stdout w' = stdout w /\
  files w' = files w /\ Config_instance w' = Some (Config.cfg c) /\
  configuration_of w (Config.cfg c).
Proof.
  unfold Config.call, configuration_of.
  destruct (Config_instance w) as [c0|] eqn:Hi.
  - intros [= <- <-]. auto 10.
  - unfold Config.__init__, ConfigParser_read.
    cbn [bind ret IO_Monad]. destruct (files w !! "~/.repliconrc") as [f|] eqn:Hf;
      cbn [fmap option_fmap option_map].
    + intros [= <- <-]. cbn. eauto 10.
    + unfold Config._create_empty_config, open_write, os_chmod, raise.
      cbn [bind ret IO_Monad]. destruct (files _ !! "~/.togglrc"); discriminate.
Qed.

(** The cached configuration is handed out again. *)
Lemma Config_call_again (w : world) (c : ConfigParser.t) :
  Config_instance w = Some c -> Config.call w = (w, Return {| Config.cfg := c |}).
Proof. intros H. unfold Config.call. now rewrite H. Qed.

(** The discovery call of [__init__], when it returns *)
Lemma discovery_Return (companyKey : string) (w w' : world) (swimlane : value) :
  try_except
    (swimlaneFinder <- requests_post Replicon.swimlaneFinderUrl
                         (VDict [("tenant", VDict [("companyKey", VStr companyKey)])])
                         None ;;
     swimlaneFinder <- lift (response_json swimlaneFinder) ;;
     err <- lift (Py.get swimlaneFinder "error") ;;
     if truthy err then
       print (Line "Error: {0}" [err]) ;;
       sys_exit 1
     else
       d <- lift (getitem swimlaneFinder "d") ;;
       lift (getitem d "applicationRootUrl"))
    (fun e => print (LineExn "Error: {0}" e) ;; sys_exit 1) w
  = (w', Return swimlane) ->
  sent w' = discovery_request companyKey :: sent w /\
  network w' = network w /\ Config_instance w' = Config_instance w /\
  exists j d,
    network w (discovery_request companyKey :: sent w) = Some (Response (Some j)) /\
    getitem j "d" = Return d /\ getitem d "applicationRootUrl" = Return swimlane.
Proof.
  unfold try_except, sys_exit, raise, lift, print, requests_post, discovery_request.
  cbn [bind ret IO_Monad outcome_Monad stdout sent network files umask
       Config_instance fst snd].
  match goal with
  | |- context [network ?w0 ?l] => destruct (network w0 l) as [[[j|]]|] eqn:Hn
  end; io_simpl; try discriminate.
  destruct j as [| | | | |dd]; io_simpl; try discriminate.
  destruct (assoc "error" dd) as [e|] eqn:He; io_simpl;
    [destruct (truthy e) eqn:Ht | change (truthy VNone) with false];
    io_simpl; try discriminate.
  all: destruct (assoc "d" dd) as [d|] eqn:Hd;
    cbn [bind ret IO_Monad outcome_Monad stdout sent network files umask
         Config_instance fst snd is_Exception]; try discriminate.
  all: destruct (getitem d "applicationRootUrl") as [s|ex] eqn:Hroot;
    [|destruct (is_Exception ex); discriminate].
  all: intros [= <- <-]; cbn [stdout sent network Config_instance].
  all: repeat split; exists (VDict dd), d; io_simpl; rewrite Hd; auto.
Qed.

(** The scan of the users binds [loginUserURI] to the uri of the last
    user with the login name. *)
Lemma scan_users_Return (users : list value) (loginName : string) (u : value) :
  Replicon.scan_users users loginName = Return (Some u) ->
  exists before user after,
    users = before ++ user :: after /\
    (exists n, getitem user "loginName" = Return n /\
               Py.eqb n (VStr loginName) = true) /\
    getitem user "uri" = Return u /\
    Forall (fun x => exists n, getitem x "loginName" = Return n /\
                               Py.eqb n (VStr loginName) = false) after.
Proof.
  unfold Replicon.scan_users.
  induction users as [|x users IH] using rev_ind; [discriminate|].
  rewrite for_each_snoc. intros H.
  apply bind_Return in H as (acc & Hacc & H).
  unfold Replicon.scan_step in H.
  apply bind_Return in H as (n & Hn & H).
  destruct (Py.eqb n (VStr loginName)) eqn:Heq.
  - apply bind_Return in H as (v & Hv & H). injection H as <-.
    exists users, x, []. repeat split; eauto.
  - injection H as ->.
    destruct (IH Hacc) as (before & user & after & -> & Hu & Huri & Hafter).
    exists before, user, (after ++ [x]).
    rewrite <- app_assoc. repeat split; try assumption.
    apply Forall_app. split; [assumption|]. repeat constructor. eauto.
Qed.

(** What a construction that returns has done, and the session it gives. *)
Lemma init_Return (date : datetime.date) (debug : bool) (w w' : world)
    (self : Replicon.t) :
  Replicon.__init__ date debug w = (w', Return self) ->
  exists (c : Config.t) (password base s : string) (j users : value) (us : list value),
    configuration_of w (Config.cfg c) /\
    Config.get c "auth" "company" = Return (Replicon.companyKey self) /\
    Config.get c "auth" "username" = Return (Replicon.loginName self) /\
    Config.get c "auth" "password" = Return password /\
    Config_instance w' = Some (Config.cfg c) /\
    self = {| Replicon.date := date; Replicon.debug := debug;
              Replicon.companyKey := Replicon.companyKey self;
              Replicon.loginName := Replicon.loginName self;
              Replicon.auth :=
                (String.append (Replicon.companyKey self)
                   (String.append "\" (Replicon.loginName self)), password);
              Replicon.swimlane := VStr base;
              Replicon.userURI := VStr s;
              Replicon.uri := Py.join ":" (take 3 (Py.split ":" s));
              Replicon.timesheet := None;
              Replicon.clients := [] |} /\
    s <> EmptyString /\
    sent w' = users_request (Replicon.auth self) base
                :: discovery_request (Replicon.companyKey self) :: sent w /\
    network w' = network w /\
    network w (users_request (Replicon.auth self) base
                 :: discovery_request (Replicon.companyKey self) :: sent w)
      = Some (Response (Some j)) /\
    getitem j "d" = Return users /\
    Py.iter users = Return us /\
    Replicon.scan_users us (Replicon.loginName self) = Return (Some (VStr s)).
Proof.
  unfold Replicon.__init__. intros H. inv_io H.
  apply Config_call_Return in E as (Hs1 & Hn1 & _ & _ & Hi1 & Hcfg).
  apply lift_Return in E0 as [-> Hcompany].
  rewrite (Config_call_again _ _ Hi1) in E1. injection E1 as <- <-.
  apply lift_Return in E2 as [-> Hlogin].
  rewrite (Config_call_again _ _ Hi1) in E3. injection E3 as <- <-.
  apply lift_Return in E4 as [-> Hauth].
  apply discovery_Return in E5 as (Hs2 & Hn2 & Hi2 & j0 & d0 & Hj0 & Hd0 & Hroot).
  apply getUrl_Return in E6
    as (base & j & e & Hbase & Hn3 & _ & _ & Hd & Hs3 & Hn4 & _ & _ & Hi4 & _).
  cbn [Replicon.swimlane] in Hbase. subst x5.
  apply lift_Return in E7 as [-> Hiter].
  apply lift_Return in E8 as [-> Hscan].
  destruct x8 as [u|]; [|discriminate].
  destruct (truthy u) eqn:Hu; cbn [negb] in H; [|discriminate].
  inv_io H. apply lift_Return in E as [-> Hparts]. injection H as <- <-.
  destruct u as [| | |s| |]; try discriminate. injection Hparts as <-.
  unfold Config.get_auth in Hauth.
  destruct x as [cfg]. cbn [Config.cfg] in *.
  rewrite Hcompany, Hlogin in Hauth. cbn [bind ret outcome_Monad] in Hauth.
  apply bind_Return in Hauth as (password & Hpw & Hauth). injection Hauth as <-.
  exists {| Config.cfg := cfg |}, password, base, s, j, x6, x7.
  cbn [Replicon.companyKey Replicon.loginName Replicon.auth Config.cfg].
  unfold api_request in *. cbn [Replicon.auth] in *.
  unfold users_request.
  rewrite Hs3, Hs2, Hs1 in *. rewrite Hn2, Hn1 in *.
  repeat split; try assumption; try congruence.
  intros ->. discriminate.
Qed.

(** X8. A construction of the session that returns has sent exactly two
    requests: the discovery call, to the fixed url, without credentials
    and with the company key that the configuration holds, and then
    the call for the enabled users, to the swimlane the discovery
    named, with the credentials [company\username] and the password
    that the configuration holds.  The configuration is the one of the
    world the construction starts in: what the process has kept of it
    or else what [~/.repliconrc] holds.  The session it gives has the
    company key and the username of that configuration, the date and
    the debug flag asked for, no timesheet and no clients. *)
Theorem session_construction_requests (date : datetime.date) (debug : bool)
    (w : world) (self : Replicon.t) :
  let r := Replicon.__init__ date debug w in
  snd r = Return self ->
  exists c company username password base,
    configuration_of w c /\
    Config.get {| Config.cfg := c |} "auth" "company" = Return company /\
    Config.get {| Config.cfg := c |} "auth" "username" = Return username /\
    Config.get {| Config.cfg := c |} "auth" "password" = Return password /\
    Replicon.companyKey self = company /\
    Replicon.loginName self = username /\
    Replicon.auth self
    = (String.append company (String.append "\" username), password) /\
    Replicon.swimlane self = VStr base /\
    sent (fst r)
    = {| req_url := String.append base "services/UserService1.svc/GetEnabledUsers";
         req_data := VDict [];
         req_auth := Some (String.append company (String.append "\" username),
                           password) |}
      :: {| req_url := Replicon.swimlaneFinderUrl;
            req_data := VDict [("tenant", VDict [("companyKey", VStr company)])];
            req_auth := None |}
      :: sent w /\
    Replicon.date self = date /\ Replicon.debug self = debug /\
    Replicon.timesheet self = None /\ Replicon.clients self = [].
Proof.
  intros r Hr. subst r.
  destruct (Replicon.__init__ date debug w) as [w' o] eqn:E.
  cbn [fst snd] in *. subst o.
  apply init_Return in E
    as ([c] & password & base & s & j & users & us & Hcfg & Hcompany & Hlogin & Hpw & _
        & Hself & _ & Hsent & _).
  cbn [Config.cfg] in Hcfg.
  exists c, (Replicon.companyKey self), (Replicon.loginName self), password, base.
  split; [exact Hcfg|]. split; [exact Hcompany|]. split; [exact Hlogin|].
  split; [exact Hpw|]. rewrite Hsent. rewrite Hself. cbn. repeat split.
Qed.

Lemma session_construction_requests_witness :
  let r := Replicon.__init__ (Sample.jan 2) false
             (Sample.configured (Sample.server (VList [Sample.bob; Sample.kim]))) in
  snd r = Return Sample.session /\
  map req_auth (sent (fst r)) = [Some ("acme\kim", "secret"); None].
Proof.
  intros r. subst r.
  assert (H : snd (Replicon.__init__ (Sample.jan 2) false
                     (Sample.configured (Sample.server (VList [Sample.bob; Sample.kim]))))
              = Return Sample.session) by (vm_compute; reflexivity).
  split; [exact H|].
  destruct (session_construction_requests _ _ _ _ H)
    as (c & company & username & password & base & Hcfg & Hcompany & Hlogin & Hpw
        & _ & _ & _ & _ & Hsent & _).
  destruct Hcfg as (f & Hf & <-). vm_compute in Hf. injection Hf as <-.
  vm_compute in Hcompany, Hlogin, Hpw.
  injection Hcompany as <-. injection Hlogin as <-. injection Hpw as <-.
  rewrite Hsent. reflexivity.
Defined.

(** X9. The user uri of a session is the uri of the last entry of the
    reply to [GetEnabledUsers] whose login name is the username that
    the configuration holds, also when an earlier entry has the name;
    it is a string and not empty, and [self.uri] is made of its first
    three parts between colons.  The configuration is the one of the
    world the construction starts in: what the process has kept of it
    or else what [~/.repliconrc] holds; the request that the reply
    answers carries its credentials. *)
Theorem session_records_last_matching_user (date : datetime.date) (debug : bool)
    (w : world) (self : Replicon.t) :
  let r := Replicon.__init__ date debug w in
  snd r = Return self ->
  exists c company username password base s j users before user after,
    configuration_of w c /\
    Config.get {| Config.cfg := c |} "auth" "company" = Return company /\
    Config.get {| Config.cfg := c |} "auth" "username" = Return username /\
    Config.get {| Config.cfg := c |} "auth" "password" = Return password /\
    Replicon.loginName self = username /\
    Replicon.swimlane self = VStr base /\
    Replicon.userURI self = VStr s /\ s <> EmptyString /\
    Replicon.uri self = Py.join ":" (take 3 (Py.split ":" s)) /\
    network w (users_request
                 (String.append company (String.append "\" username), password) base
                 :: discovery_request company :: sent w)
      = Some (Response (Some j)) /\
    getitem j "d" = Return users /\
    Py.iter users = Return (before ++ user :: after) /\
    (exists n, getitem user "loginName" = Return n /\
               Py.eqb n (VStr username) = true) /\
    getitem user "uri" = Return (VStr s) /\
    Forall (fun x => exists n, getitem x "loginName" = Return n /\
                       Py.eqb n (VStr username) = false) after.
Proof.
  intros r Hr. subst r.
  destruct (Replicon.__init__ date debug w) as [w' o] eqn:E.
  cbn [fst snd] in *. subst o.
  apply init_Return in E
    as ([c] & password & base & s & j & users & us & Hcfg & Hcompany & Hlogin & Hpw & _
        & Hself & Hs & _ & _ & Hn & Hd & Hiter & Hscan).
  cbn [Config.cfg] in Hcfg.
  apply scan_users_Return in Hscan as (before & user & after & -> & Hu & Huri & Hafter).
  exists c, (Replicon.companyKey self), (Replicon.loginName self), password,
    base, s, j, users, before, user, after.
  assert (Hauth : Replicon.auth self
                  = (String.append (Replicon.companyKey self)
                       (String.append "\" (Replicon.loginName self)), password))
    by (rewrite Hself; reflexivity).
  rewrite Hauth in Hn.
  repeat split; try assumption; rewrite Hself; reflexivity.
Qed.

Lemma session_records_last_matching_user_witness :
  let w := Sample.configured
             (Sample.server (VList [ Sample.user "kim" "urn:replicon-tenant:acme:user:1";
                                     Sample.bob; Sample.kim ])) in
  snd (Replicon.__init__ (Sample.jan 2) false w) = Return Sample.session /\
  Replicon.userURI Sample.session = VStr "urn:replicon-tenant:acme:user:3" /\
  Replicon.uri Sample.session = "urn:replicon-tenant:acme".
Proof.
  intros w. subst w.
  assert (H : snd (Replicon.__init__ (Sample.jan 2) false
                     (Sample.configured
                        (Sample.server
                           (VList [ Sample.user "kim" "urn:replicon-tenant:acme:user:1";
                                    Sample.bob; Sample.kim ]))))
              = Return Sample.session) by (vm_compute; reflexivity).
  split; [exact H|].
  destruct (session_records_last_matching_user _ _ _ _ H)
    as (c & company & username & password & base & s & j & users & before & user & after
        & _ & _ & _ & _ & _ & _ & Hu & _ & Huri & _).
  split; [reflexivity|]. rewrite Huri.
  cbn [Replicon.userURI Sample.session] in Hu. injection Hu as <-. reflexivity.
Defined.

(** X10. A new session cannot list tasks: it holds no timesheet, and
    [getTasks] reads the uri of [self.timesheet] without fetching one.
    For a project, [getTasks] and [getTask] raise [AttributeError]
    before any request; without a project they send nothing either,
    and give the empty list and [None]. *)
Theorem tasks_need_a_timesheet (date : datetime.date) (debug : bool)
    (w : world) (self : Replicon.t) :
  snd (Replicon.__init__ date debug w) = Return self ->
  forall (search : value) (w2 : world),
    (forall project,
       Session.getTasks self (Some project) w2 = (w2, Raise AttributeError) /\
       Session.getTask self (Some project) search w2 = (w2, Raise AttributeError)) /\
    Session.getTasks self None w2 = (w2, Return []) /\
    Session.getTask self None search w2 = (w2, Return None).
Proof.
  intros Hr search w2.
  destruct (Replicon.__init__ date debug w) as [w' o] eqn:E.
  cbn [fst snd] in *. subst o.
  apply init_Return in E
    as (c & password & base & s & j & users & us & _ & _ & _ & _ & _ & Hself & _).
  assert (Hts : Replicon.timesheet self = None) by (rewrite Hself; reflexivity).
  unfold Session.getTask, Session.getTasks, Session.timesheet_uri. rewrite Hts.
  repeat split.
Qed.

Lemma tasks_need_a_timesheet_witness :
  Session.getTask Sample.session (Some Sample.P1) (VStr "T1") Fixture.office
  = (Fixture.office, Raise AttributeError).
Proof.
  apply (tasks_need_a_timesheet (Sample.jan 2) false
           (Sample.configured (Sample.server (VList [Sample.bob; Sample.kim])))
           Sample.session).
  vm_compute. reflexivity.
Defined.

(** ** Custom fields *)

Lemma field_loop (name : value) (fields : list TimesheetEntryCustomFieldPositionDetails.t)
    (found : option CustomField.t) :
  for_each fields (Session.field_step name) None = Return found ->
  match found with
  | Some f =>
      exists before d after,
        fields = before ++ d :: after /\
        TimesheetEntryCustomFieldPositionDetails.customField d = f /\
        row_field name d /\
        Forall (fun x => ~ row_field name x) after
  | None => Forall (fun x => ~ row_field name x) fields
  end.
Proof.
  revert found. induction fields as [|x l IH] using rev_ind; intros found.
  - intros [= <-]. constructor.
  - rewrite for_each_snoc. intros H.
    apply bind_Return in H as (acc & Hacc & H).
    unfold Session.field_step in H.
    apply bind_Return in H as (row & Hrow & H).
    assert (Hkeep : found = acc -> ~ row_field name x ->
      match found with
      | Some f =>
          exists before d after,
            l ++ [x] = before ++ d :: after /\
            TimesheetEntryCustomFieldPositionDetails.customField d = f /\
            row_field name d /\
            Forall (fun x => ~ row_field name x) after
      | None => Forall (fun x => ~ row_field name x) (l ++ [x])
      end).
    { intros -> Hx. specialize (IH _ Hacc). destruct acc as [f|].
      - destruct IH as (before & d & after & -> & Hf & Hd & Hafter).
        exists before, d, (after ++ [x]). rewrite <- app_assoc.
        repeat split; try apply Hd; try assumption.
        apply Forall_app. split; [assumption | now repeat constructor].
      - apply Forall_app. split; [assumption | now repeat constructor]. }
    destruct row.
    + destruct (Py.eqb _ name) eqn:Hname.
      * injection H as <-. exists l, x, []. repeat split; try assumption. constructor.
      * injection H as <-. apply Hkeep; [reflexivity|].
        intros [_ Hn]. congruence.
    + injection H as <-. apply Hkeep; [reflexivity|].
      intros [Hr _]. congruence.
Qed.

(** X11. [getTimesheetEntryCustomField] gives the custom field of the
    last entry of the server's list that is positioned on a row and has
    the name asked for, also when an earlier entry has the name, and
    [None] when no entry is such; entries at other positions are passed
    over whatever their name. *)
Theorem getTimesheetEntryCustomField_last_row_field (self : Replicon.t)
    (name : value) (w : world) (found : option CustomField.t) :
  snd (Session.getTimesheetEntryCustomField self name w) = Return found ->
  exists fields,
    snd (Session.getStandardTimesheetEntryCustomFieldPositionDetails self w)
      = Return fields /\
    match found with
    | Some f =>
        exists before d after,
          fields = before ++ d :: after /\
          TimesheetEntryCustomFieldPositionDetails.customField d = f /\
          row_field name d /\
          Forall (fun x => ~ row_field name x) after
    | None => Forall (fun x => ~ row_field name x) fields
    end.
Proof.
  unfold Session.getTimesheetEntryCustomField. cbn [bind IO_Monad].
  destruct (Session.getStandardTimesheetEntryCustomFieldPositionDetails self w)
    as [w1 [fields|e]]; [|discriminate].
  unfold lift. cbn [snd]. intros H. exists fields. split; [reflexivity|].
  now apply field_loop.
Qed.

Lemma getTimesheetEntryCustomField_last_row_field_witness :
  snd (Session.getTimesheetEntryCustomField Sample.session (VStr "Ticket #") Fixture.office)
  = Return (Some (Fixture.field "urn:replicon-tenant:acme:custom-field:3" "Ticket #")) /\
  exists fields,
    snd (Session.getStandardTimesheetEntryCustomFieldPositionDetails
           Sample.session Fixture.office) = Return fields /\
    length fields = 4.
Proof.
  assert (H : snd (Session.getTimesheetEntryCustomField Sample.session (VStr "Ticket #")
                     Fixture.office)
              = Return (Some (Fixture.field "urn:replicon-tenant:acme:custom-field:3"
                                "Ticket #"))) by (vm_compute; reflexivity).
  split; [exact H|].
  destruct (getTimesheetEntryCustomField_last_row_field _ _ _ _ H)
    as (fields & Hfields & _).
  exists fields. split; [exact Hfields|].
  vm_compute in Hfields. injection Hfields as <-. reflexivity.
Defined.

(** ** Listing a timesheet *)

Lemma list_loop (l : list TimesheetAllocation.t) (w : world) :
  let r := for_each l
             (fun (_ : unit) a =>
                (if date_ne_str (TimesheetAllocation.date a) EmptyString
                 then print (Line "" [VStr (isoformat (TimesheetAllocation.date a))])
                 else ret tt) ;;
                print (TimesheetAllocation_repr a)) tt w in
  snd r = Return tt /\
  stdout (fst r)
  = stdout w ++ flat_map (fun a => [ Line "" [VStr (isoformat (TimesheetAllocation.date a))];
                                     TimesheetAllocation_repr a ]) l /\
  sent (fst r) = sent w /\ network (fst r) = network w.
Proof.
  match goal with |- context [for_each l ?b tt] => set (body := b) end.
  revert w. induction l as [|a l IH]; intros w; cbn [for_each flat_map].
  - cbn. now rewrite app_nil_r.
  - set (w1 := fst (body tt a w)).
    assert (Hb : body tt a w = (w1, Return tt)) by reflexivity.
    cbn [bind IO_Monad]. rewrite Hb.
    specialize (IH w1). cbv zeta in IH.
    destruct IH as (Hr & Hout & Hsent & Hnet).
    cbv zeta. rewrite Hr, Hout, Hsent, Hnet.
    subst w1 body. unfold date_ne_str, print. cbn [bind IO_Monad fst stdout sent network].
    now rewrite <- !app_assoc.
Qed.

(** X12. [Timesheet.list] prints, for every allocation in turn, the
    date of the allocation and then the allocation, and an empty line
    at the end: 2n + 1 lines for n allocations.  The date is printed
    again for an allocation on the same date as the one before it,
    since the loop never updates the date it compares with.  Nothing is
    sent. *)
Theorem Timesheet_list_prints_every_date (self : Timesheet.t) (w : world) :
  let r := Timesheet_list self w in
  snd r = Return tt /\
  stdout (fst r)
  = stdout w
    ++ flat_map (fun a => [ Line "" [VStr (isoformat (TimesheetAllocation.date a))];
                            TimesheetAllocation_repr a ])
         (Timesheet.timeAllocations self)
    ++ [Line "" []] /\
  length (stdout (fst r))
  = length (stdout w) + 2 * length (Timesheet.timeAllocations self) + 1 /\
  sent (fst r) = sent w.
Proof.
  intros r.
  assert (H : snd r = Return tt /\
              stdout (fst r)
              = stdout w
                ++ flat_map (fun a => [ Line "" [VStr (isoformat (TimesheetAllocation.date a))];
                                        TimesheetAllocation_repr a ])
                     (Timesheet.timeAllocations self)
                ++ [Line "" []] /\
              sent (fst r) = sent w).
  { subst r. unfold Timesheet_list. cbn [bind IO_Monad].
    destruct (list_loop (Timesheet.timeAllocations self) w) as (Hr & Hout & Hsent & _).
    cbv zeta in Hr, Hout, Hsent.
    destruct (@for_each IO _ _ _ _ _ tt w) as [w1 o]. cbn [fst snd] in *. subst o.
    unfold print. cbn [fst snd stdout sent]. rewrite Hout, <- app_assoc. auto. }
  destruct H as (Hr & Hout & Hsent).
  repeat split; try assumption.
  rewrite Hout, !length_app. cbn [length].
  assert (Hlen : forall l : list TimesheetAllocation.t,
            length (flat_map (fun a => [ Line "" [VStr (isoformat (TimesheetAllocation.date a))];
                                         TimesheetAllocation_repr a ]) l)
            = 2 * length l).
  { induction l as [|a l IHl]; cbn [flat_map app length]; [reflexivity | lia]. }
  rewrite Hlen. lia.
Qed.

(** ** The task history *)

Lemma history_step_NoDup (history : list Task.t) (a : TimesheetAllocation.t) :
  NoDup (map Task.uri history) -> NoDup (map Task.uri (CLI.history_step history a)).
Proof.
  intros H. unfold CLI.history_step.
  destruct (TimesheetAllocation.task a) as [t|]; [|assumption].
  destruct (existsb _ _) eqn:Hex; [assumption|].
  rewrite map_app. cbn [map]. apply NoDup_app. repeat split.
  - assumption.
  - intros u Hu Hin. apply list_elem_of_singleton in Hin as ->.
    apply list_elem_of_In in Hu.
    assert (Htrue : existsb (String.eqb (Task.uri t)) (map Task.uri history) = true)
      by (apply existsb_exists; exists (Task.uri t); split;
          [assumption | apply String.eqb_refl]).
    congruence.
  - apply NoDup_singleton.
Qed.

Lemma history_fold_NoDup (l : list TimesheetAllocation.t) (history : list Task.t) :
  NoDup (map Task.uri history) ->
  NoDup (map Task.uri (fold_left CLI.history_step l history)).
Proof.
  revert history. induction l as [|a l IH]; intros history H; cbn [fold_left].
  - assumption.
  - apply IH. now apply history_step_NoDup.
Qed.

(** The loop of [taskhistory]: it ends with five tasks or more, of
    distinct uris; each turn that does not end it has sent two
    requests. *)
Lemma history_loop_inv (replicon : Replicon.t) (fuel : nat) :
  Replicon.debug replicon = false ->
  forall (day : datetime.date) (history : list Task.t) (w : world),
    NoDup (map Task.uri history) ->
    let r := CLI.history_loop fuel replicon day history w in
    (forall h, snd r = Return (Some h) ->
       NoDup (map Task.uri h) /\ CLI.HISTORY_LENGTH <= length h /\
       stdout (fst r) = stdout w) /\
    (snd r = Return None ->
     length (sent (fst r)) = length (sent w) + 2 * fuel /\
     stdout (fst r) = stdout w).
Proof.
  intros Hdbg. induction fuel as [|fuel IH]; intros day history w Hnd;
    cbn [CLI.history_loop].
  - destruct (Nat.ltb_spec (length history) CLI.HISTORY_LENGTH) as [Hlt|Hge]; cbn.
    + split; [discriminate|]. intros _. split; [lia | reflexivity].
    + split; [|discriminate]. intros h [= <-]. auto.
  - destruct (Nat.ltb_spec (length history) CLI.HISTORY_LENGTH) as [Hlt|Hge].
    2: { cbn. split; [|discriminate]. intros h [= <-]. auto. }
    cbn [bind IO_Monad].
    destruct (Session.getTimesheet replicon (Some day) w) as [w1 [ts|e]] eqn:E.
    2: { cbn. split; [intros h|]; discriminate. }
    apply getTimesheet_Return in E
      as (base & j1 & d1 & t1 & uri & j2 & d2 & _ & _ & _ & _ & _ & _ & _ & _ & Hsent
          & _ & _ & _ & _ & Hout).
    unfold lift.
    destruct (day_before (Timesheet.start_date ts)) as [day'|e].
    2: { cbn. split; [intros h|]; discriminate. }
    specialize (IH day' (fold_left CLI.history_step (Timesheet.timeAllocations ts) history)
                  w1 (history_fold_NoDup _ _ Hnd)).
    cbv zeta in IH. destruct IH as [IHsome IHnone].
    cbv beta iota zeta. rewrite <- (Hout Hdbg). split.
    + exact IHsome.
    + intros H. destruct (IHnone H) as [Hlen Hstd]. split; [|assumption].
      rewrite Hlen, Hsent. cbn [length]. lia.
Qed.

Lemma print_tasks (ts : list Task.t) (w : world) :
  let r := for_each ts (fun (_ : unit) t => print (Task_repr t)) tt w in
  snd r = Return tt /\ stdout (fst r) = stdout w ++ map Task_repr ts.
Proof.
  match goal with |- context [for_each ts ?b tt] => set (body := b) end.
  revert w. induction ts as [|t ts IH]; intros w; cbn [for_each map].
  - cbn. now rewrite app_nil_r.
  - set (w1 := fst (body tt t w)).
    assert (Hb : body tt t w = (w1, Return tt)) by reflexivity.
    cbn [bind IO_Monad]. rewrite Hb.
    specialize (IH w1). cbv zeta in IH. destruct IH as (Hr & Hout).
    cbv zeta. rewrite Hr, Hout. subst w1 body. unfold print. cbn [fst stdout].
    now rewrite <- app_assoc.
Qed.

(** X13. [taskhistory] has one way to its end: five tasks found.  When
    the command ends, it has printed its heading and then exactly five
    tasks, of five distinct uris.  While the timesheets it walks back
    through have given fewer than five distinct tasks, it goes on: after
    any number of turns of its loop it has sent two requests for each
    of them and is in the loop still.  (Without the debug flag, which
    prints the requests in between.) *)
Theorem taskhistory_ends_with_five_tasks (fuel : nat) (replicon : Replicon.t)
    (date : datetime.date) (w : world) :
  Replicon.debug replicon = false ->
  let r := CLI.taskhistory fuel replicon date w in
  (snd r = Return true ->
   exists ts,
     stdout (fst r)
     = stdout w ++ Line "Most recent %d tasks:" [VInt 5] :: map Task_repr ts /\
     length ts = 5 /\ NoDup (map Task.uri ts)) /\
  (snd r = Return false ->
   length (sent (fst r)) = length (sent w) + 2 * fuel /\
   stdout (fst r) = stdout w ++ [Line "Most recent %d tasks:" [VInt 5]]).
Proof.
  intros Hdbg r.
  set (w1 := fst (print (Line "Most recent %d tasks:" [VInt 5]) w)).
  assert (Hrun : r = let (w2, o) := CLI.history_loop fuel replicon date [] w1 in
                     match o with
                     | Return (Some h) =>
                         let (w3, o1) :=
                           for_each (take CLI.HISTORY_LENGTH h)
                             (fun (_ : unit) t => print (Task_repr t)) tt w2 in
                         match o1 with
                         | Return _ => (w3, Return true)
                         | Raise e => (w3, Raise e)
                         end
                     | Return None => (w2, Return false)
                     | Raise e => (w2, Raise e)
                     end).
  { subst r w1. unfold CLI.taskhistory. cbn [bind IO_Monad]. unfold print at 1.
    cbn [fst]. destruct (CLI.history_loop _ _ _ _ _) as [w2 [[h|]|e]]; reflexivity. }
  clearbody r. subst r.
  destruct (history_loop_inv replicon fuel Hdbg date [] w1 NoDup_nil_2)
    as [Hsome Hnone].
  destruct (CLI.history_loop fuel replicon date [] w1) as [w2 [[h|]|e]];
    cbn [fst snd] in *.
  - destruct (Hsome h eq_refl) as (Hnd & Hlen & Hout).
    destruct (print_tasks (take CLI.HISTORY_LENGTH h) w2) as (Hr & Hprinted).
    destruct (@for_each IO _ _ _ _ _ tt w2) as [w3 o]. cbn [fst snd] in *. subst o.
    cbn [fst snd]. split; [|discriminate]. intros _.
    exists (take CLI.HISTORY_LENGTH h). split; [|split].
    + rewrite Hprinted, Hout. subst w1. cbn [stdout print fst].
      now rewrite <- app_assoc.
    + rewrite length_take. unfold CLI.HISTORY_LENGTH in *. lia.
    + rewrite <- List.firstn_map. apply (sublist_NoDup _ (map Task.uri h)); [assumption|].
      apply sublist_take.
  - split; [discriminate|]. intros _.
    destruct (Hnone eq_refl) as [Hlen Hout]. rewrite Hlen, Hout. subst w1. auto.
  - split; discriminate.
Qed.

Lemma taskhistory_ends_with_five_tasks_witness :
  (let r := CLI.taskhistory 1 Sample.session (Sample.jan 2) Fixture.busy in
   snd r = Return true /\
   exists ts, stdout (fst r) = Line "Most recent %d tasks:" [VInt 5] :: map Task_repr ts /\
              length ts = 5) /\
  (let r := CLI.taskhistory 3 Sample.session (Sample.jan 2) Fixture.office in
   snd r = Return false /\ length (sent (fst r)) = 6).
Proof.
  split; intros r.
  - assert (H : snd r = Return true) by (vm_compute; reflexivity).
    split; [exact H|].
    destruct (proj1 (taskhistory_ends_with_five_tasks 1 Sample.session (Sample.jan 2)
                       Fixture.busy eq_refl) H) as (ts & Hout & Hlen & _).
    exists ts. split; [exact Hout | exact Hlen].
  - assert (H : snd r = Return false) by (vm_compute; reflexivity).
    split; [exact H|].
    exact (proj1 (proj2 (taskhistory_ends_with_five_tasks 3 Sample.session (Sample.jan 2)
                           Fixture.office eq_refl) H)).
Defined.

(** ** The configuration *)

(** X14. [Config()] keeps what succeeded and nothing else.  In a home
    directory without [~/.repliconrc] the first call writes the template
    and raises; the failure is not kept, so a second call in the same
    process reads the template just written and returns it, placeholder
    credentials and all.  From then on every call returns that
    configuration, whatever the files hold by then. *)
Theorem Config_keeps_success_only (w : world) :
  files w !! "~/.repliconrc" = None -> Config_instance w = None ->
  let r1 := Config.call w in
  let r2 := Config.call (fst r1) in
  (snd r1 = Raise IOError \/ snd r1 = Raise OSError) /\
  snd r2 = Return {| Config.cfg := Config.template |} /\
  Config.get_auth {| Config.cfg := Config.template |}
    = Return ("CompanyKey\user@example.com", "replicon_password") /\
  forall w3, Config_instance w3 = Config_instance (fst r2) ->
             Config.call w3 = (w3, Return {| Config.cfg := Config.template |}).
Proof.
  intros Hrc Hi r1 r2.
  assert (H1 : (snd r1 = Raise IOError \/ snd r1 = Raise OSError) /\
               Config_instance (fst r1) = None /\
               exists m, files (fst r1) !! "~/.repliconrc"
                         = Some {| content := Config.template; mode := m |}).
  { subst r1 r2. unfold Config.call. rewrite Hi.
    unfold Config.__init__, ConfigParser_read, Config._create_empty_config,
      open_write, os_chmod, raise, set_files.
    cbn [bind ret IO_Monad outcome_Monad files umask fst snd].
    rewrite !Hrc. cbn [fmap option_fmap option_map files umask fst snd].
    rewrite lookup_insert_ne by discriminate.
    destruct (files w !! "~/.togglrc") as [f|];
      cbn [files fst snd Config_instance].
    - rewrite lookup_insert_ne by discriminate. rewrite lookup_insert_eq. eauto.
    - rewrite lookup_insert_eq. eauto. }
  destruct H1 as (Hr1 & Hi1 & m & Hf1).
  assert (H2 : snd r2 = Return {| Config.cfg := Config.template |} /\
               Config_instance (fst r2) = Some Config.template).
  { subst r2. unfold Config.call. rewrite Hi1.
    unfold Config.__init__, ConfigParser_read. cbn [bind ret IO_Monad].
    rewrite Hf1. cbn. auto. }
  destruct H2 as (Hr2 & Hi2).
  repeat split; try assumption.
  intros w3 Hi3. apply Config_call_again. congruence.
Qed.

Lemma Config_keeps_success_only_witness :
  snd (Config.call Sample.fresh_home) = Raise OSError /\
  snd (Config.call (fst (Config.call Sample.fresh_home)))
  = Return {| Config.cfg := Config.template |}.
Proof.
  destruct (Config_keeps_success_only Sample.fresh_home eq_refl eq_refl)
    as (_ & Hr2 & _).
  split; [vm_compute; reflexivity | exact Hr2].
Defined.

Lemma Config_call_first (w : world) (f : file) :
  Config_instance w = None -> files w !! "~/.repliconrc" = Some f ->
  exists w1,
    Config.call w = (w1, Return {| Config.cfg := content f |}) /\
    Config_instance w1 = Some (content f) /\
    sent w1 = sent w /\ stdout w1 = stdout w /\ network w1 = network w.
Proof.
  intros Hi Hf. unfold Config.call. rewrite Hi.
  unfold Config.__init__, ConfigParser_read. cbn [bind ret IO_Monad].
  rewrite Hf. cbn. eauto 10.
Qed.

(** The discovery call sends its request, whatever becomes of it, and
    nothing else. *)
Lemma discovery_sent (companyKey : string) (w : world) :
  sent (fst (try_except
    (swimlaneFinder <- requests_post Replicon.swimlaneFinderUrl
                         (VDict [("tenant", VDict [("companyKey", VStr companyKey)])])
                         None ;;
     swimlaneFinder <- lift (response_json swimlaneFinder) ;;
     err <- lift (Py.get swimlaneFinder "error") ;;
     if truthy err then
       print (Line "Error: {0}" [err]) ;;
       sys_exit 1
     else
       d <- lift (getitem swimlaneFinder "d") ;;
       lift (getitem d "applicationRootUrl"))
    (fun e => print (LineExn "Error: {0}" e) ;; sys_exit 1) w))
  = discovery_request companyKey :: sent w.
Proof.
  unfold try_except, sys_exit, raise, lift, print, requests_post, discovery_request.
  cbn [bind ret IO_Monad outcome_Monad stdout sent network files umask
       Config_instance fst snd].
  match goal with
  | |- context [network ?w0 ?l] => destruct (network w0 l) as [[[j|]]|] eqn:Hn
  end; io_simpl; try reflexivity.
  destruct j as [| | | | |dd]; io_simpl; try reflexivity.
  destruct (assoc "error" dd) as [e|] eqn:He; io_simpl;
    [destruct (truthy e) eqn:Ht | change (truthy VNone) with false];
    io_simpl; try reflexivity.
  all: destruct (assoc "d" dd) as [d|] eqn:Hd;
    cbn [bind ret IO_Monad outcome_Monad stdout sent network files umask
         Config_instance fst snd is_Exception]; try reflexivity.
  all: destruct (getitem d "applicationRootUrl") as [s|ex] eqn:Hroot;
    [|destruct (is_Exception ex)]; reflexivity.
Qed.

(** A call of [_getUrl] sends one request or, when the swimlane is no
    string, none. *)
Lemma getUrl_sent_any (self : Replicon.t) (url : string) (data : value) (w : world) :
  sent (fst (Replicon._getUrl self url data w)) = sent w \/
  exists base, Replicon.swimlane self = VStr base /\
               sent (fst (Replicon._getUrl self url data w))
               = api_request self base url data :: sent w.
Proof.
  destruct (Replicon.swimlane self) as [| | |base| |] eqn:Hs;
    try (left; io_unfold; unfold Replicon.full_url; rewrite Hs; reflexivity).
  right. exists base. split; [reflexivity|]. now apply getUrl_sent.
Qed.

(** Running a sequence whose first part is known *)
Lemma IO_bind_run {A B : Type} (m : IO A) (k : A -> IO B) (w w1 : world) (a : A) :
  m w = (w1, Return a) -> bind m k w = k a w1.
Proof. intros H. cbn [bind IO_Monad]. now rewrite H. Qed.

Lemma IO_bind_stop {A B : Type} (m : IO A) (k : A -> IO B) (w w1 : world) (e : exn) :
  m w = (w1, Raise e) -> bind m k w = (w1, Raise e).
Proof. intros H. cbn [bind IO_Monad]. now rewrite H. Qed.

(** X15. The construction of a session reads the three options of the
    [auth] section before it sends anything.  When the section or one
    of the options is missing, it raises the error of [ConfigParser]
    to its caller, with no request sent and nothing printed.  When they
    are there, the first request is the discovery call with the
    configured company key, and at most the call for the enabled users
    follows it. *)
Theorem session_construction_reads_config (date : datetime.date) (debug : bool)
    (w : world) (f : file) :
  Config_instance w = None -> files w !! "~/.repliconrc" = Some f ->
  let c := {| Config.cfg := content f |} in
  let r := Replicon.__init__ date debug w in
  match Config.get_auth c with
  | Return auth =>
      exists company,
        Config.get c "auth" "company" = Return company /\
        (sent (fst r) = discovery_request company :: sent w \/
         exists base,
           sent (fst r)
           = users_request auth base :: discovery_request company :: sent w)
  | Raise e =>
      snd r = Raise e /\ (e = NoSectionError \/ e = NoOptionError) /\
      sent (fst r) = sent w /\ stdout (fst r) = stdout w
  end.
Proof.
  intros Hi Hf c r.
  destruct (Config_call_first w f Hi Hf) as (w1 & Hcall & Hi1 & Hs1 & Ho1 & _).
  pose proof (Config_call_again w1 _ Hi1) as Hagain. fold c in Hcall, Hagain.
  assert (Hkind : forall k e, Config.get c "auth" k = Raise e ->
                              e = NoSectionError \/ e = NoOptionError).
  { intros k e. unfold Config.get, ConfigParser.get.
    destruct (assoc "auth" (Config.cfg c)) as [opts|]; cbn; [|intros [= <-]; auto].
    destruct (assoc k opts); cbn; [discriminate | intros [= <-]; auto]. }
  subst r. unfold Replicon.__init__.
  rewrite (IO_bind_run _ _ _ _ _ Hcall).
  unfold Config.get_auth.
  destruct (Config.get c "auth" "company") as [company|e] eqn:Hcompany;
    cbn [bind outcome_Monad].
  2: { rewrite (IO_bind_stop _ _ w1 w1 e eq_refl). cbn [fst snd].
       repeat split; eauto. }
  rewrite (IO_bind_run _ _ w1 w1 company eq_refl).
  rewrite (IO_bind_run _ _ _ _ _ Hagain).
  destruct (Config.get c "auth" "username") as [username|e] eqn:Husername;
    cbn [bind outcome_Monad].
  2: { rewrite (IO_bind_stop _ _ w1 w1 e eq_refl). cbn [fst snd].
       repeat split; eauto. }
  rewrite (IO_bind_run _ _ w1 w1 username eq_refl).
  rewrite (IO_bind_run _ _ _ _ _ Hagain).
  unfold Config.get_auth. rewrite Hcompany, Husername. cbn [bind outcome_Monad].
  destruct (Config.get c "auth" "password") as [password|e] eqn:Hpassword;
    cbn [bind ret outcome_Monad].
  2: { rewrite (IO_bind_stop _ _ w1 w1 e eq_refl). cbn [fst snd].
       repeat split; eauto. }
  rewrite (IO_bind_run _ _ w1 w1
             (String.append company (String.append "\" username), password) eq_refl).
  exists company. split; [reflexivity|].
  pose proof (discovery_sent company w1) as Hd.
  match type of Hd with
  | sent (fst (?D w1)) = _ => destruct (D w1) as [w2 [swimlane|e]] eqn:ED
  end; cbn [fst] in Hd.
  2: { rewrite (IO_bind_stop _ _ _ _ _ ED). left. cbn [fst]. congruence. }
  rewrite (IO_bind_run _ _ _ _ _ ED).
  match goal with
  | |- context [Replicon._getUrl ?self0 ?url ?data] =>
      pose proof (getUrl_sent_any self0 url data w2) as Hu;
      destruct (Replicon._getUrl self0 url data w2) as [w3 [users|e]] eqn:EU
  end; cbn [fst Replicon.auth] in Hu.
  all: assert (Hw3 : sent w3 = discovery_request company :: sent w \/
                exists base, sent w3 = users_request
                                         (String.append company (String.append "\" username),
                                          password) base
                                       :: discovery_request company :: sent w)
         by (destruct Hu as [Hu|(base & _ & Hu)]; rewrite Hu, Hd, Hs1; eauto).
  2: { rewrite (IO_bind_stop _ _ _ _ _ EU). exact Hw3. }
  rewrite (IO_bind_run _ _ _ _ _ EU).
  destruct (Py.iter users) as [us|e].
  2: { rewrite (IO_bind_stop _ _ w3 w3 e eq_refl). exact Hw3. }
  rewrite (IO_bind_run _ _ w3 w3 us eq_refl).
  destruct (Replicon.scan_users us username) as [[u|]|e].
  2: { rewrite (IO_bind_run _ _ w3 w3 None eq_refl). exact Hw3. }
  2: { rewrite (IO_bind_stop _ _ w3 w3 e eq_refl). exact Hw3. }
  rewrite (IO_bind_run _ _ w3 w3 (Some u) eq_refl).
  destruct (truthy u); cbn [negb].
  - destruct (split_colon u) as [parts|e].
    + rewrite (IO_bind_run _ _ w3 w3 parts eq_refl). exact Hw3.
    + rewrite (IO_bind_stop _ _ w3 w3 e eq_refl). exact Hw3.
  - exact Hw3.
Qed.

Lemma session_construction_reads_config_witness :
  let w := Sample.world_of Sample.rejecting_server
             {[ "~/.repliconrc" :=
                  {| content := [("auth", [("company", "acme"); ("username", "kim")])];
                     mode := 384 |} ]} in
  let r := Replicon.__init__ (Sample.jan 2) false w in
  snd r = Raise NoOptionError /\ sent (fst r) = [].
Proof.
  intros w r.
  destruct (session_construction_reads_config (Sample.jan 2) false w _ eq_refl eq_refl)
    as (Hr & _ & Hsent & _).
  split; [exact Hr | exact Hsent].
Defined.

(** ** The ticket number of an allocation *)

Lemma ticket_step_inv (acc field r : value) :
  TimesheetAllocation.ticket_step acc field = Return r ->
  holds_ticket field r \/ (r = acc /\ forall txt, ~ holds_ticket field txt).
Proof.
  unfold TimesheetAllocation.ticket_step. intros H.
  apply bind_Return in H as (cf & Hcf & H).
  apply bind_Return in H as (n & Hn & H).
  destruct (Py.eqb n (VStr "Ticket #")) eqn:Hname.
  - apply bind_Return in H as (txt & Htxt & H).
    destruct (truthy txt) eqn:Ht.
    + left. rewrite Htxt in H. injection H as <-. exists cf, n. auto.
    + right. injection H as <-. split; [reflexivity|].
      intros txt' (cf' & n' & Hcf' & Hn' & _ & Htxt' & Ht'). congruence.
  - right. injection H as <-. split; [reflexivity|].
    intros txt' (cf' & n' & Hcf' & Hn' & Hname' & _). congruence.
Qed.

Lemma ticket_loop (fields : list value) (acc r : value) :
  for_each fields TimesheetAllocation.ticket_step acc = Return r ->
  (r = acc /\ Forall (fun f => forall txt, ~ holds_ticket f txt) fields) \/
  (exists before f after,
     fields = before ++ f :: after /\ holds_ticket f r /\
     Forall (fun g => forall txt, ~ holds_ticket g txt) after).
Proof.
  revert r. induction fields as [|x l IH] using rev_ind; intros r.
  - intros [= <-]. left. split; [reflexivity | constructor].
  - rewrite for_each_snoc. intros H.
    apply bind_Return in H as (acc' & Hacc' & H).
    apply ticket_step_inv in H as [Hx | [-> Hx]].
    + right. exists l, x, []. repeat split; [assumption | constructor].
    + destruct (IH _ Hacc') as [[-> Hl] | (before & f & after & -> & Hf & Hafter)].
      * left. split; [reflexivity|].
        apply Forall_app. split; [assumption | now repeat constructor].
      * right. exists before, f, (after ++ [x]). rewrite <- app_assoc.
        repeat split; try assumption.
        apply Forall_app. split; [assumption | now repeat constructor].
Qed.

(** X16. The ticket number of an allocation is the text of the last of
    its custom field values that is named ['Ticket #'] and has a
    non-empty text, also when an earlier value has one; it is the empty
    string when the allocation has no such value. *)
Theorem ticket_num_is_last_ticket (json : value) (a : TimesheetAllocation.t) :
  TimesheetAllocation.__init__ json = Return a ->
  exists cfs fields,
    getitem json "customFieldValues" = Return cfs /\
    Py.iter cfs = Return fields /\
    ((TimesheetAllocation.ticket_num a = VStr "" /\
      Forall (fun f => forall txt, ~ holds_ticket f txt) fields) \/
     (exists before f after,
        fields = before ++ f :: after /\
        holds_ticket f (TimesheetAllocation.ticket_num a) /\
        Forall (fun g => forall txt, ~ holds_ticket g txt) after)).
Proof.
  unfold TimesheetAllocation.__init__. intros H. inv_bind H.
  cbn in H. injection H as <-. cbn [TimesheetAllocation.ticket_num].
  match goal with
  | Hc : getitem json "customFieldValues" = Return ?c,
    Hi : Py.iter ?c = Return ?fs,
    Hl : for_each ?fs TimesheetAllocation.ticket_step _ = Return _ |- _ =>
      exists c, fs; split; [exact Hc|]; split; [exact Hi|];
      exact (ticket_loop _ _ _ Hl)
  end.
Qed.

Lemma ticket_num_is_last_ticket_witness :
  exists a,
    TimesheetAllocation.__init__
      (VDict [ ("date", date_to_dict (Sample.jan 2));
               ("comments", VStr "standup");
               ("duration", duration_dict 0 0 3600);
               ("project", Sample.P1_json);
               ("task", Sample.T1_json);
               ("customFieldValues",
                VList [ VDict [ ("customField", VDict [("name", VStr "Ticket #")]);
                                ("text", VStr "41") ];
                        VDict [ ("customField", VDict [("name", VStr "Ticket #")]);
                                ("text", VStr "42") ];
                        VDict [ ("customField", VDict [("name", VStr "Ticket #")]);
                                ("text", VStr "") ] ]) ])
    = Return a /\
    TimesheetAllocation.ticket_num a = VStr "42".
Proof.
  match goal with
  | |- exists a, ?init = Return a /\ _ => destruct init as [a|e] eqn:E
  end; [|vm_compute in E; discriminate].
  exists a. split; [reflexivity|].
  destruct (ticket_num_is_last_ticket _ a E) as (cfs & fields & _).
  vm_compute in E. injection E as <-. reflexivity.
Defined.

(** ** Sending what was booked *)

Lemma book_all_built (bs : list booking) (self : Timesheet.t) :
  Forall has_project (Timesheet.timeAllocations self) ->
  Forall has_project (Timesheet.timeAllocations (book_all self bs)) /\
  Timesheet.uri (book_all self bs) = Timesheet.uri self.
Proof.
  revert self. unfold book_all.
  induction bs as [|b bs IH]; intros self H; cbn [fold_left]; [auto|].
  match goal with
  | |- context [fold_left ?f bs ?s1] => destruct (IH s1) as [Hall Huri]
  end.
  - now apply book_keeps_built.
  - split; [exact Hall|]. rewrite Huri. unfold Timesheet.book.
    destruct (Timesheet.book_loop _ _ _) as [[tas' [|]]|e]; try reflexivity.
    destruct (TimesheetAllocation.__init__ _); reflexivity.
Qed.

(** X17. A timesheet that the constructor built can always be sent,
    whatever was booked on it in between, bookings that raised
    included: [put_json] returns the request for it and does not raise
    (no allocation of such a timesheet lacks the project that the rows
    are made from), the request is for the uri the timesheet was built
    with, and [put] sends it in one call. *)
Theorem booked_timesheet_can_be_put (j : value) (ts : Timesheet.t)
    (bs : list booking) :
  Timesheet.__init__ j = Return ts ->
  let ts' := book_all ts bs in
  Timesheet.uri ts' = Timesheet.uri ts /\
  exists rows,
    Timesheet.put_json ts' = Return (Timesheet.put_data ts' rows) /\
    forall (replicon : Replicon.t) (w : world) (base : string),
      Replicon.swimlane replicon = VStr base ->
      sent (fst (Timesheet_put replicon ts' w))
      = api_request replicon base
          "services/TimesheetService1.svc/PutStandardTimesheet2"
          (Timesheet.put_data ts' rows) :: sent w.
Proof.
  intros Hts ts'.
  destruct (Timesheet_init_built _ _ Hts) as (_ & _ & Hproj).
  destruct (book_all_built bs ts Hproj) as [Hall Huri]. fold ts' in Hall, Huri.
  split; [exact Huri|].
  destruct (put_json_loop _ Hall) as (m & Hloop & _).
  exists (Timesheet.dict_values m).
  assert (Hput : Timesheet.put_json ts'
                 = Return (Timesheet.put_data ts' (Timesheet.dict_values m))).
  { unfold Timesheet.put_json, Timesheet.put_rows. now rewrite Hloop. }
  split; [exact Hput|].
  intros replicon w base Hs.
  unfold Timesheet_put, Replicon.putTimesheet. rewrite Hput.
  rewrite (IO_bind_run _ _ w w _ eq_refl).
  rewrite <- (getUrl_sent replicon _ _ w base Hs).
  cbn [bind IO_Monad]. destruct (Replicon._getUrl _ _ _ w) as [w' [d|e]]; reflexivity.
Qed.

Lemma booked_timesheet_can_be_put_witness :
  let ts' := book_all Sample.two_days
               [ {| booking_date := Sample.jan 4; booking_project := None;
                    booking_task := None; booking_duration := 600;
                    booking_comment := VNone; booking_fieldset := None |};
                 {| booking_date := Sample.jan 2; booking_project := Some Sample.P1;
                    booking_task := Some Sample.T1; booking_duration := 1800;
                    booking_comment := VStr "standup"; booking_fieldset := None |} ] in
  TimesheetAllocation.duration_seconds <$> Timesheet.timeAllocations ts' = [5400; 1800]%Z /\
  exists rows, Timesheet.put_json ts' = Return (Timesheet.put_data ts' rows).
Proof.
  intros ts'. split; [vm_compute; reflexivity|].
  assert (Hts : Timesheet.__init__
                  (Sample.timesheet_json
                     [ Sample.allocation_json (Sample.jan 2) 3600 Sample.P1_json Sample.T1_json;
                       Sample.allocation_json (Sample.jan 3) 1800 Sample.P1_json Sample.T1_json ])
                = Return Sample.two_days) by (vm_compute; reflexivity).
  destruct (booked_timesheet_can_be_put _ _
              [ {| booking_date := Sample.jan 4; booking_project := None;
                   booking_task := None; booking_duration := 600;
                   booking_comment := VNone; booking_fieldset := None |};
                {| booking_date := Sample.jan 2; booking_project := Some Sample.P1;
                   booking_task := Some Sample.T1; booking_duration := 1800;
                   booking_comment := VStr "standup"; booking_fieldset := None |} ] Hts)
    as (_ & rows & Hput & _).
  exists rows. exact Hput.
Defined.

(** X18. The [clear] subcommand fetches the timesheet of the date and
    then sends one request more: the PUT of that timesheet, under the
    uri the server gave for it, with no rows, whatever allocations the
    timesheet held.  When the timesheet cannot be fetched, the command
    ends as [getTimesheet] did and the PUT is not sent. *)
Theorem clear_command_puts_no_rows (replicon : Replicon.t) (date : datetime.date)
    (w : world) :
  let r := CLI.clear replicon date w in
  let r0 := Session.getTimesheet replicon (Some date) w in
  match snd r0 with
  | Return ts =>
      exists base uri,
        Replicon.swimlane replicon = VStr base /\
        sent (fst r)
        = api_request replicon base
            "services/TimesheetService1.svc/PutStandardTimesheet2"
            (Timesheet.put_data (Timesheet.set_timeAllocations ts []) [])
          :: details_request replicon base uri
          :: lookup_request replicon base date
          :: sent w /\
        Timesheet.uri (Timesheet.set_timeAllocations ts []) = Timesheet.uri ts
  | Raise e => r = (fst r0, Raise e)
  end.
Proof.
  intros r r0. subst r r0. unfold CLI.clear.
  destruct (Session.getTimesheet replicon (Some date) w) as [w1 [ts|e]] eqn:E;
    cbn [fst snd].
  - rewrite (IO_bind_run _ _ _ _ _ E).
    apply getTimesheet_Return in E
      as (base & j1 & d1 & t1 & uri & j2 & d2 & Hs & _ & _ & _ & _ & _ & _ & _ & Hsent & _).
    exists base, uri. split; [assumption|]. split; [|reflexivity].
    cbn [Timesheet_clear snd]. unfold Timesheet_put, Replicon.putTimesheet.
    assert (Hput : Timesheet.put_json (Timesheet.set_timeAllocations ts [])
                   = Return (Timesheet.put_data (Timesheet.set_timeAllocations ts []) []))
      by reflexivity.
    rewrite Hput. rewrite (IO_bind_run _ _ w1 w1 _ eq_refl).
    cbn [date_or_default] in Hsent. rewrite <- Hsent.
    rewrite <- (getUrl_sent replicon _ _ w1 base Hs).
    cbn [bind IO_Monad]. destruct (Replicon._getUrl _ _ _ w1) as [w' [d|e]]; reflexivity.
  - now rewrite (IO_bind_stop _ _ _ _ _ E).
Qed.

(** X19. [getProjects] without a client fetches the timesheet of the
    session's date again, on every call, and puts it in place of the
    timesheet the session held; the projects are then asked for with
    the uri of that timesheet and a null [clientUri].  The clients the
    session holds are left as they were. *)
Theorem getProjects_without_client_refetches (self self' : Replicon.t)
    (w w' : world) (ps : list Project.t) :
  Session.getProjects None self w = ((self', w'), Return ps) ->
  exists base ts w1,
    Replicon.swimlane self = VStr base /\
    Session.getTimesheet self None w = (w1, Return ts) /\
    Replicon.timesheet self' = Some ts /\
    Replicon.clients self' = Replicon.clients self /\
    sent w' = projects_request self base (Timesheet.uri ts) VNone :: sent w1 /\
    length (sent w') = length (sent w) + 3.
Proof.
  unfold Session.getProjects. intros H.
  apply Method_bind_Return in H as (cu & s1 & w1 & E1 & H).
  apply Method_bind_Return in E1 as (ts & s2 & w2 & E2 & E1).
  apply reading_Return in E2 as [-> E2].
  apply Method_bind_Return in E1 as ([] & s3 & w3 & E3 & E1).
  unfold set_timesheet in E3. injection E3 as <- <-.
  injection E1 as <- <- <-.
  apply reading_Return in H as [-> H].
  cbn [Session.timesheet_uri Replicon.timesheet] in H.
  rewrite (IO_bind_run _ _ w2 w2 (Timesheet.uri ts) eq_refl) in H.
  pose proof (getTimesheet_Return _ _ _ _ _ E2)
    as (base & j1 & d1 & t1 & uri & j2 & d2 & Hs & _ & _ & _ & _ & _ & _ & _ & Hsent & _).
  exists base, ts, w2. split; [assumption|]. split; [assumption|].
  split; [reflexivity|]. split; [reflexivity|].
  match type of H with
  | ?call w2 = _ =>
      assert (Hp : sent (fst (call w2))
                   = projects_request self base (Timesheet.uri ts) VNone :: sent w2)
  end.
  { unfold projects_request, api_request.
    rewrite (getProjectsAvailableForTimesheetAndClient_sent _ _ _ _ base) by exact Hs.
    reflexivity. }
  rewrite H in Hp. cbn [fst] in Hp.
  split; [exact Hp|]. rewrite Hp. cbn [length]. rewrite Hsent. cbn [length]. lia.
Qed.

Lemma getProjects_without_client_refetches_witness :
  let r := Session.getProjects None Sample.session Fixture.office in
  snd r = Return [Sample.P1] /\ length (sent (snd (fst r))) = 3.
Proof.
  intros r.
  assert (H : r = (fst r, Return [Sample.P1])) by (vm_compute; reflexivity).
  split; [now rewrite H|].
  rewrite (surjective_pairing (fst r)) in H.
  destruct (getProjects_without_client_refetches _ _ _ _ _ H)
    as (base & ts & w1 & _ & _ & _ & _ & _ & Hlen).
  exact Hlen.
Defined.


(** ** Booking on a project *)

Lemma book_loop_of_int (tas : list TimesheetAllocation.t) (ta : value) (z : Z) :
  book_loop_of tas ta (VInt z) = Timesheet.book_loop tas ta z.
Proof.
  induction tas as [|tb tas IH]; cbn [book_loop_of Timesheet.book_loop]; [reflexivity|].
  destruct (TimesheetAllocation.same_fields_as tb ta) as [[|]|e];
    cbn [bind ret outcome_Monad iadd_duration]; try reflexivity.
  now rewrite IH.
Qed.

(** For a number of seconds, [Timesheet_book] is [Timesheet.book]. *)
Lemma Timesheet_book_int (self : Timesheet.t) (date : datetime.date)
    (project : option Project.t) (task : option Task.t) (z : Z) (comment : value)
    (fieldset : option (CustomField.t * value)) :
  Timesheet_book self date project task (VInt z) comment fieldset
  = Timesheet.book self date project task z comment fieldset.
Proof.
  unfold Timesheet_book, Timesheet.book. rewrite book_loop_of_int. reflexivity.
Qed.

Lemma book_loop_of_merges (tas : list TimesheetAllocation.t) (ta : value)
    (duration : value) (i : nat) (tb : TimesheetAllocation.t) :
  merges_at tas ta i tb ->
  book_loop_of tas ta duration
  = (tb' <- iadd_duration tb duration ;; ret (<[i := tb']> tas, true)).
Proof.
  revert i. induction tas as [|t tas IH]; intros i (Hi & Htb & Hbefore).
  - discriminate.
  - cbn [book_loop_of]. destruct i as [|i].
    + cbn in Hi. injection Hi as ->. step Htb. reflexivity.
    + assert (Ht : TimesheetAllocation.same_fields_as t ta = Return false)
        by (apply (Hbefore 0); [lia | reflexivity]).
      step Ht. cbn in Hi.
      rewrite (IH i).
      * destruct (iadd_duration tb duration); reflexivity.
      * split; [assumption|]. split; [assumption|].
        intros k tb' Hk Hl. apply (Hbefore (S k)); [lia | exact Hl].
Qed.

Lemma book_loop_of_no_match (tas : list TimesheetAllocation.t) (ta : value)
    (duration : value) :
  (forall tb, In tb tas -> TimesheetAllocation.same_fields_as tb ta = Return false) ->
  book_loop_of tas ta duration = Return (tas, false).
Proof.
  induction tas as [|t tas IH]; intros H; cbn [book_loop_of].
  - reflexivity.
  - rewrite (H t (or_introl eq_refl)). cbn [bind ret outcome_Monad].
    rewrite IH; [reflexivity|]. intros tb Hin. apply H. now right.
Qed.

Lemma book_record_of_has_fields (date : datetime.date) (project : option Project.t)
    (task : option Task.t) (duration : value) (comment : value) :
  has_fields (book_record_of date project task duration comment).
Proof.
  intros f Hf. cbn in Hf.
  destruct Hf as [<- | [<- | [<- | [<- | []]]]]; cbn; eauto.
Qed.

(** The record of a request with a project is one the constructor
    accepts exactly when [int] converts the duration. *)
Lemma TimesheetAllocation_init_book_record_of (date : datetime.date) (p : Project.t)
    (task : option Task.t) (duration : value) (comment : value) :
  datetime.valid date = true ->
  Project_built p ->
  (forall t, task = Some t -> Task_built t) ->
  TimesheetAllocation.__init__ (book_record_of date (Some p) task duration comment)
  = (n <- Py.int duration ;;
     ret {| TimesheetAllocation.json :=
              book_record_of date (Some p) task duration comment;
            TimesheetAllocation.date := date;
            TimesheetAllocation.comments := comment;
            TimesheetAllocation.duration_seconds := n;
            TimesheetAllocation.project := Some p;
            TimesheetAllocation.task := task;
            TimesheetAllocation.ticket_num := VStr "";
            TimesheetAllocation.rowkey :=
              match task with
              | Some t => String.append (Project.uri p) (Task.uri t)
              | None => Project.uri p
              end |}).
Proof.
  intros Hd Hp Ht.
  assert (Hdate : dict_to_date (date_to_dict date) = Return date).
  { pose proof (TimesheetAllocation_init_book_record date p task 0 comment Hd Hp Ht) as H0.
    apply TimesheetAllocation_init_inv in H0 as (_ & (d & Hgd & Hdd) & _).
    cbn in Hgd. injection Hgd as <-. exact Hdd. }
  destruct Hp as (jp & Hp).
  set (ta := book_record_of date (Some p) task duration comment).
  assert (Hproj : getitem ta "project" = Return (Project.json p)) by reflexivity.
  assert (Htask : getitem ta "task"
                  = Return match task with Some t => Task.json t | None => VNone end)
    by reflexivity.
  unfold TimesheetAllocation.__init__.
  replace (getitem ta "date") with (Return (A := value) (date_to_dict date)) by reflexivity.
  cbn [bind ret outcome_Monad]. step Hdate.
  replace (getitem ta "comments") with (Return (A := value) comment) by reflexivity.
  replace (getitem ta "duration")
    with (Return (A := value)
            (VDict [ ("hours", VInt 0); ("minutes", VInt 0); ("seconds", duration) ]))
    by reflexivity.
  cbn [bind ret outcome_Monad].
  assert (Hsec : dict_to_seconds
                   (VDict [ ("hours", VInt 0); ("minutes", VInt 0); ("seconds", duration) ])
                 = Py.int duration).
  { unfold dict_to_seconds. cbn. destruct (Py.int duration); reflexivity. }
  rewrite Hsec.
  destruct (Py.int duration) as [n|e]; cbn [bind ret outcome_Monad]; [|reflexivity].
  step Hproj.
  assert (Htp : truthy (Project.json p) = true).
  { apply Project_init_inv in Hp as (_ & Hu & _). eapply getitem_truthy, Hu. }
  rewrite Htp. step (Project_init_again jp ta p Hp Hproj). step Htask.
  replace (getitem ta "customFieldValues") with (Return (A := value) (VList []))
    by reflexivity.
  destruct task as [t|].
  - destruct (Ht t eq_refl) as (jt & Hjt).
    assert (Htt : truthy (Task.json t) = true).
    { apply Task_init_inv in Hjt as (_ & Hu & _). eapply getitem_truthy, Hu. }
    rewrite Htt. step (Task_init_again jt ta t Hjt Htask). reflexivity.
  - reflexivity.
Qed.

(** X20. Booking on a project, on a timesheet that the constructor
    built; the duration is any value, a number of seconds or the text
    that the [book] subcommand passes.  The [fieldset] argument changes
    nothing.  If an allocation of the timesheet is identical to the
    request in date, project, task and custom field values, the first
    such allocation gets the duration added, and the list is otherwise
    as it was, when the duration is an integer (or a bool); for text,
    and for anything else, the addition raises [TypeError] and the
    timesheet is as it was.  If no allocation is identical, one
    allocation is appended, with the date, the project, the task and
    the comment of the request, no ticket number and the seconds that
    [int] makes of the duration; when [int] rejects the duration, its
    error is raised and the timesheet is as it was.  For a number of
    seconds the call always returns. *)
Theorem book_with_project_merges_or_appends (j : value) (self : Timesheet.t)
    (date : datetime.date) (p : Project.t) (task : option Task.t) (duration : value)
    (comment : value) (fieldset : option (CustomField.t * value)) :
  Timesheet.__init__ j = Return self ->
  datetime.valid date = true ->
  Project_built p ->
  (forall t, task = Some t -> Task_built t) ->
  let tas := Timesheet.timeAllocations self in
  let ta := book_record_of date (Some p) task duration comment in
  let r := Timesheet_book self date (Some p) task duration comment fieldset in
  (forall fieldset', Timesheet_book self date (Some p) task duration comment fieldset' = r) /\
  ((exists tb, In tb tas /\ identical tb ta) \/
   (forall tb, In tb tas -> ~ identical tb ta)) /\
  ((exists tb, In tb tas /\ identical tb ta) ->
   exists i tb,
     tas !! i = Some tb /\ identical tb ta /\
     (forall k tb', k < i -> tas !! k = Some tb' -> ~ identical tb' ta) /\
     match duration with
     | VInt z =>
         r = (Timesheet.set_timeAllocations self
                (<[i := TimesheetAllocation.add_duration tb z]> tas), Return tt)
     | VBool b =>
         r = (Timesheet.set_timeAllocations self
                (<[i := TimesheetAllocation.add_duration tb (Z.b2z b)]> tas), Return tt)
     | VNone | VStr _ | VList _ | VDict _ => r = (self, Raise TypeError)
     end) /\
  ((forall tb, In tb tas -> ~ identical tb ta) ->
   match Py.int duration with
   | Return n =>
       exists a,
         r = (Timesheet.set_timeAllocations self (tas ++ [a]), Return tt) /\
         TimesheetAllocation.date a = date /\
         TimesheetAllocation.project a = Some p /\
         TimesheetAllocation.task a = task /\
         TimesheetAllocation.duration_seconds a = n /\
         TimesheetAllocation.comments a = comment /\
         TimesheetAllocation.ticket_num a = VStr ""
   | Raise e => r = (self, Raise e)
   end) /\
  (forall z, duration = VInt z ->
     snd r = Return tt /\
     r = Timesheet.book self date (Some p) task z comment fieldset).
Proof.
  intros Hself Hd Hp Ht tas ta r.
  destruct (Timesheet_init_built _ _ Hself) as (_ & Hfields & _). fold tas in Hfields.
  pose proof (book_record_of_has_fields date (Some p) task duration comment) as Hta.
  fold ta in Hta.
  pose proof (TimesheetAllocation_init_book_record_of date p task duration comment Hd Hp Ht)
    as Hinit.
  fold ta in Hinit.
  assert (Hmerge : (exists tb, In tb tas /\ identical tb ta) ->
            exists i tb,
              tas !! i = Some tb /\ identical tb ta /\
              (forall k tb', k < i -> tas !! k = Some tb' -> ~ identical tb' ta) /\
              r = match iadd_duration tb duration with
                  | Return tb' =>
                      (Timesheet.set_timeAllocations self (<[i := tb']> tas), Return tt)
                  | Raise e => (self, Raise e)
                  end).
  { intros Hex.
    destruct (first_identical tas ta Hfields Hta Hex) as (i & tb & Hm).
    pose proof (book_loop_of_merges tas ta duration i tb Hm) as Hloop.
    destruct Hm as (Hi & Htb & Hbefore).
    exists i, tb. split; [assumption|].
    split; [now apply same_fields_as_identical|]. split.
    - intros k tb' Hk Hl.
      apply same_fields_as_not_identical; [| assumption | now apply (Hbefore k)].
      eapply (proj1 (List.Forall_forall _ _) Hfields), list_elem_of_In,
        list_elem_of_lookup_2, Hl.
    - subst r. unfold Timesheet_book. fold ta tas. rewrite Hloop.
      destruct (iadd_duration tb duration); reflexivity. }
  assert (Happend : (forall tb, In tb tas -> ~ identical tb ta) ->
            r = match TimesheetAllocation.__init__ ta with
                | Return a => (Timesheet.set_timeAllocations self (tas ++ [a]), Return tt)
                | Raise e => (self, Raise e)
                end).
  { intros Hno. subst r. unfold Timesheet_book. fold ta tas.
    rewrite book_loop_of_no_match; [reflexivity|].
    intros tb Hin. apply same_fields_as_not_identical; [| assumption | now apply Hno].
    now apply (proj1 (List.Forall_forall _ _) Hfields). }
  pose proof (identical_exists_or_not tas ta Hfields Hta) as Hcases.
  split; [reflexivity|]. split; [exact Hcases|]. split; [|split].
  - intros Hex. destruct (Hmerge Hex) as (i & tb & Hi & Hid & Hfirst & Hr).
    exists i, tb. split; [assumption|]. split; [assumption|]. split; [assumption|].
    destruct duration; exact Hr.
  - intros Hno. rewrite (Happend Hno), Hinit.
    destruct (Py.int duration) as [n|e]; cbn [bind ret outcome_Monad]; [|reflexivity].
    eexists. split; [reflexivity|]. repeat split.
  - intros z ->. split; [|apply Timesheet_book_int].
    destruct Hcases as [Hex | Hno].
    + destruct (Hmerge Hex) as (i & tb & _ & _ & _ & Hr). now rewrite Hr.
    + rewrite (Happend Hno), Hinit. reflexivity.
Qed.

Lemma book_with_project_merges_or_appends_witness :
  (let r := Timesheet_book Sample.two_days (Sample.jan 3) (Some Sample.P1)
              (Some Sample.T1) (VInt 900) (VStr "standup") None in
   snd r = Return tt /\
   TimesheetAllocation.duration_seconds <$> Timesheet.timeAllocations (fst r)
   = [3600; 2700]%Z) /\
  Timesheet_book Sample.two_days (Sample.jan 3) (Some Sample.P1)
    (Some Sample.T1) (VStr "900") (VStr "standup") None
  = (Sample.two_days, Raise TypeError).
Proof.
  assert (Hts : Timesheet.__init__
                  (Sample.timesheet_json
                     [ Sample.allocation_json (Sample.jan 2) 3600 Sample.P1_json Sample.T1_json;
                       Sample.allocation_json (Sample.jan 3) 1800 Sample.P1_json Sample.T1_json ])
                = Return Sample.two_days) by (vm_compute; reflexivity).
  assert (Hp : Project_built Sample.P1)
    by (exists (VDict [("project", Sample.P1_json)]); vm_compute; reflexivity).
  assert (Ht : forall t, Some Sample.T1 = Some t -> Task_built t)
    by (intros t [= <-]; exists (VDict [("task", Sample.T1_json)]); vm_compute; reflexivity).
  split.
  - intros r.
    destruct (book_with_project_merges_or_appends _ Sample.two_days (Sample.jan 3) Sample.P1
                (Some Sample.T1) (VInt 900) (VStr "standup") None Hts eq_refl Hp Ht)
      as (_ & _ & _ & _ & Hint).
    split; [exact (proj1 (Hint 900%Z eq_refl)) | vm_compute; reflexivity].
  - destruct (book_with_project_merges_or_appends _ Sample.two_days (Sample.jan 3) Sample.P1
                (Some Sample.T1) (VStr "900") (VStr "standup") None Hts eq_refl Hp Ht)
      as (_ & _ & Hmerge & _).
    destruct Hmerge as (i & tb & _ & _ & _ & Hr); [|exact Hr].
    exists (Sample.allocation (Sample.jan 3) 1800). split; [right; left; reflexivity|].
    intros f Hf. cbn in Hf.
    destruct Hf as [<- | [<- | [<- | [<- | []]]]];
      (eexists; eexists; split; [reflexivity|]; split; [reflexivity|];
       vm_compute; reflexivity).
Defined.

(** ** Dates on the wire *)

(** X21. [dict_to_date] returns a date exactly when the value has the
    keys ['year'], ['month'] and ['day'], what they hold converts with
    [int] (numbers in strings do), and the three numbers are a date of
    the calendar: it never returns a date that does not exist, and
    other keys are ignored. *)
Theorem dict_to_date_returns_calendar_dates (j : value) (D : datetime.date) :
  dict_to_date j = Return D <->
  datetime.valid D = true /\
  exists y m d,
    getitem j "year" = Return y /\ Py.int y = Return (datetime.year D) /\
    getitem j "month" = Return m /\ Py.int m = Return (datetime.month D) /\
    getitem j "day" = Return d /\ Py.int d = Return (datetime.day D).
Proof.
  split.
  - intros H. split; [exact (dict_to_date_valid _ _ H)|].
    unfold dict_to_date in H. inv_bind H.
    unfold datetime.new in H.
    destruct (negb _); [discriminate|].
    destruct (datetime.valid _); [|discriminate].
    injection H as <-. cbn. eauto 10.
  - intros (Hv & y & m & d & Hy & Hyi & Hm & Hmi & Hd & Hdi).
    unfold dict_to_date. step Hy. step Hyi. step Hm. step Hmi. step Hd. step Hdi.
    destruct D as [yy mm dd]. cbn [datetime.year datetime.month datetime.day].
    unfold datetime.new. rewrite Hv.
    unfold datetime.valid in Hv; cbn in Hv.
    assert (Hdm : (datetime.days_in_month yy mm <= 31)%Z).
    { unfold datetime.days_in_month.
      repeat match goal with |- context [if ?b then _ else _] => destruct b end; lia. }
    assert (Hfit : datetime.fits_c_int yy && datetime.fits_c_int mm
                   && datetime.fits_c_int dd = true).
    { unfold datetime.fits_c_int.
      repeat (apply andb_prop in Hv as [Hv ?]).
      repeat (apply andb_true_intro; split); lia. }
    rewrite Hfit. reflexivity.
Qed.
